(** * SceneManager: texture registry, material registry and transform builder

    A shallow embedding of [SceneManager.cpp] (CS-330 final project) and the
    properties its design description states about it.

    Conventions of the embedding:
    - C++ [float] values are carried as real numbers ([R]). The scene
      manager stores them and passes them on; the properties below are
      about which value reaches which uniform, not about arithmetic. The
      one computation on them, the matrix of [SetTransformations], is
      exact here and rounded in the program (binary32, GLM and the C
      library are not part of [SceneManager.cpp]), so no property of the
      program's rounded result is stated.
    - [int] and [GLuint] values are integers ([Z]); the one conversion the
      code performs between them is written out ([int_of_GLuint]).
    - A pointer that may be [NULL] is an [option]; dereferencing [NULL] and
      writing past the end of an array are undefined behaviour, which the
      embedding makes explicit with the [outcome] type.
    - The OpenGL context, the shader program and the image decoder are
      collaborators of the scene manager; their state is passed explicitly. *)

From Stdlib Require Import ZArith Reals Lra String List.
From stdpp Require Import base gmap strings list.

Local Open Scope Z_scope.

(** C++ [float], carried as a real number: exact where the program
    rounds. *)
Abbreviation float := R.

(** ** Outcomes of calls that can leave defined behaviour *)

Inductive outcome (A : Type) : Type :=
| Done (a : A)
| Undefined.
Arguments Done {A} a.
Arguments Undefined {A}.

Definition bind {A B : Type} (o : outcome A) (k : A -> outcome B) : outcome B :=
  match o with
  | Done a => k a
  | Undefined => Undefined
  end.

Notation "x <- c1 ;; c2" := (bind c1 (fun x => c2))
  (at level 100, c1 at next level, right associativity).

(** ** The parts of GLM the scene manager calls

    [glm::mat4] is stored by columns: [m[i]] is column [i], and
    [m[i][j]] is the entry in column [i], row [j]. *)

Module GLM.

Local Open Scope R_scope.

Record vec2 : Type := Vec2 { x2 : float; y2 : float }.
Record vec3 : Type := Vec3 { x3 : float; y3 : float; z3 : float }.
Record vec4 : Type := Vec4 { x4 : float; y4 : float; z4 : float; w4 : float }.
Record mat4 : Type := Mat4 { c0 : vec4; c1 : vec4; c2 : vec4; c3 : vec4 }.

(** [vec4 * scalar] and [vec4 + vec4], component-wise. *)
Definition vscale (v : vec4) (s : float) : vec4 :=
  Vec4 (x4 v * s) (y4 v * s) (z4 v * s) (w4 v * s).

Definition vadd (a b : vec4) : vec4 :=
  Vec4 (x4 a + x4 b) (y4 a + y4 b) (z4 a + z4 b) (w4 a + w4 b).

(** [mat4(1.0f)] *)
Definition identity : mat4 :=
  Mat4 (Vec4 1 0 0 0) (Vec4 0 1 0 0) (Vec4 0 0 1 0) (Vec4 0 0 0 1).

(** [operator*(mat4 const& m1, mat4 const& m2)]: column [i] of the result is
    the combination of the columns of [m1] weighted by column [i] of [m2]. *)
Definition combine (m : mat4) (v : vec4) : vec4 :=
  vadd (vadd (vadd (vscale (c0 m) (x4 v)) (vscale (c1 m) (y4 v)))
             (vscale (c2 m) (z4 v)))
       (vscale (c3 m) (w4 v)).

Definition mul (m1 m2 : mat4) : mat4 :=
  Mat4 (combine m1 (c0 m2)) (combine m1 (c1 m2))
       (combine m1 (c2 m2)) (combine m1 (c3 m2)).

(** [operator*(mat4 const& m, vec4 const& v)] *)
Definition mul_vec (m : mat4) (v : vec4) : vec4 := combine m v.

(** [glm::radians(degrees)]: the factor is the constant pi/180. *)
Definition radians (degrees : float) : float := degrees * (PI / 180).

Definition dot (a b : vec3) : float :=
  x3 a * x3 b + y3 a * y3 b + z3 a * z3 b.

Definition inversesqrt (x : float) : float := 1 / sqrt x.

Definition normalize (v : vec3) : vec3 :=
  let k := inversesqrt (dot v v) in
  Vec3 (x3 v * k) (y3 v * k) (z3 v * k).

(** [glm::translate(m, v)] *)
Definition translate_m (m : mat4) (v : vec3) : mat4 :=
  Mat4 (c0 m) (c1 m) (c2 m)
       (vadd (vadd (vadd (vscale (c0 m) (x3 v)) (vscale (c1 m) (y3 v)))
                   (vscale (c2 m) (z3 v)))
             (c3 m)).

(** [glm::scale(m, v)] *)
Definition scale_m (m : mat4) (v : vec3) : mat4 :=
  Mat4 (vscale (c0 m) (x3 v)) (vscale (c1 m) (y3 v))
       (vscale (c2 m) (z3 v)) (c3 m).

(** [glm::rotate(m, angle, v)]: axis-angle rotation. [r_ij] below is the
    local [Rotate[i][j]] of the GLM source. *)
Definition rotate_m (m : mat4) (angle : float) (v : vec3) : mat4 :=
  let c := cos angle in
  let s := sin angle in
  let axis := normalize v in
  let temp := Vec3 ((1 - c) * x3 axis) ((1 - c) * y3 axis) ((1 - c) * z3 axis) in
  let r00 := c + x3 temp * x3 axis in
  let r01 := x3 temp * y3 axis + s * z3 axis in
  let r02 := x3 temp * z3 axis - s * y3 axis in
  let r10 := y3 temp * x3 axis - s * z3 axis in
  let r11 := c + y3 temp * y3 axis in
  let r12 := y3 temp * z3 axis + s * x3 axis in
  let r20 := z3 temp * x3 axis + s * y3 axis in
  let r21 := z3 temp * y3 axis - s * x3 axis in
  let r22 := c + z3 temp * z3 axis in
  Mat4 (vadd (vadd (vscale (c0 m) r00) (vscale (c1 m) r01)) (vscale (c2 m) r02))
       (vadd (vadd (vscale (c0 m) r10) (vscale (c1 m) r11)) (vscale (c2 m) r12))
       (vadd (vadd (vscale (c0 m) r20) (vscale (c1 m) r21)) (vscale (c2 m) r22))
       (c3 m).

(** The one-argument forms of [<glm/gtx/transform.hpp>] start from the
    identity matrix. *)
Definition translate (v : vec3) : mat4 := translate_m identity v.
Definition scale (v : vec3) : mat4 := scale_m identity v.
Definition rotate (angle : float) (v : vec3) : mat4 := rotate_m identity angle v.

End GLM.

(** ** Textbook 4x4 matrices, written by rows

    The transform named in the design description,
    [Translate * RotateZ * RotateY * RotateX * Scale], with the usual
    row-by-column product. These definitions follow the description, not the
    code, and serve as the reference the code is compared with. *)

Module Textbook.

Local Open Scope R_scope.

(** A matrix is four rows of four entries. *)
Definition row : Type := (R * R * R * R)%type.
Definition matrix : Type := (row * row * row * row)%type.

Definition entry (m : matrix) (i j : nat) : R :=
  let '(r0, r1, r2, r3) := m in
  let '(a, b, c, d) :=
    match i with O => r0 | 1%nat => r1 | 2%nat => r2 | _ => r3 end in
  match j with O => a | 1%nat => b | 2%nat => c | _ => d end.

Definition build (f : nat -> nat -> R) : matrix :=
  ((f 0 0, f 0 1, f 0 2, f 0 3),
   (f 1 0, f 1 1, f 1 2, f 1 3),
   (f 2 0, f 2 1, f 2 2, f 2 3),
   (f 3 0, f 3 1, f 3 2, f 3 3))%nat.

(** Row-by-column product. *)
Definition product (a b : matrix) : matrix :=
  build (fun i j =>
    entry a i 0 * entry b 0 j + entry a i 1 * entry b 1 j +
    entry a i 2 * entry b 2 j + entry a i 3 * entry b 3 j).

Definition Identity : matrix :=
  ((1, 0, 0, 0), (0, 1, 0, 0), (0, 0, 1, 0), (0, 0, 0, 1)).

Definition Scale (sx sy sz : R) : matrix :=
  ((sx, 0, 0, 0), (0, sy, 0, 0), (0, 0, sz, 0), (0, 0, 0, 1)).

Definition Translate (tx ty tz : R) : matrix :=
  ((1, 0, 0, tx), (0, 1, 0, ty), (0, 0, 1, tz), (0, 0, 0, 1)).

Definition deg (d : R) : R := d * PI / 180.

(** Rotations about the fixed coordinate axes, angles in degrees. *)
Definition RotateX (d : R) : matrix :=
  ((1, 0, 0, 0),
   (0, cos (deg d), - sin (deg d), 0),
   (0, sin (deg d), cos (deg d), 0),
   (0, 0, 0, 1)).

Definition RotateY (d : R) : matrix :=
  ((cos (deg d), 0, sin (deg d), 0),
   (0, 1, 0, 0),
   (- sin (deg d), 0, cos (deg d), 0),
   (0, 0, 0, 1)).

Definition RotateZ (d : R) : matrix :=
  ((cos (deg d), - sin (deg d), 0, 0),
   (sin (deg d), cos (deg d), 0, 0),
   (0, 0, 1, 0),
   (0, 0, 0, 1)).

(** Reading a column-stored [glm::mat4] by rows. *)
Definition of_mat4 (m : GLM.mat4) : matrix :=
  let col (v : GLM.vec4) := (GLM.x4 v, GLM.y4 v, GLM.z4 v, GLM.w4 v) in
  let '(a0, a1, a2, a3) := col (GLM.c0 m) in
  let '(b0, b1, b2, b3) := col (GLM.c1 m) in
  let '(d0, d1, d2, d3) := col (GLM.c2 m) in
  let '(e0, e1, e2, e3) := col (GLM.c3 m) in
  ((a0, b0, d0, e0), (a1, b1, d1, e1), (a2, b2, d2, e2), (a3, b3, d3, e3)).

End Textbook.

(** ** The OpenGL context, as far as the scene manager drives it

    Texture names are handed out by [glGenTextures]; a texture object comes
    into being when its name is first bound; each texture unit has one
    [GL_TEXTURE_2D] binding, name 0 being "no texture". Sampler parameters
    and mipmap generation touch neither names nor bindings and are left
    out. *)

Module GL.

(** What [stbi_load] returns for a readable file. *)
Record Image : Type := MkImage {
  width : Z;
  height : Z;
  colorChannels : Z;
  pixels : list Z
}.

Inductive format : Type := GL_RGB8 | GL_RGBA8.

(** A texture object: the image uploaded to it, if any. *)
Definition texture : Type := option (format * Image).

Record context : Type := MkContext {
  next_name : Z;                 (* the next unused texture name *)
  active_unit : nat;             (* selected by glActiveTexture *)
  units : gmap nat Z;            (* GL_TEXTURE_2D binding of each unit *)
  textures : gmap Z texture      (* the live texture objects, by name *)
}.

(** The texture bound to [GL_TEXTURE_2D] on the active unit. *)
Definition bound (gl : context) : Z :=
  default 0 (units gl !! active_unit gl).

(** [glGenTextures(1, &name)]: a name never returned before. No texture
    object is created or destroyed. *)
Definition glGenTextures (gl : context) : Z * context :=
  (next_name gl,
   MkContext (next_name gl + 1) (active_unit gl) (units gl) (textures gl)).

(** [glActiveTexture(GL_TEXTURE0 + i)] *)
Definition glActiveTexture (i : nat) (gl : context) : context :=
  MkContext (next_name gl) i (units gl) (textures gl).

(** [glBindTexture(GL_TEXTURE_2D, name)] *)
Definition glBindTexture (name : Z) (gl : context) : context :=
  MkContext (next_name gl) (active_unit gl)
    (<[active_unit gl := name]> (units gl))
    (if decide (name = 0) then textures gl
     else match textures gl !! name with
          | Some _ => textures gl
          | None => <[name := None]> (textures gl)
          end).

(** [glTexImage2D(GL_TEXTURE_2D, 0, fmt, width, height, 0, ..., image)] *)
Definition glTexImage2D (fmt : format) (img : Image) (gl : context) : context :=
  MkContext (next_name gl) (active_unit gl) (units gl)
    (<[bound gl := Some (fmt, img)]> (textures gl)).

End GL.

(** ** The shader program

    Modelled from the spec: [ShaderManager] is a collaborator whose source
    does not come with [SceneManager.cpp]; the description gives it as "a
    shader-program handle abstraction exposing named-uniform setters for
    scalar, vector, matrix, boolean, and sampler values". A shader is the
    finite map from uniform names to the value last set. *)

Module Shader.

Inductive uniform : Type :=
| UInt (i : Z)
| UBool (b : bool)
| UFloat (f : float)
| UVec2 (v : GLM.vec2)
| UVec3 (v : GLM.vec3)
| UVec4 (v : GLM.vec4)
| UMat4 (m : GLM.mat4)
| USampler2D (slot : Z).

Definition setIntValue (name : string) (i : Z) (sh : gmap string uniform) :=
  <[name := UInt i]> sh.
Definition setBoolValue (name : string) (b : bool) (sh : gmap string uniform) :=
  <[name := UBool b]> sh.
Definition setFloatValue (name : string) (f : float) (sh : gmap string uniform) :=
  <[name := UFloat f]> sh.
Definition setVec2Value (name : string) (v : GLM.vec2) (sh : gmap string uniform) :=
  <[name := UVec2 v]> sh.
Definition setVec3Value (name : string) (v : GLM.vec3) (sh : gmap string uniform) :=
  <[name := UVec3 v]> sh.
Definition setVec4Value (name : string) (v : GLM.vec4) (sh : gmap string uniform) :=
  <[name := UVec4 v]> sh.
Definition setMat4Value (name : string) (m : GLM.mat4) (sh : gmap string uniform) :=
  <[name := UMat4 m]> sh.
Definition setSampler2DValue (name : string) (slot : Z) (sh : gmap string uniform) :=
  <[name := USampler2D slot]> sh.

End Shader.

(** ** The scene manager *)

(** The globals of the anonymous namespace. *)
Definition g_ModelName : string := "model".
Definition g_ColorValueName : string := "objectColor".
Definition g_TextureValueName : string := "objectTexture".
Definition g_UseTextureName : string := "bUseTexture".
Definition g_UseLightingName : string := "bUseLighting".

(** Modelled from the spec: [SceneManager.h], which declares the two entry
    types and the members of the class, does not come with
    [SceneManager.cpp].
    A texture entry is "{ tag, gpuHandle }"; [DestroyGLTextures] passes
    the address of [ID] to [glGenTextures], so [ID] is a [GLuint]. *)
Record TEXTURE_INFO : Type := MkTextureInfo {
  ID : Z;
  tag : string
}.

(** Modelled from the spec: a material entry is "{ tag, diffuseColor,
    specularColor, shininessExponent }", with the member names the code
    uses. *)
Record OBJECT_MATERIAL : Type := MkMaterial {
  diffuseColor : GLM.vec3;
  specularColor : GLM.vec3;
  shininess : float;
  mtag : string
}.

(** Modelled from the spec: the length of the array [m_textureIDs] is in
    the missing header; "There are up to 16 slots" (comment of
    [BindGLTextures]) and "assumed <= 16" (description, 4.1). *)
Definition TEXTURE_CAPACITY : nat := 16.

Record SceneManager : Type := MkScene {
  m_pShaderManager : option (gmap string Shader.uniform);  (* None is NULL *)
  m_textureIDs : list TEXTURE_INFO;     (* the array, TEXTURE_CAPACITY long *)
  m_loadedTextures : nat;
  m_objectMaterials : list OBJECT_MATERIAL;                (* std::vector *)
  gl : GL.context                       (* the ambient OpenGL context *)
}.

(** [m_textureIDs[i]], for an index inside the array. *)
Definition texture_at (arr : list TEXTURE_INFO) (i : nat) : TEXTURE_INFO :=
  default (MkTextureInfo 0 "") (arr !! i).

(** The entries the lookups can see: the first [m_loadedTextures] ones. *)
Definition registry (st : SceneManager) : list TEXTURE_INFO :=
  (texture_at (m_textureIDs st)) <$> seq 0 (m_loadedTextures st).

(** Conversion of a [GLuint] to [int] (two's complement, 32 bits). *)
Definition int_of_GLuint (u : Z) : Z :=
  let r := u mod 2 ^ 32 in
  if r <? 2 ^ 31 then r else r - 2 ^ 32.

Definition with_gl (st : SceneManager) (g : GL.context) : SceneManager :=
  MkScene (m_pShaderManager st) (m_textureIDs st) (m_loadedTextures st)
          (m_objectMaterials st) g.

Definition with_shader (st : SceneManager) (sh : gmap string Shader.uniform)
  : SceneManager :=
  MkScene (Some sh) (m_textureIDs st) (m_loadedTextures st)
          (m_objectMaterials st) (gl st).

Section Scene.

(** The image decoder [stbi_load]: [None] when the file cannot be read or
    decoded (the null pointer). *)
Variable stbi_load : string -> option GL.Image.

(** [CreateGLTexture]. The console messages, the vertical flip asked of
    the decoder and the release of the decoded buffer are not modelled. On the
    unsupported-channel path the function returns with the new texture
    still bound; on the success path it registers the texture in
    [m_textureIDs[m_loadedTextures]], which is outside the array once
    [TEXTURE_CAPACITY] textures are registered. *)
Definition CreateGLTexture (filename : string) (tag : string) (st : SceneManager)
  : outcome (bool * SceneManager) :=
  match stbi_load filename with
  | Some image =>
      let '(textureID, g1) := GL.glGenTextures (gl st) in
      let g2 := GL.glBindTexture textureID g1 in
      let uploaded :=
        if GL.colorChannels image =? 3 then
          Some (GL.glTexImage2D GL.GL_RGB8 image g2)
        else if GL.colorChannels image =? 4 then
          Some (GL.glTexImage2D GL.GL_RGBA8 image g2)
        else None in
      match uploaded with
      | None => Done (false, with_gl st g2)
      | Some g3 =>
          let g4 := GL.glBindTexture 0 g3 in
          if (m_loadedTextures st <? length (m_textureIDs st))%nat then
            Done (true,
                  MkScene (m_pShaderManager st)
                          (<[m_loadedTextures st := MkTextureInfo textureID tag]>
                             (m_textureIDs st))
                          (S (m_loadedTextures st))
                          (m_objectMaterials st) g4)
          else Undefined
      end
  | None => Done (false, st)
  end.

(** The loop of [BindGLTextures], from index [i] for [n] more rounds. *)
Fixpoint BindGLTextures_loop (arr : list TEXTURE_INFO) (n i : nat)
    (g : GL.context) : GL.context :=
  match n with
  | O => g
  | S n' =>
      BindGLTextures_loop arr n' (S i)
        (GL.glBindTexture (ID (texture_at arr i)) (GL.glActiveTexture i g))
  end.

Definition BindGLTextures (st : SceneManager) : SceneManager :=
  with_gl st (BindGLTextures_loop (m_textureIDs st) (m_loadedTextures st) 0 (gl st)).

(** The loop of [DestroyGLTextures]: each round asks for a new texture
    name and stores it over [m_textureIDs[i].ID]. *)
Fixpoint DestroyGLTextures_loop (n i : nat) (arr : list TEXTURE_INFO)
    (g : GL.context) : list TEXTURE_INFO * GL.context :=
  match n with
  | O => (arr, g)
  | S n' =>
      let '(name, g') := GL.glGenTextures g in
      DestroyGLTextures_loop n' (S i)
        (<[i := MkTextureInfo name (tag (texture_at arr i))]> arr) g'
  end.

Definition DestroyGLTextures (st : SceneManager) : SceneManager :=
  let '(arr, g) :=
    DestroyGLTextures_loop (m_loadedTextures st) 0 (m_textureIDs st) (gl st) in
  MkScene (m_pShaderManager st) arr (m_loadedTextures st) (m_objectMaterials st) g.

(** The loop of [FindTextureID]: [n] is [m_loadedTextures - index], so the
    loop condition [index < m_loadedTextures] is [n <> 0]; setting [bFound]
    leaves the loop with the value just stored in [textureID]. *)
Fixpoint FindTextureID_loop (t : string) (arr : list TEXTURE_INFO)
    (n index : nat) (textureID : Z) : Z :=
  match n with
  | O => textureID
  | S n' =>
      if String.eqb (tag (texture_at arr index)) t
      then int_of_GLuint (ID (texture_at arr index))
      else FindTextureID_loop t arr n' (S index) textureID
  end.

Definition FindTextureID (t : string) (st : SceneManager) : Z :=
  FindTextureID_loop t (m_textureIDs st) (m_loadedTextures st) 0 (-1).

(** The loop of [FindTextureSlot], in the same form. *)
Fixpoint FindTextureSlot_loop (t : string) (arr : list TEXTURE_INFO)
    (n index : nat) (textureSlot : Z) : Z :=
  match n with
  | O => textureSlot
  | S n' =>
      if String.eqb (tag (texture_at arr index)) t
      then Z.of_nat index
      else FindTextureSlot_loop t arr n' (S index) textureSlot
  end.

Definition FindTextureSlot (t : string) (st : SceneManager) : Z :=
  FindTextureSlot_loop t (m_textureIDs st) (m_loadedTextures st) 0 (-1).

(** The loop of [FindMaterial] over the entries from [index] on; a match
    copies three members into the caller's [material] and ends the loop. *)
Fixpoint FindMaterial_loop (t : string) (rest : list OBJECT_MATERIAL)
    (material : OBJECT_MATERIAL) : OBJECT_MATERIAL :=
  match rest with
  | [] => material
  | m :: rest' =>
      if String.eqb (mtag m) t
      then MkMaterial (diffuseColor m) (specularColor m) (shininess m)
                      (mtag material)
      else FindMaterial_loop t rest' material
  end.

(** [FindMaterial(tag, material)]: the result and the caller's [material]
    after the call. *)
Definition FindMaterial (t : string) (material : OBJECT_MATERIAL)
    (st : SceneManager) : bool * OBJECT_MATERIAL :=
  if (length (m_objectMaterials st) =? 0)%nat then (false, material)
  else (true, FindMaterial_loop t (m_objectMaterials st) material).

(** The matrix [SetTransformations] builds in [modelView]. *)
Definition modelView (scaleXYZ : GLM.vec3)
    (XrotationDegrees YrotationDegrees ZrotationDegrees : float)
    (positionXYZ : GLM.vec3) : GLM.mat4 :=
  let scale := GLM.scale scaleXYZ in
  let rotationX :=
    GLM.rotate (GLM.radians XrotationDegrees) (GLM.Vec3 1 0 0)%R in
  let rotationY :=
    GLM.rotate (GLM.radians YrotationDegrees) (GLM.Vec3 0 1 0)%R in
  let rotationZ :=
    GLM.rotate (GLM.radians ZrotationDegrees) (GLM.Vec3 0 0 1)%R in
  let translation := GLM.translate positionXYZ in
  GLM.mul (GLM.mul (GLM.mul (GLM.mul translation rotationZ) rotationY) rotationX)
          scale.

Definition SetTransformations (scaleXYZ : GLM.vec3)
    (XrotationDegrees YrotationDegrees ZrotationDegrees : float)
    (positionXYZ : GLM.vec3) (st : SceneManager) : outcome SceneManager :=
  let m := modelView scaleXYZ XrotationDegrees YrotationDegrees
                     ZrotationDegrees positionXYZ in
  match m_pShaderManager st with
  | Some sh => Done (with_shader st (Shader.setMat4Value g_ModelName m sh))
  | None => Done st
  end.

Definition SetShaderColor (redColorValue greenColorValue blueColorValue
    alphaValue : float) (st : SceneManager) : outcome SceneManager :=
  let currentColor :=
    GLM.Vec4 redColorValue greenColorValue blueColorValue alphaValue in
  match m_pShaderManager st with
  | Some sh =>
      Done (with_shader st
              (Shader.setVec4Value g_ColorValueName currentColor
                 (Shader.setIntValue g_UseTextureName 0 sh)))
  | None => Done st
  end.

Definition SetShaderTexture (textureTag : string) (st : SceneManager)
  : outcome SceneManager :=
  match m_pShaderManager st with
  | Some sh =>
      let textureID := FindTextureSlot textureTag st in
      Done (with_shader st
              (Shader.setSampler2DValue g_TextureValueName textureID
                 (Shader.setIntValue g_UseTextureName 1 sh)))
  | None => Done st
  end.

Definition SetTextureUVScale (u v : float) (st : SceneManager)
  : outcome SceneManager :=
  match m_pShaderManager st with
  | Some sh =>
      Done (with_shader st (Shader.setVec2Value "UVscale" (GLM.Vec2 u v) sh))
  | None => Done st
  end.

(** [SetShaderMaterial]. [garbage] is the content of the local
    [OBJECT_MATERIAL material] before [FindMaterial] fills it. The three
    setter calls go through [m_pShaderManager] with no test of the pointer:
    a null pointer there is undefined behaviour. *)
Definition SetShaderMaterial (materialTag : string) (garbage : OBJECT_MATERIAL)
    (st : SceneManager) : outcome SceneManager :=
  if (0 <? length (m_objectMaterials st))%nat then
    let '(bReturn, material) := FindMaterial materialTag garbage st in
    if bReturn then
      match m_pShaderManager st with
      | Some sh =>
          Done (with_shader st
                  (Shader.setFloatValue "material.shininess" (shininess material)
                     (Shader.setVec3Value "material.specularColor"
                        (specularColor material)
                        (Shader.setVec3Value "material.diffuseColor"
                           (diffuseColor material) sh))))
      | None => Undefined
      end
    else Done st
  else Done st.

(** A run of [CreateGLTexture] calls whose results are only reported, as in
    [LoadSceneTextures]. *)
Fixpoint LoadTextures (loads : list (string * string)) (st : SceneManager)
  : outcome SceneManager :=
  match loads with
  | [] => Done st
  | (filename, t) :: rest =>
      r <- CreateGLTexture filename t st ;;
      LoadTextures rest (snd r)
  end.

Definition scene_textures : list (string * string) :=
  [ ("textures/wood2.jpg", "floor");
    ("textures/Texturelabs_Glass_134S.jpg", "tbottle");
    ("textures/metalbottle.jpg", "bottle");
    ("textures/tabasco.png", "tlabel");
    ("textures/Texturelabs_Paper_334S.jpg", "hdrive");
    ("textures/mouth.jpg", "smile");
    ("textures/coffee.png", "coffee") ]%string.

Definition LoadSceneTextures (st : SceneManager) : outcome SceneManager :=
  st' <- LoadTextures scene_textures st ;;
  Done (BindGLTextures st').

(** [DefineObjectMaterials] *)
Definition DefineObjectMaterials (st : SceneManager) : SceneManager :=
  let glassMaterial :=
    MkMaterial (GLM.Vec3 0.6 0.7 0.8)%R (GLM.Vec3 0.9 0.9 1.0)%R 85.0%R "glass" in
  let metalMaterial :=
    MkMaterial (GLM.Vec3 0.5 0.5 0.5)%R (GLM.Vec3 0.8 0.8 0.8)%R 50.0%R "metal" in
  let woodMaterial :=
    MkMaterial (GLM.Vec3 0.6 0.4 0.2)%R (GLM.Vec3 0.2 0.1 0.1)%R 10.0%R "wood" in
  MkScene (m_pShaderManager st) (m_textureIDs st) (m_loadedTextures st)
          (m_objectMaterials st ++ [glassMaterial; metalMaterial; woodMaterial])
          (gl st).

(** The upload format of a supported image: RGB for three channels, RGBA
    for four, none otherwise. *)
Definition upload_format (image : GL.Image) : option GL.format :=
  if GL.colorChannels image =? 3 then Some GL.GL_RGB8
  else if GL.colorChannels image =? 4 then Some GL.GL_RGBA8
  else None.

(** The successfully loaded textures of a run of loads, in load order: the
    tag, the upload format and the decoded image of every file that decodes
    with three or four channels. *)
Fixpoint successes (loads : list (string * string))
  : list (string * GL.format * GL.Image) :=
  match loads with
  | [] => []
  | (filename, t) :: rest =>
      match stbi_load filename with
      | Some image =>
          match upload_format image with
          | Some fmt => (t, fmt, image) :: successes rest
          | None => successes rest
          end
      | None => successes rest
      end
  end.

End Scene.

(** A decoder for examples: one RGB file, one RGBA file, one two-channel
    (grey and alpha) file, and nothing else. *)
Definition demo_image (channels : Z) : GL.Image :=
  GL.MkImage 1 1 channels (replicate (Z.to_nat channels) 255).

Definition demo_decoder (filename : string) : option GL.Image :=
  if String.eqb filename "rgb.jpg" then Some (demo_image 3)
  else if String.eqb filename "rgba.png" then Some (demo_image 4)
  else if String.eqb filename "gray_alpha.png" then Some (demo_image 2)
  else None.

(** The value of the [model] uniform after a call, when the call is defined
    and there is a shader. *)
Definition model_uniform (o : outcome SceneManager) : option GLM.mat4 :=
  match o with
  | Done st =>
      match m_pShaderManager st with
      | Some sh =>
          match sh !! g_ModelName with
          | Some (Shader.UMat4 m) => Some m
          | _ => None
          end
      | None => None
      end
  | Undefined => None
  end.

(** A scene manager with an empty texture registry and no material, for
    examples. It is not the state the constructor leaves: the constructor
    (lines 34-38) assigns the shader pointer and the meshes only, and
    nothing in [SceneManager.cpp] gives [m_loadedTextures] or the entries
    of [m_textureIDs] a first value. *)
Definition empty_scene (pShaderManager : option (gmap string Shader.uniform))
    (g : GL.context) : SceneManager :=
  MkScene pShaderManager (replicate TEXTURE_CAPACITY (MkTextureInfo 0 "")) 0 [] g.

(** A context in which nothing has been created yet. *)
Definition fresh_context : GL.context := GL.MkContext 1 0 ∅ ∅.

(** A scene manager with a null shader pointer, after
    [DefineObjectMaterials]. *)
Definition null_shader_scene : SceneManager :=
  DefineObjectMaterials (empty_scene None fresh_context).

(** Texture names are handed out in increasing order: the next unused name
    is positive and above the name of every texture object. *)
Definition names_in_order (g : GL.context) : Prop :=
  (0 < GL.next_name g)%Z /\
  forall id x, GL.textures g !! id = Some x -> (id < GL.next_name g)%Z.

(** A registry entry stands for a successfully loaded texture when it
    carries its tag and its handle names the texture object that holds its
    image. *)
Definition stands_for (g : GL.context) (e : TEXTURE_INFO)
    (s : string * GL.format * GL.Image) : Prop :=
  tag e = s.1.1 /\ GL.textures g !! ID e = Some (Some (s.1.2, s.2)).

(** A file [CreateGLTexture] can register: it decodes, with three or four
    channels. *)
Definition supported (stbi_load : string -> option GL.Image)
    (filename : string) : Prop :=
  exists image fmt,
    stbi_load filename = Some image /\ upload_format image = Some fmt.

(** States for examples: a registry in which the tag "a" occurs twice, and
    a material list in which the tag "metal" occurs twice. *)
Definition duplicate_textures : SceneManager :=
  MkScene None
    ([MkTextureInfo 7 "z"; MkTextureInfo 1 "a"; MkTextureInfo 2 "b";
      MkTextureInfo 3 "a"] ++ replicate 12 (MkTextureInfo 0 ""))
    4 [] fresh_context.

Definition duplicate_materials : SceneManager :=
  MkScene None (replicate TEXTURE_CAPACITY (MkTextureInfo 0 "")) 0
    [MkMaterial (GLM.Vec3 1 1 1) (GLM.Vec3 0 0 0) 1 "glass";
     MkMaterial (GLM.Vec3 2 2 2) (GLM.Vec3 1 1 1) 2 "metal";
     MkMaterial (GLM.Vec3 3 3 3) (GLM.Vec3 2 2 2) 3 "metal"]%R
    fresh_context.

Definition blank_material : OBJECT_MATERIAL :=
  MkMaterial (GLM.Vec3 0 0 0) (GLM.Vec3 0 0 0) 0 "".

(** [duplicate_textures] after a load that was turned down for its channel
    count: the texture generated for it, named 1, is still bound. *)
Definition after_rejected_load : SceneManager :=
  with_gl duplicate_textures (GL.MkContext 2 0 {[0%nat := 1]} {[1 := None]}).

(** A scene manager whose array of texture entries is full. *)
Definition full_registry : SceneManager :=
  MkScene None (replicate TEXTURE_CAPACITY (MkTextureInfo 1 "t"))
          TEXTURE_CAPACITY [] fresh_context.

(** A scene manager in which five textures are registered already. *)
Definition five_loaded : SceneManager :=
  MkScene None
    ([MkTextureInfo 1 "t0"; MkTextureInfo 2 "t1"; MkTextureInfo 3 "t2";
      MkTextureInfo 4 "t3"; MkTextureInfo 5 "t4"]
       ++ replicate 11 (MkTextureInfo 0 ""))
    5 []
    (GL.MkContext 6 0 ∅
       (<[1 := Some (GL.GL_RGB8, demo_image 3)]>
          (<[2 := Some (GL.GL_RGB8, demo_image 3)]>
             (<[3 := Some (GL.GL_RGB8, demo_image 3)]>
                (<[4 := Some (GL.GL_RGB8, demo_image 3)]>
                   {[5 := Some (GL.GL_RGB8, demo_image 3)]}))))).

(** The value a uniform has after a call: nothing when the call is
    undefined, when there is no shader, or when the uniform was never
    set. *)
Definition uniform_of (st : SceneManager) (name : string)
  : option Shader.uniform :=
  match m_pShaderManager st with
  | Some sh => sh !! name
  | None => None
  end.

Definition uniform_after (o : outcome SceneManager) (name : string)
  : option Shader.uniform :=
  match o with
  | Done st => uniform_of st name
  | Undefined => None
  end.

(** What [FindMaterial] writes into the caller's material on a match with
    the entry [e]: three members of [e], the caller's own tag. *)
Definition copied_from (e material : OBJECT_MATERIAL) : OBJECT_MATERIAL :=
  MkMaterial (diffuseColor e) (specularColor e) (shininess e) (mtag material).

(** The shader after the three setter calls of [SetShaderMaterial]. *)
Definition material_pushed (material : OBJECT_MATERIAL)
    (sh : gmap string Shader.uniform) : gmap string Shader.uniform :=
  <["material.shininess" := Shader.UFloat (shininess material)]>
    (<["material.specularColor" := Shader.UVec3 (specularColor material)]>
       (<["material.diffuseColor" := Shader.UVec3 (diffuseColor material)]> sh)).

(** Two states with the same texture registry, materials and OpenGL
    context, and a shader pointer that is null in both or in neither. *)
Definition same_scene (st st' : SceneManager) : Prop :=
  m_textureIDs st' = m_textureIDs st /\
  m_loadedTextures st' = m_loadedTextures st /\
  m_objectMaterials st' = m_objectMaterials st /\
  gl st' = gl st /\
  (m_pShaderManager st' = None <-> m_pShaderManager st = None).

(** The count of loaded textures is within the array. *)
Definition well_formed (st : SceneManager) : Prop :=
  (m_loadedTextures st <= length (m_textureIDs st))%nat.

(** Every registered handle is a name [glGenTextures] has handed out. *)
Definition handles_below (st : SceneManager) : Prop :=
  forall e, e ∈ registry st -> (ID e < GL.next_name (gl st))%Z.

(** ** Lights, meshes and the two scene routines *)

(** The setter calls of [SetupSceneLights], in order. *)
Definition light_calls
  : list (gmap string Shader.uniform -> gmap string Shader.uniform) :=
  [ Shader.setBoolValue g_UseLightingName true;
    Shader.setVec3Value "directionalLight.direction" (GLM.Vec3 (-0.05) (-0.3) (-0.1));
    Shader.setVec3Value "directionalLight.ambient" (GLM.Vec3 0.05 0.05 0.05);
    Shader.setVec3Value "directionalLight.diffuse" (GLM.Vec3 0.6 0.6 0.6);
    Shader.setVec3Value "directionalLight.specular" (GLM.Vec3 0.0 0.0 0.0);
    Shader.setBoolValue "directionalLight.bActive" true;
    Shader.setVec3Value "pointLights[0].position" (GLM.Vec3 (-4.0) 8.0 0.0);
    Shader.setVec3Value "pointLights[0].ambient" (GLM.Vec3 0.05 0.05 0.05);
    Shader.setVec3Value "pointLights[0].diffuse" (GLM.Vec3 0.3 0.3 0.3);
    Shader.setVec3Value "pointLights[0].specular" (GLM.Vec3 0.1 0.1 0.1);
    Shader.setBoolValue "pointLights[0].bActive" true;
    Shader.setVec3Value "pointLights[1].position" (GLM.Vec3 4.0 8.0 0.0);
    Shader.setVec3Value "pointLights[1].ambient" (GLM.Vec3 0.05 0.05 0.05);
    Shader.setVec3Value "pointLights[1].diffuse" (GLM.Vec3 0.3 0.3 0.3);
    Shader.setVec3Value "pointLights[1].specular" (GLM.Vec3 0.1 0.1 0.1);
    Shader.setBoolValue "pointLights[1].bActive" true;
    Shader.setVec3Value "pointLights[2].position" (GLM.Vec3 3.8 5.5 4.0);
    Shader.setVec3Value "pointLights[2].ambient" (GLM.Vec3 0.05 0.05 0.05);
    Shader.setVec3Value "pointLights[2].diffuse" (GLM.Vec3 0.2 0.2 0.2);
    Shader.setVec3Value "pointLights[2].specular" (GLM.Vec3 0.8 0.8 0.8);
    Shader.setBoolValue "pointLights[2].bActive" true;
    Shader.setVec3Value "pointLights[3].position" (GLM.Vec3 3.8 3.5 4.0);
    Shader.setVec3Value "pointLights[3].ambient" (GLM.Vec3 0.05 0.05 0.05);
    Shader.setVec3Value "pointLights[3].diffuse" (GLM.Vec3 0.2 0.2 0.2);
    Shader.setVec3Value "pointLights[3].specular" (GLM.Vec3 0.8 0.8 0.8);
    Shader.setBoolValue "pointLights[3].bActive" true;
    Shader.setVec3Value "pointLights[4].position" (GLM.Vec3 (-3.2) 6.0 (-4.0));
    Shader.setVec3Value "pointLights[4].ambient" (GLM.Vec3 0.05 0.05 0.05);
    Shader.setVec3Value "pointLights[4].diffuse" (GLM.Vec3 0.9 0.9 0.9);
    Shader.setVec3Value "pointLights[4].specular" (GLM.Vec3 0.1 0.1 0.1);
    Shader.setBoolValue "pointLights[4].bActive" true;
    Shader.setVec3Value "spotLight.ambient" (GLM.Vec3 0.8 0.8 0.8);
    Shader.setVec3Value "spotLight.diffuse" (GLM.Vec3 1.0 1.0 1.0);
    Shader.setVec3Value "spotLight.specular" (GLM.Vec3 0.7 0.7 0.7);
    Shader.setFloatValue "spotLight.constant" 1.0;
    Shader.setFloatValue "spotLight.linear" 0.09;
    Shader.setFloatValue "spotLight.quadratic" 0.032;
    Shader.setFloatValue "spotLight.cutOff" (cos (GLM.radians 42.5));
    Shader.setFloatValue "spotLight.outerCutOff" (cos (GLM.radians 48.0));
    Shader.setBoolValue "spotLight.bActive" true ]%R.

(** The same calls as a table: uniform name and value written. *)
Definition light_settings : list (string * Shader.uniform) :=
  [
    (g_UseLightingName, Shader.UBool true);
    ("directionalLight.direction", Shader.UVec3 (GLM.Vec3 (-0.05) (-0.3) (-0.1)));
    ("directionalLight.ambient", Shader.UVec3 (GLM.Vec3 0.05 0.05 0.05));
    ("directionalLight.diffuse", Shader.UVec3 (GLM.Vec3 0.6 0.6 0.6));
    ("directionalLight.specular", Shader.UVec3 (GLM.Vec3 0.0 0.0 0.0));
    ("directionalLight.bActive", Shader.UBool true);
    ("pointLights[0].position", Shader.UVec3 (GLM.Vec3 (-4.0) 8.0 0.0));
    ("pointLights[0].ambient", Shader.UVec3 (GLM.Vec3 0.05 0.05 0.05));
    ("pointLights[0].diffuse", Shader.UVec3 (GLM.Vec3 0.3 0.3 0.3));
    ("pointLights[0].specular", Shader.UVec3 (GLM.Vec3 0.1 0.1 0.1));
    ("pointLights[0].bActive", Shader.UBool true);
    ("pointLights[1].position", Shader.UVec3 (GLM.Vec3 4.0 8.0 0.0));
    ("pointLights[1].ambient", Shader.UVec3 (GLM.Vec3 0.05 0.05 0.05));
    ("pointLights[1].diffuse", Shader.UVec3 (GLM.Vec3 0.3 0.3 0.3));
    ("pointLights[1].specular", Shader.UVec3 (GLM.Vec3 0.1 0.1 0.1));
    ("pointLights[1].bActive", Shader.UBool true);
    ("pointLights[2].position", Shader.UVec3 (GLM.Vec3 3.8 5.5 4.0));
    ("pointLights[2].ambient", Shader.UVec3 (GLM.Vec3 0.05 0.05 0.05));
    ("pointLights[2].diffuse", Shader.UVec3 (GLM.Vec3 0.2 0.2 0.2));
    ("pointLights[2].specular", Shader.UVec3 (GLM.Vec3 0.8 0.8 0.8));
    ("pointLights[2].bActive", Shader.UBool true);
    ("pointLights[3].position", Shader.UVec3 (GLM.Vec3 3.8 3.5 4.0));
    ("pointLights[3].ambient", Shader.UVec3 (GLM.Vec3 0.05 0.05 0.05));
    ("pointLights[3].diffuse", Shader.UVec3 (GLM.Vec3 0.2 0.2 0.2));
    ("pointLights[3].specular", Shader.UVec3 (GLM.Vec3 0.8 0.8 0.8));
    ("pointLights[3].bActive", Shader.UBool true);
    ("pointLights[4].position", Shader.UVec3 (GLM.Vec3 (-3.2) 6.0 (-4.0)));
    ("pointLights[4].ambient", Shader.UVec3 (GLM.Vec3 0.05 0.05 0.05));
    ("pointLights[4].diffuse", Shader.UVec3 (GLM.Vec3 0.9 0.9 0.9));
    ("pointLights[4].specular", Shader.UVec3 (GLM.Vec3 0.1 0.1 0.1));
    ("pointLights[4].bActive", Shader.UBool true);
    ("spotLight.ambient", Shader.UVec3 (GLM.Vec3 0.8 0.8 0.8));
    ("spotLight.diffuse", Shader.UVec3 (GLM.Vec3 1.0 1.0 1.0));
    ("spotLight.specular", Shader.UVec3 (GLM.Vec3 0.7 0.7 0.7));
    ("spotLight.constant", Shader.UFloat 1.0);
    ("spotLight.linear", Shader.UFloat 0.09);
    ("spotLight.quadratic", Shader.UFloat 0.032);
    ("spotLight.cutOff", Shader.UFloat (cos (GLM.radians 42.5)));
    ("spotLight.outerCutOff", Shader.UFloat (cos (GLM.radians 48.0)));
    ("spotLight.bActive", Shader.UBool true) ]%R.

(** Writing one entry of such a table, and the value a table writes last
    under a name. *)
Definition write_uniform (nv : string * Shader.uniform)
    (sh : gmap string Shader.uniform) : gmap string Shader.uniform :=
  <[nv.1 := nv.2]> sh.

Fixpoint last_write (l : list (string * Shader.uniform)) (name : string)
  : option Shader.uniform :=
  match l with
  | [] => None
  | (n, v) :: l' =>
      match last_write l' name with
      | Some v' => Some v'
      | None => if String.eqb n name then Some v else None
      end
  end.

(** [SetupSceneLights]: forty setter calls through [m_pShaderManager],
    with no test of the pointer. *)
Definition SetupSceneLights (st : SceneManager) : outcome SceneManager :=
  match m_pShaderManager st with
  | None => Undefined
  | Some sh =>
      Done (with_shader st (fold_left (fun s call => call s) light_calls sh))
  end.

(** The uniforms [SetupSceneLights] writes. *)
Definition light_uniforms : list string :=
  [ g_UseLightingName;
    "directionalLight.direction"; "directionalLight.ambient";
    "directionalLight.diffuse"; "directionalLight.specular";
    "directionalLight.bActive"; "pointLights[0].position";
    "pointLights[0].ambient"; "pointLights[0].diffuse";
    "pointLights[0].specular"; "pointLights[0].bActive";
    "pointLights[1].position"; "pointLights[1].ambient";
    "pointLights[1].diffuse"; "pointLights[1].specular";
    "pointLights[1].bActive"; "pointLights[2].position";
    "pointLights[2].ambient"; "pointLights[2].diffuse";
    "pointLights[2].specular"; "pointLights[2].bActive";
    "pointLights[3].position"; "pointLights[3].ambient";
    "pointLights[3].diffuse"; "pointLights[3].specular";
    "pointLights[3].bActive"; "pointLights[4].position";
    "pointLights[4].ambient"; "pointLights[4].diffuse";
    "pointLights[4].specular"; "pointLights[4].bActive";
    "spotLight.ambient"; "spotLight.diffuse";
    "spotLight.specular"; "spotLight.constant";
    "spotLight.linear"; "spotLight.quadratic";
    "spotLight.cutOff"; "spotLight.outerCutOff";
    "spotLight.bActive" ]%string.

(** Modelled from the spec: [ShapeMeshes] is "a mesh-geometry provider
    exposing load/draw operations per primitive shape (plane, cylinder,
    box, cone, prism, torus)"; its source does not come with
    [SceneManager.cpp]. A load is recorded by the shape; a draw by the
    shape and the state of the shader it is issued in. *)
Inductive shape : Type := Plane | Cylinder | Box | Cone | Prism | Torus.

Inductive wrap_mode : Type := GL_REPEAT | GL_CLAMP_TO_EDGE.

(** The scene manager together with what its routines drive besides it:
    the meshes loaded into [m_basicMeshes], the draws issued, and the wrap
    modes (S and T) of the textures whose modes differ from [GL_REPEAT],
    the mode a texture starts with and the one [CreateGLTexture] sets. *)
Record Renderer : Type := MkRenderer {
  manager : SceneManager;
  m_basicMeshes : list shape;
  wrap : gmap Z (wrap_mode * wrap_mode);
  drawn : list (shape * option (gmap string Shader.uniform))
}.

Definition with_manager (f : Renderer) (st : SceneManager) : Renderer :=
  MkRenderer st (m_basicMeshes f) (wrap f) (drawn f).

(** One statement of [RenderScene]. [Material] carries the content of the
    uninitialised local of that call of [SetShaderMaterial]. *)
Inductive statement : Type :=
| Transform (scaleXYZ : GLM.vec3) (rx ry rz : float) (positionXYZ : GLM.vec3)
| Texture (t : string)
| Material (t : string) (garbage : OBJECT_MATERIAL)
| Colour (r g b a : float)
| UVScale (u v : float)
| ClampToEdge
| Draw (s : shape).

Definition exec (c : statement) (f : Renderer) : outcome Renderer :=
  match c with
  | Transform s rx ry rz p =>
      st <- SetTransformations s rx ry rz p (manager f) ;;
      Done (with_manager f st)
  | Texture t =>
      st <- SetShaderTexture t (manager f) ;; Done (with_manager f st)
  | Material t garbage =>
      st <- SetShaderMaterial t garbage (manager f) ;; Done (with_manager f st)
  | Colour r g b a =>
      st <- SetShaderColor r g b a (manager f) ;; Done (with_manager f st)
  | UVScale u v =>
      st <- SetTextureUVScale u v (manager f) ;; Done (with_manager f st)
  | ClampToEdge =>
      (* glTexParameteri(GL_TEXTURE_2D, GL_TEXTURE_WRAP_S, GL_CLAMP_TO_EDGE)
         and the same for GL_TEXTURE_WRAP_T: they apply to the texture bound
         on the active unit *)
      Done (MkRenderer (manager f) (m_basicMeshes f)
              (<[GL.bound (gl (manager f)) := (GL_CLAMP_TO_EDGE, GL_CLAMP_TO_EDGE)]>
                 (wrap f))
              (drawn f))
  | Draw s =>
      Done (MkRenderer (manager f) (m_basicMeshes f) (wrap f)
              (drawn f ++ [(s, m_pShaderManager (manager f))]))
  end.

Fixpoint run (cs : list statement) (f : Renderer) : outcome Renderer :=
  match cs with
  | [] => Done f
  | c :: cs' => f' <- exec c f ;; run cs' f'
  end.

(** The statements of [RenderScene], in order. The three rotation
    variables stay 0 throughout; two calls pass 180 degrees about X
    directly. [garbage] gives the content of the local material of each
    of the three calls of [SetShaderMaterial]. *)
Definition RenderScene_statements (garbage : nat -> OBJECT_MATERIAL)
  : list statement :=
  [ (* table *)
    Transform (GLM.Vec3 20.0 1.0 10.0) 0.0 0.0 0.0 (GLM.Vec3 0.0 0.0 0.0);
    Texture "floor"; Draw Plane;
    (* tabasco bottle *)
    Transform (GLM.Vec3 0.4 0.9 0.4) 0.0 0.0 0.0 (GLM.Vec3 0.0 0.0 0.0);
    Texture "tbottle"; Material "glass" (garbage 0%nat); Draw Cylinder;
    Transform (GLM.Vec3 0.25 0.6 0.25) 0.0 0.0 0.0 (GLM.Vec3 0.0 0.9 0.0);
    Texture "tbottle"; Material "glass" (garbage 1%nat); Draw Cylinder;
    Transform (GLM.Vec3 0.3 0.3 0.3) 0.0 0.0 0.0 (GLM.Vec3 0.0 1.5 0.0);
    Colour 0.9 0.1 0.1 1.0; Draw Prism;
    Transform (GLM.Vec3 0.2 0.45 0.025) 0.0 0.0 0.0 (GLM.Vec3 0.0 0.5 0.4);
    Texture "tlabel"; Draw Box;
    (* water bottle *)
    Transform (GLM.Vec3 0.8 3.0 0.8) 0.0 0.0 0.0 (GLM.Vec3 (-3.0) 0.0 0.0);
    Colour 0.1 0.1 0.1 1.0; Material "metal" (garbage 2%nat); Draw Cylinder;
    Transform (GLM.Vec3 0.8 0.1 0.8) 0.0 0.0 0.0 (GLM.Vec3 (-3.0) 0.1 0.0);
    Colour 0.7 0.7 0.7 1.0; Draw Cylinder;
    Transform (GLM.Vec3 0.7 0.4 0.7) 0.0 0.0 0.0 (GLM.Vec3 (-3.0) 3.0 0.0);
    Colour 0.1 0.1 0.1 1.0; Draw Cylinder;
    Transform (GLM.Vec3 0.15 0.04 0.7) 180.0 0.0 0.0 (GLM.Vec3 (-2.6) 3.2 0.0);
    Colour 0.1 0.1 0.1 1.0; Draw Cylinder;
    (* record *)
    Transform (GLM.Vec3 2.0 0.05 3.0) 0.0 0.0 0.0 (GLM.Vec3 0.0 0.0 3.0);
    ClampToEdge; UVScale 1.0 1.0; Texture "hdrive"; Draw Box;
    (* coffee mug *)
    Transform (GLM.Vec3 0.6 0.8 0.6) 0.0 0.0 0.0 (GLM.Vec3 3.0 0.0 0.0);
    Colour 0.0 0.8 0.0 1.0; Texture "smile"; Draw Cylinder;
    Transform (GLM.Vec3 0.59 0.79 0.59) 0.0 0.0 0.0 (GLM.Vec3 3.0 0.02 0.0);
    Colour 0.0 0.4 0.0 1.0; Texture "coffee"; Draw Cylinder;
    Transform (GLM.Vec3 0.15 0.3 0.1) 180.0 0.0 0.0 (GLM.Vec3 3.6 0.4 0.0);
    Colour 0.0 0.8 0.0 1.0; Draw Torus;
    Transform (GLM.Vec3 0.55 0.02 0.55) 0.0 0.0 0.0 (GLM.Vec3 3.0 (-0.35) 0.0);
    Colour 0.0 0.8 0.0 1.0; Draw Cylinder ]%R.

Definition RenderScene (garbage : nat -> OBJECT_MATERIAL) (f : Renderer)
  : outcome Renderer :=
  run (RenderScene_statements garbage) f.

(** [PrepareScene]: textures, materials, lights, then the six meshes. *)
Definition PrepareScene (stbi_load : string -> option GL.Image) (f : Renderer)
  : outcome Renderer :=
  st1 <- LoadSceneTextures stbi_load (manager f) ;;
  st3 <- SetupSceneLights (DefineObjectMaterials st1) ;;
  Done (MkRenderer st3
          (m_basicMeshes f ++ [Plane; Cone; Box; Prism; Cylinder; Torus])
          (wrap f) (drawn f)).

(** The uniforms one statement writes, given the scene manager it runs
    in (a [Material] statement writes nothing while no material is
    defined). *)
Definition writes (st : SceneManager) (c : statement)
  : list (string * Shader.uniform) :=
  match c with
  | Transform s rx ry rz p =>
      [(g_ModelName, Shader.UMat4 (modelView s rx ry rz p))]
  | Texture t =>
      [(g_UseTextureName, Shader.UInt 1);
       (g_TextureValueName, Shader.USampler2D (FindTextureSlot t st))]
  | Material t garbage =>
      match m_objectMaterials st with
      | [] => []
      | _ :: _ =>
          let material := FindMaterial_loop t (m_objectMaterials st) garbage in
          [("material.diffuseColor"%string, Shader.UVec3 (diffuseColor material));
           ("material.specularColor"%string, Shader.UVec3 (specularColor material));
           ("material.shininess"%string, Shader.UFloat (shininess material))]
      end
  | Colour r g b a =>
      [(g_UseTextureName, Shader.UInt 0);
       (g_ColorValueName, Shader.UVec4 (GLM.Vec4 r g b a))]
  | UVScale u v => [("UVscale"%string, Shader.UVec2 (GLM.Vec2 u v))]
  | ClampToEdge => []
  | Draw _ => []
  end.

Definition is_material (c : statement) : bool :=
  match c with Material _ _ => true | _ => false end.

Definition is_clamp (c : statement) : bool :=
  match c with ClampToEdge => true | _ => false end.

(** The shapes a list of statements draws, in order. *)
Definition shapes_drawn (cs : list statement) : list shape :=
  flat_map (fun c => match c with Draw s => [s] | _ => [] end) cs.

(** States for examples: two textures loaded and bound to no unit yet; a
    renderer on that registry with an empty shader and the materials of
    [duplicate_materials]; a decoder under which every file is an RGB
    image. *)
Definition two_textures : SceneManager :=
  MkScene None
    ([MkTextureInfo 1 "a"; MkTextureInfo 2 "b"]
       ++ replicate 14 (MkTextureInfo 0 ""))
    2 []
    (GL.MkContext 3 0 ∅
       (<[1 := Some (GL.GL_RGB8, demo_image 3)]>
          {[2 := Some (GL.GL_RGBA8, demo_image 4)]})).

Definition demo_renderer : Renderer :=
  MkRenderer
    (MkScene (Some ∅) (m_textureIDs two_textures) 2
       (m_objectMaterials duplicate_materials)
       (gl (BindGLTextures two_textures)))
    [] ∅ [].

Definition all_rgb (filename : string) : option GL.Image :=
  Some (demo_image 3).

Definition no_garbage (call : nat) : OBJECT_MATERIAL := blank_material.

(** * Properties *)

(** ** The transform builder, in exact arithmetic

    The program computes [modelView] in binary32, through GLM and the
    cosine and sine of the C library; the lemmas of this section are about
    the same expressions over the real numbers, where nothing is rounded.
    They say in which order the five matrices are composed; they do not
    say that the program's rounded entries equal the exact ones (with a
    rotation of 90 degrees the cosine of the rounded angle is not 0). *)

Section Transform.

Local Open Scope R_scope.

Lemma normalize_X : GLM.normalize (GLM.Vec3 1 0 0) = GLM.Vec3 1 0 0.
Proof.
  unfold GLM.normalize, GLM.inversesqrt, GLM.dot; cbn.
  replace (1 * 1 + 0 * 0 + 0 * 0) with 1 by ring.
  rewrite sqrt_1. f_equal; field.
Qed.

Lemma normalize_Y : GLM.normalize (GLM.Vec3 0 1 0) = GLM.Vec3 0 1 0.
Proof.
  unfold GLM.normalize, GLM.inversesqrt, GLM.dot; cbn.
  replace (0 * 0 + 1 * 1 + 0 * 0) with 1 by ring.
  rewrite sqrt_1. f_equal; field.
Qed.

Lemma normalize_Z : GLM.normalize (GLM.Vec3 0 0 1) = GLM.Vec3 0 0 1.
Proof.
  unfold GLM.normalize, GLM.inversesqrt, GLM.dot; cbn.
  replace (0 * 0 + 0 * 0 + 1 * 1) with 1 by ring.
  rewrite sqrt_1. f_equal; field.
Qed.

Lemma radians_deg d : GLM.radians d = Textbook.deg d.
Proof. unfold GLM.radians, Textbook.deg. field. Qed.

Ltac glm_unfold :=
  cbv [GLM.mul GLM.mul_vec GLM.combine GLM.vadd GLM.vscale GLM.identity
       GLM.translate GLM.translate_m GLM.scale GLM.scale_m
       GLM.c0 GLM.c1 GLM.c2 GLM.c3 GLM.x4 GLM.y4 GLM.z4 GLM.w4
       GLM.x3 GLM.y3 GLM.z3].

Ltac matrix_eq :=
  glm_unfold; cbn; repeat (f_equal; try ring).

(** [glm::rotate] about each coordinate axis is the textbook rotation. *)
Lemma rotate_X d :
  Textbook.of_mat4 (GLM.rotate (GLM.radians d) (GLM.Vec3 1 0 0))
  = Textbook.RotateX d.
Proof.
  unfold GLM.rotate, GLM.rotate_m. rewrite normalize_X, radians_deg.
  unfold Textbook.RotateX. matrix_eq.
Qed.

Lemma rotate_Y d :
  Textbook.of_mat4 (GLM.rotate (GLM.radians d) (GLM.Vec3 0 1 0))
  = Textbook.RotateY d.
Proof.
  unfold GLM.rotate, GLM.rotate_m. rewrite normalize_Y, radians_deg.
  unfold Textbook.RotateY. matrix_eq.
Qed.

Lemma rotate_Z d :
  Textbook.of_mat4 (GLM.rotate (GLM.radians d) (GLM.Vec3 0 0 1))
  = Textbook.RotateZ d.
Proof.
  unfold GLM.rotate, GLM.rotate_m. rewrite normalize_Z, radians_deg.
  unfold Textbook.RotateZ. matrix_eq.
Qed.

Lemma scale_textbook sx sy sz :
  Textbook.of_mat4 (GLM.scale (GLM.Vec3 sx sy sz)) = Textbook.Scale sx sy sz.
Proof. unfold Textbook.Scale. matrix_eq. Qed.

Lemma translate_textbook tx ty tz :
  Textbook.of_mat4 (GLM.translate (GLM.Vec3 tx ty tz))
  = Textbook.Translate tx ty tz.
Proof. unfold Textbook.Translate. matrix_eq. Qed.

(** The column-wise product of GLM is the row-by-column product. *)
Lemma mul_product a b :
  Textbook.of_mat4 (GLM.mul a b)
  = Textbook.product (Textbook.of_mat4 a) (Textbook.of_mat4 b).
Proof.
  destruct a as [[] [] [] []], b as [[] [] [] []]. matrix_eq.
Qed.

(** In exact arithmetic the matrix of [SetTransformations], read by rows,
    is Translate * RotateZ * RotateY * RotateX * Scale. *)
Lemma modelView_textbook sx sy sz rx ry rz px py pz :
  Textbook.of_mat4
    (modelView (GLM.Vec3 sx sy sz) rx ry rz (GLM.Vec3 px py pz))
  = Textbook.product
      (Textbook.product
         (Textbook.product
            (Textbook.product (Textbook.Translate px py pz) (Textbook.RotateZ rz))
            (Textbook.RotateY ry))
         (Textbook.RotateX rx))
      (Textbook.Scale sx sy sz).
Proof.
  unfold modelView.
  rewrite !mul_product, rotate_X, rotate_Y, rotate_Z,
    scale_textbook, translate_textbook.
  reflexivity.
Qed.

(** The matrix is handed to the shader as it is. *)
Lemma SetTransformations_pushes s rx ry rz p st sh :
  model_uniform (SetTransformations s rx ry rz p (with_shader st sh))
  = Some (modelView s rx ry rz p).
Proof.
  unfold SetTransformations, model_uniform, Shader.setMat4Value; cbn.
  by rewrite lookup_insert_eq.
Qed.

End Transform.

(** ** Lookups by tag *)

Section Lookups.

Local Open Scope nat_scope.

Lemma length_registry st : length (registry st) = m_loadedTextures st.
Proof. unfold registry. by rewrite length_fmap, length_seq. Qed.

Lemma registry_lookup st i :
  i < m_loadedTextures st ->
  registry st !! i = Some (texture_at (m_textureIDs st) i).
Proof.
  intros Hi. unfold registry.
  rewrite list_lookup_fmap, lookup_seq_lt by done. reflexivity.
Qed.

(** A loop that meets no matching tag leaves its result variable alone. *)
Lemma FindTextureID_loop_miss t arr n i v :
  (forall j, i <= j < i + n -> tag (texture_at arr j) <> t) ->
  FindTextureID_loop t arr n i v = v.
Proof.
  revert i. induction n as [| n IH]; intros i Hmiss; cbn; [done |].
  destruct (String.eqb_spec (tag (texture_at arr i)) t) as [Heq | _].
  - exfalso. apply (Hmiss i); [lia | done].
  - apply IH. intros j Hj. apply Hmiss. lia.
Qed.

Lemma FindTextureSlot_loop_miss t arr n i v :
  (forall j, i <= j < i + n -> tag (texture_at arr j) <> t) ->
  FindTextureSlot_loop t arr n i v = v.
Proof.
  revert i. induction n as [| n IH]; intros i Hmiss; cbn; [done |].
  destruct (String.eqb_spec (tag (texture_at arr i)) t) as [Heq | _].
  - exfalso. apply (Hmiss i); [lia | done].
  - apply IH. intros j Hj. apply Hmiss. lia.
Qed.

(** A loop stops at the first matching index. *)
Lemma FindTextureID_loop_hit t arr n i v k :
  i <= k < i + n ->
  tag (texture_at arr k) = t ->
  (forall j, i <= j < k -> tag (texture_at arr j) <> t) ->
  FindTextureID_loop t arr n i v = int_of_GLuint (ID (texture_at arr k)).
Proof.
  revert i. induction n as [| n IH]; intros i Hk Hhit Hbefore; [lia |].
  cbn. destruct (String.eqb_spec (tag (texture_at arr i)) t) as [Heq | Hne].
  - destruct (decide (i = k)) as [-> | Hik]; [done |].
    exfalso. apply (Hbefore i); [lia | done].
  - assert (i <> k) by congruence.
    apply IH; [lia | done |]. intros j Hj. apply Hbefore. lia.
Qed.

Lemma FindTextureSlot_loop_hit t arr n i v k :
  i <= k < i + n ->
  tag (texture_at arr k) = t ->
  (forall j, i <= j < k -> tag (texture_at arr j) <> t) ->
  FindTextureSlot_loop t arr n i v = Z.of_nat k.
Proof.
  revert i. induction n as [| n IH]; intros i Hk Hhit Hbefore; [lia |].
  cbn. destruct (String.eqb_spec (tag (texture_at arr i)) t) as [Heq | Hne].
  - destruct (decide (i = k)) as [-> | Hik]; [done |].
    exfalso. apply (Hbefore i); [lia | done].
  - assert (i <> k) by congruence.
    apply IH; [lia | done |]. intros j Hj. apply Hbefore. lia.
Qed.

(** A handle below 2^31 is the same number as an [int]. *)
Lemma int_of_GLuint_small u :
  (0 <= u < 2 ^ 31)%Z -> int_of_GLuint u = u.
Proof.
  intros Hu. unfold int_of_GLuint.
  rewrite Z.mod_small by lia.
  destruct (Z.ltb_spec u (2 ^ 31)); lia.
Qed.

(** The first entry of the registry with a given tag decides both texture
    lookups. *)
Lemma texture_lookups_first t st before e after :
  registry st = before ++ e :: after ->
  tag e = t ->
  (forall x, x ∈ before -> tag x <> t) ->
  FindTextureID t st = int_of_GLuint (ID e) /\
  FindTextureSlot t st = Z.of_nat (length before).
Proof.
  intros Hreg He Hbefore.
  assert (Hlen : length before < m_loadedTextures st).
  { rewrite <- length_registry, Hreg, length_app. cbn. lia. }
  assert (Hat : texture_at (m_textureIDs st) (length before) = e).
  { pose proof (registry_lookup st _ Hlen) as H.
    rewrite Hreg, list_lookup_middle in H by done. congruence. }
  assert (Hmiss : forall j, 0 <= j < length before ->
                            tag (texture_at (m_textureIDs st) j) <> t).
  { intros j Hj. apply Hbefore.
    assert (Hjl : j < m_loadedTextures st) by lia.
    pose proof (registry_lookup st _ Hjl) as H.
    rewrite Hreg, lookup_app_l in H by lia.
    eapply list_elem_of_lookup_2, H. }
  unfold FindTextureID, FindTextureSlot. split.
  - rewrite <- Hat. apply FindTextureID_loop_hit; [lia | by rewrite Hat | done].
  - apply FindTextureSlot_loop_hit; [lia | by rewrite Hat | done].
Qed.

Lemma texture_lookups_miss t st :
  t ∉ tag <$> registry st ->
  FindTextureID t st = (-1)%Z /\ FindTextureSlot t st = (-1)%Z.
Proof.
  intros Hnot.
  assert (Hmiss : forall j, 0 <= j < 0 + m_loadedTextures st ->
                            tag (texture_at (m_textureIDs st) j) <> t).
  { intros j Hj Heq. apply Hnot.
    apply list_elem_of_fmap. exists (texture_at (m_textureIDs st) j).
    split; [done |].
    eapply list_elem_of_lookup_2, registry_lookup. lia. }
  unfold FindTextureID, FindTextureSlot.
  by rewrite FindTextureID_loop_miss, FindTextureSlot_loop_miss.
Qed.

Lemma FindMaterial_loop_miss t l m :
  (forall e, e ∈ l -> mtag e <> t) -> FindMaterial_loop t l m = m.
Proof.
  induction l as [| a l IH]; intros Hmiss; cbn; [done |].
  destruct (String.eqb_spec (mtag a) t) as [Heq | _].
  - exfalso. apply (Hmiss a); [left | done].
  - apply IH. intros e He. apply Hmiss. by right.
Qed.

Lemma FindMaterial_loop_hit t before e after m :
  mtag e = t ->
  (forall x, x ∈ before -> mtag x <> t) ->
  FindMaterial_loop t (before ++ e :: after) m
  = MkMaterial (diffuseColor e) (specularColor e) (shininess e) (mtag m).
Proof.
  intros He. induction before as [| a l IH]; intros Hmiss; cbn.
  - rewrite <- He, String.eqb_refl. done.
  - destruct (String.eqb_spec (mtag a) t) as [Heq | _].
    + exfalso. apply (Hmiss a); [left | done].
    + apply IH. intros x Hx. apply Hmiss. by right.
Qed.

(** C1. Whatever the tag, when the material registry is not empty and no
    entry carries the tag, [FindMaterial] returns [true] and the caller's
    material is left as it was. *)
Theorem FindMaterial_no_match_reports_found :
  forall (t : string) (material : OBJECT_MATERIAL) (st : SceneManager),
    m_objectMaterials st <> [] ->
    (forall e, e ∈ m_objectMaterials st -> mtag e <> t) ->
    FindMaterial t material st = (true, material).
Proof.
  intros t material st Hne Hmiss. unfold FindMaterial.
  destruct (m_objectMaterials st) as [| a l] eqn:E; [done |].
  cbn [length Nat.eqb]. by rewrite FindMaterial_loop_miss.
Qed.

(** C5. For a tag that no registered texture carries, [FindTextureID] and
    [FindTextureSlot] both return -1; both are total functions, so no
    error is raised. *)
Theorem texture_lookup_unregistered_is_minus_one :
  forall (t : string) (st : SceneManager),
    t ∉ tag <$> registry st ->
    FindTextureID t st = (-1)%Z /\ FindTextureSlot t st = (-1)%Z.
Proof. intros t st. apply texture_lookups_miss. Qed.

(** C8. Whatever the tag, [FindMaterial] on an empty material registry
    returns [false] and the caller's material is left as it was. *)
Theorem FindMaterial_empty_registry_not_found :
  forall (t : string) (material : OBJECT_MATERIAL) sh arr n g,
    FindMaterial t material (MkScene sh arr n [] g) = (false, material).
Proof. reflexivity. Qed.

(** C9. No lookup detects duplicates: when two (or more) entries carry the
    same tag, [FindTextureID] and [FindTextureSlot] answer with the handle
    (as an [int]; the very number for a handle below 2^31) and the index
    of the earliest such entry of the texture registry, and
    [FindMaterial] copies the diffuse colour, specular colour and shininess
    of the earliest such entry of the material registry. *)
Theorem lookups_first_match_wins :
  (forall (t : string) (st : SceneManager) before e between e' after,
      registry st = before ++ e :: between ++ e' :: after ->
      tag e = t -> tag e' = t ->
      (forall x, x ∈ before -> tag x <> t) ->
      FindTextureID t st = int_of_GLuint (ID e) /\
      ((0 <= ID e < 2 ^ 31)%Z -> FindTextureID t st = ID e) /\
      FindTextureSlot t st = Z.of_nat (length before)) /\
  (forall (t : string) (material : OBJECT_MATERIAL) (st : SceneManager)
          before e between e' after,
      m_objectMaterials st = before ++ e :: between ++ e' :: after ->
      mtag e = t -> mtag e' = t ->
      (forall x, x ∈ before -> mtag x <> t) ->
      FindMaterial t material st
      = (true, MkMaterial (diffuseColor e) (specularColor e) (shininess e)
                          (mtag material))).
Proof.
  split.
  - intros t st before e between e' after Hreg He _ Hbefore.
    destruct (texture_lookups_first t st before e (between ++ e' :: after))
      as [Hid Hslot]; [done | done | done |].
    split; [done |]. split; [| done].
    intros Hsmall. by rewrite Hid, int_of_GLuint_small.
  - intros t material st before e between e' after Hm He _ Hbefore.
    unfold FindMaterial. rewrite Hm.
    destruct (length _ =? 0) eqn:E.
    + apply Nat.eqb_eq in E. rewrite length_app in E. cbn in E. lia.
    + by rewrite FindMaterial_loop_hit.
Qed.

End Lookups.

(** ** The shading state setters and the shader pointer *)

Section Setters.

(** The setters that test the pointer do nothing when it is null. *)
Lemma guarded_setters_null_safe st :
  m_pShaderManager st = None ->
  (forall r g b a, SetShaderColor r g b a st = Done st) /\
  (forall t, SetShaderTexture t st = Done st) /\
  (forall u v, SetTextureUVScale u v st = Done st) /\
  (forall s rx ry rz p, SetTransformations s rx ry rz p st = Done st).
Proof.
  intros Hnull.
  unfold SetShaderColor, SetShaderTexture, SetTextureUVScale, SetTransformations.
  rewrite Hnull. done.
Qed.

(** [SetShaderMaterial] reaches its setter calls for every tag as soon as
    one material is defined, and goes through the pointer untested. *)
Lemma SetShaderMaterial_null_undefined t garbage st :
  m_pShaderManager st = None ->
  m_objectMaterials st <> [] ->
  SetShaderMaterial t garbage st = Undefined.
Proof.
  intros Hnull Hne. unfold SetShaderMaterial, FindMaterial.
  destruct (m_objectMaterials st) as [| a l]; [done |].
  cbn [length Nat.ltb Nat.leb Nat.eqb]. by rewrite Hnull.
Qed.

(** C2. With a null shader pointer, [SetShaderColor], [SetShaderTexture]
    and [SetTextureUVScale] return without touching the shader, but
    [SetShaderMaterial] dereferences the pointer: after
    [DefineObjectMaterials] the call for "glass" is undefined behaviour. *)
Theorem SetShaderMaterial_dereferences_null_shader :
  SetShaderColor 1 1 1 1 null_shader_scene = Done null_shader_scene /\
  SetShaderTexture "floor" null_shader_scene = Done null_shader_scene /\
  SetTextureUVScale 1 1 null_shader_scene = Done null_shader_scene /\
  (forall garbage,
      SetShaderMaterial "glass" garbage null_shader_scene = Undefined).
Proof.
  destruct (guarded_setters_null_safe null_shader_scene eq_refl)
    as (Hc & Ht & Hu & _).
  split; [apply Hc |]. split; [apply Ht |]. split; [apply Hu |].
  intros garbage. by apply SetShaderMaterial_null_undefined.
Qed.

End Setters.

(** ** The texture registry *)

Section Registry.

Variable stbi_load : string -> option GL.Image.

Local Open Scope nat_scope.

Lemma texture_at_insert_eq arr i x :
  i < length arr -> texture_at (<[i := x]> arr) i = x.
Proof. intros Hi. unfold texture_at. by rewrite list_lookup_insert_eq. Qed.

Lemma texture_at_insert_ne arr i j x :
  i <> j -> texture_at (<[i := x]> arr) j = texture_at arr j.
Proof. intros Hij. unfold texture_at. by rewrite list_lookup_insert_ne. Qed.

(** Registering in a free slot appends one entry to the registry. *)
Lemma registry_register sh arr n mats g g' x :
  n < length arr ->
  registry (MkScene sh (<[n := x]> arr) (S n) mats g')
  = registry (MkScene sh arr n mats g) ++ [x].
Proof.
  intros Hn. unfold registry; cbn [m_textureIDs m_loadedTextures].
  rewrite seq_S, fmap_app. cbn. rewrite texture_at_insert_eq by done.
  f_equal. apply list_fmap_ext. intros i j Hj.
  apply lookup_seq in Hj as [-> Hlt]. apply texture_at_insert_ne. lia.
Qed.

(** The three ways [CreateGLTexture] can end. *)
Lemma CreateGLTexture_no_image filename t st :
  stbi_load filename = None ->
  CreateGLTexture stbi_load filename t st = Done (false, st).
Proof. intros H. unfold CreateGLTexture. by rewrite H. Qed.

Lemma CreateGLTexture_unsupported filename t st image :
  stbi_load filename = Some image ->
  upload_format image = None ->
  CreateGLTexture stbi_load filename t st
  = Done (false,
          with_gl st (GL.glBindTexture (GL.next_name (gl st))
                        (snd (GL.glGenTextures (gl st))))).
Proof.
  intros H Hf. unfold CreateGLTexture, upload_format in *. rewrite H. cbn.
  destruct (GL.colorChannels image =? 3)%Z; [done |].
  by destruct (GL.colorChannels image =? 4)%Z.
Qed.

Lemma CreateGLTexture_registers filename t st image fmt :
  stbi_load filename = Some image ->
  upload_format image = Some fmt ->
  m_loadedTextures st < length (m_textureIDs st) ->
  CreateGLTexture stbi_load filename t st
  = Done (true,
          MkScene (m_pShaderManager st)
            (<[m_loadedTextures st := MkTextureInfo (GL.next_name (gl st)) t]>
               (m_textureIDs st))
            (S (m_loadedTextures st))
            (m_objectMaterials st)
            (GL.glBindTexture 0
               (GL.glTexImage2D fmt image
                  (GL.glBindTexture (GL.next_name (gl st))
                     (snd (GL.glGenTextures (gl st))))))).
Proof.
  intros H Hf Hroom. unfold CreateGLTexture, upload_format in *. rewrite H.
  cbn -[Nat.ltb]. apply Nat.ltb_lt in Hroom.
  destruct (GL.colorChannels image =? 3)%Z.
  - injection Hf as <-. by rewrite Hroom.
  - destruct (GL.colorChannels image =? 4)%Z; [| done].
    injection Hf as <-. by rewrite Hroom.
Qed.

Lemma CreateGLTexture_overflows filename t st image fmt :
  stbi_load filename = Some image ->
  upload_format image = Some fmt ->
  length (m_textureIDs st) <= m_loadedTextures st ->
  CreateGLTexture stbi_load filename t st = Undefined.
Proof.
  intros H Hf Hfull. unfold CreateGLTexture, upload_format in *. rewrite H.
  cbn -[Nat.ltb]. apply Nat.ltb_ge in Hfull.
  destruct (GL.colorChannels image =? 3)%Z; [by rewrite Hfull |].
  destruct (GL.colorChannels image =? 4)%Z; [by rewrite Hfull | done].
Qed.

Lemma upload_format_supported image :
  is_Some (upload_format image) <->
  (GL.colorChannels image = 3 \/ GL.colorChannels image = 4)%Z.
Proof.
  unfold upload_format.
  destruct (Z.eqb_spec (GL.colorChannels image) 3);
    [| destruct (Z.eqb_spec (GL.colorChannels image) 4)].
  - split; [by left | by eexists].
  - split; [by right | by eexists].
  - split; [by intros [? ?] | by intros [? | ?]].
Qed.

(** A call that returns [false] hands back the scene manager with, at
    most, another OpenGL context. *)
Lemma CreateGLTexture_false_inv filename t st st' :
  CreateGLTexture stbi_load filename t st = Done (false, st') ->
  exists g, st' = with_gl st g.
Proof.
  unfold CreateGLTexture.
  destruct (stbi_load filename) as [image |].
  - cbn -[Nat.ltb].
    destruct (GL.colorChannels image =? 3)%Z;
      [| destruct (GL.colorChannels image =? 4)%Z].
    + destruct (_ <? _); [congruence | done].
    + destruct (_ <? _); [congruence | done].
    + intros [= <-]. by eexists.
  - intros [= <-]. exists (gl st). by destruct st.
Qed.

(** C6, as the code has it. Whatever the file and the tag:
    - while the array has a free entry, [CreateGLTexture] returns; it
      returns [true] exactly when the image decodes with three or four
      channels, and then it has registered the texture: the entry at index
      [m_loadedTextures] holds the texture name [glGenTextures] has just
      handed out together with the tag, the texture object of that name
      holds the decoded image (as RGB8 for three channels, RGBA8 for
      four) and is no longer bound, no other texture object has changed,
      and the count has grown by one; otherwise (no image, or any other
      channel count, such as two) it returns [false] and the count and
      the registry are as before;
    - with the array full, the call is undefined exactly when the image
      decodes with three or four channels (the registering write is
      outside the array), and returns [false] with the registry as before
      otherwise. *)
Theorem CreateGLTexture_succeeds_iff_three_or_four_channels :
  forall (filename t : string) (st : SceneManager),
    (m_loadedTextures st < length (m_textureIDs st) ->
     exists (b : bool) (st' : SceneManager),
       CreateGLTexture stbi_load filename t st = Done (b, st') /\
       (b = true <->
        exists image,
          stbi_load filename = Some image /\
          (GL.colorChannels image = 3 \/ GL.colorChannels image = 4)%Z) /\
       (b = true ->
        exists image fmt,
          stbi_load filename = Some image /\
          ((GL.colorChannels image = 3 /\ fmt = GL.GL_RGB8) \/
           (GL.colorChannels image = 4 /\ fmt = GL.GL_RGBA8))%Z /\
          m_loadedTextures st' = S (m_loadedTextures st) /\
          registry st'
          = registry st ++ [MkTextureInfo (GL.next_name (gl st)) t] /\
          GL.textures (gl st') !! GL.next_name (gl st)
          = Some (Some (fmt, image)) /\
          (forall name, name <> GL.next_name (gl st) ->
                        GL.textures (gl st') !! name
                        = GL.textures (gl st) !! name) /\
          GL.next_name (gl st') = (GL.next_name (gl st) + 1)%Z /\
          GL.bound (gl st') = 0%Z) /\
       (b = false ->
        m_loadedTextures st' = m_loadedTextures st /\
        registry st' = registry st)) /\
    (length (m_textureIDs st) <= m_loadedTextures st ->
     (CreateGLTexture stbi_load filename t st = Undefined <->
      exists image,
        stbi_load filename = Some image /\
        (GL.colorChannels image = 3 \/ GL.colorChannels image = 4)%Z) /\
     ((forall image,
          stbi_load filename = Some image ->
          GL.colorChannels image <> 3%Z /\ GL.colorChannels image <> 4%Z) ->
      exists st',
        CreateGLTexture stbi_load filename t st = Done (false, st') /\
        m_loadedTextures st' = m_loadedTextures st /\
        registry st' = registry st)).
Proof.
  intros filename t st. split.
  - intros Hroom.
    destruct (stbi_load filename) as [image |] eqn:Hload.
    + destruct (upload_format image) as [fmt |] eqn:Hfmt.
      * eexists true, _. split; [by eapply CreateGLTexture_registers |].
        split; [| split; [| done]].
        -- split; [| done]. intros _. exists image. split; [done |].
           apply upload_format_supported. by eexists.
        -- intros _. exists image, fmt. split; [done |]. split.
           { revert Hfmt. unfold upload_format.
             destruct (Z.eqb_spec (GL.colorChannels image) 3);
               [intros [= <-]; by left |].
             destruct (Z.eqb_spec (GL.colorChannels image) 4);
               [intros [= <-]; by right | done]. }
           split; [done |]. split.
           { destruct st. by apply registry_register. }
           cbn [gl]. unfold GL.glBindTexture, GL.glTexImage2D,
             GL.glGenTextures, GL.bound.
           cbn [GL.next_name GL.active_unit GL.units GL.textures fst snd].
           rewrite !lookup_insert_eq. cbn [default from_option]. unfold id.
           destruct (decide (0 = 0)%Z) as [_ | ?]; [| done].
           split; [by rewrite lookup_insert_eq |].
           split; [| done].
           intros name Hname. rewrite lookup_insert_ne by done.
           destruct (decide (GL.next_name (gl st) = 0)%Z); [done |].
           destruct (GL.textures (gl st) !! GL.next_name (gl st)); [done |].
           by rewrite lookup_insert_ne.
      * eexists false, _. split; [by eapply CreateGLTexture_unsupported |].
        split; [| split; [done | done]].
        split; [done |]. intros (image' & [= <-] & Hch).
        apply upload_format_supported in Hch as [? Hch]. congruence.
    + eexists false, st. split; [by apply CreateGLTexture_no_image |].
      split; [| split; [done | done]].
      split; [done |]. by intros (image' & [=] & _).
  - intros Hfull. apply Nat.ltb_ge in Hfull.
    unfold CreateGLTexture.
    destruct (stbi_load filename) as [image |] eqn:Hload.
    + cbn -[Nat.ltb]. rewrite Hfull.
      destruct (Z.eqb_spec (GL.colorChannels image) 3) as [H3 | H3];
        [| destruct (Z.eqb_spec (GL.colorChannels image) 4) as [H4 | H4]].
      * split; [split; [intros _; exists image; by split; [| left] | done] |].
        intros Hno. by destruct (Hno image eq_refl).
      * split; [split; [intros _; exists image; by split; [| right] | done] |].
        intros Hno. by destruct (Hno image eq_refl).
      * split; [split; [done |] |].
        -- intros (image' & [= <-] & [? | ?]); done.
        -- intros _. by eexists.
    + split; [split; [done | by intros (image' & [=] & _)] |].
      intros _. exists st. by destruct st.
Qed.

(** C10. Whatever the file and the tag, a call of [CreateGLTexture] that
    returns [false] leaves the count of loaded textures and the array of
    entries as they were, so every lookup answers as before the call. *)
Theorem CreateGLTexture_failure_leaves_registry :
  forall (filename t : string) (st st' : SceneManager),
    CreateGLTexture stbi_load filename t st = Done (false, st') ->
    m_loadedTextures st' = m_loadedTextures st /\
    m_textureIDs st' = m_textureIDs st /\
    registry st' = registry st /\
    (forall t', FindTextureID t' st' = FindTextureID t' st /\
                FindTextureSlot t' st' = FindTextureSlot t' st).
Proof.
  intros filename t st st' Hcall.
  apply CreateGLTexture_false_inv in Hcall as [g ->]. done.
Qed.

(** Without a free slot the registering write is outside the array. *)
Example CreateGLTexture_full_registry_undefined :
  CreateGLTexture demo_decoder "rgb.jpg" "extra" full_registry = Undefined.
Proof. reflexivity. Qed.

End Registry.

(** ** Releasing the textures *)

Section Release.

Local Open Scope nat_scope.

(** Writing a new handle into an entry keeps every tag. *)
Lemma tag_after_new_handle arr i j name :
  tag (texture_at (<[i := MkTextureInfo name (tag (texture_at arr i))]> arr) j)
  = tag (texture_at arr j).
Proof.
  destruct (decide (i = j)) as [-> | Hij].
  - destruct (decide (j < length arr)) as [Hj | Hj].
    + by rewrite texture_at_insert_eq.
    + by rewrite list_insert_ge by lia.
  - by rewrite texture_at_insert_ne.
Qed.

(** The loop of [DestroyGLTextures] only consumes texture names and
    rewrites handles. *)
Lemma DestroyGLTextures_loop_spec n i arr g :
  let r := DestroyGLTextures_loop n i arr g in
  length (fst r) = length arr /\
  (forall j, tag (texture_at (fst r) j) = tag (texture_at arr j)) /\
  GL.textures (snd r) = GL.textures g /\
  GL.units (snd r) = GL.units g /\
  GL.active_unit (snd r) = GL.active_unit g /\
  GL.next_name (snd r) = (GL.next_name g + Z.of_nat n)%Z.
Proof.
  revert i arr g. induction n as [| n IH]; intros i arr g; cbn.
  - repeat split; lia.
  - destruct (IH (S i)
                (<[i := MkTextureInfo (GL.next_name g) (tag (texture_at arr i))]> arr)
                (GL.MkContext (GL.next_name g + 1) (GL.active_unit g)
                              (GL.units g) (GL.textures g)))
      as (Hlen & Htag & Htex & Hun & Hact & Hnext).
    cbn in *. split; [by rewrite Hlen, length_insert |].
    split; [| split; [done | split; [done | split; [done | lia]]]].
    intros j. rewrite Htag. apply tag_after_new_handle.
Qed.

(** The slot lookup depends on the tags only. *)
Lemma FindTextureSlot_loop_tags t arr arr' n i v :
  (forall j, tag (texture_at arr' j) = tag (texture_at arr j)) ->
  FindTextureSlot_loop t arr' n i v = FindTextureSlot_loop t arr n i v.
Proof.
  intros Htag. revert i. induction n as [| n IH]; intros i; cbn; [done |].
  rewrite Htag. by rewrite IH.
Qed.

(** C7. [DestroyGLTextures] frees nothing: after the call the texture
    objects of the context are the ones from before, still bound to the
    same units; the count of loaded textures is unchanged, and so are
    the tags of the registry entries, in the same order, and the slot
    every tag resolves to. *)
Theorem DestroyGLTextures_frees_nothing :
  forall st : SceneManager,
    GL.textures (gl (DestroyGLTextures st)) = GL.textures (gl st) /\
    GL.units (gl (DestroyGLTextures st)) = GL.units (gl st) /\
    m_loadedTextures (DestroyGLTextures st) = m_loadedTextures st /\
    tag <$> registry (DestroyGLTextures st) = tag <$> registry st /\
    (forall t, FindTextureSlot t (DestroyGLTextures st) = FindTextureSlot t st).
Proof.
  intros st. unfold DestroyGLTextures.
  pose proof (DestroyGLTextures_loop_spec (m_loadedTextures st) 0
                (m_textureIDs st) (gl st)) as H.
  destruct (DestroyGLTextures_loop _ _ _ _) as [arr g].
  cbn in H. destruct H as (_ & Htag & Htex & Hun & _ & _).
  cbn. split; [done |]. split; [done |]. split; [done |]. split.
  - unfold registry; cbn. rewrite <- !list_fmap_compose.
    apply list_fmap_ext. intros i j _. cbn. apply Htag.
  - intros t. unfold FindTextureSlot; cbn.
    by apply FindTextureSlot_loop_tags.
Qed.

(** What the call does change: every registered handle is overwritten by
    a texture name that denotes no texture object. *)
Example DestroyGLTextures_overwrites_handles :
  let st :=
    MkScene None [MkTextureInfo 1 "a"; MkTextureInfo 2 "b"] 2 []
            (GL.MkContext 3 0 ∅ ∅) in
  registry st = [MkTextureInfo 1 "a"; MkTextureInfo 2 "b"] /\
  registry (DestroyGLTextures st) = [MkTextureInfo 3 "a"; MkTextureInfo 4 "b"].
Proof. split; reflexivity. Qed.

End Release.

(** ** Load order and texture units *)

Section LoadOrder.

Variable stbi_load : string -> option GL.Image.

Local Open Scope nat_scope.

Ltac gl_unfold :=
  unfold GL.glBindTexture, GL.glTexImage2D, GL.glGenTextures,
    GL.glActiveTexture, GL.bound;
  cbn [GL.next_name GL.active_unit GL.units GL.textures fst snd].

Lemma fresh_name_unused g :
  names_in_order g -> GL.textures g !! GL.next_name g = None.
Proof.
  intros [_ Hkeys]. destruct (GL.textures g !! GL.next_name g) eqn:E; [| done].
  apply Hkeys in E. lia.
Qed.

(** The OpenGL side of a load that registers its texture: one new texture
    object, holding the image, under the name that was unused. *)
Lemma gl_after_registering g fmt image :
  names_in_order g ->
  let g' :=
    GL.glBindTexture 0
      (GL.glTexImage2D fmt image
         (GL.glBindTexture (GL.next_name g) (snd (GL.glGenTextures g)))) in
  names_in_order g' /\
  GL.textures g' !! GL.next_name g = Some (Some (fmt, image)) /\
  (forall name x,
      GL.textures g !! name = Some x -> GL.textures g' !! name = Some x).
Proof.
  intros Hok. pose proof (fresh_name_unused g Hok) as Hfresh.
  destruct Hok as [Hpos Hkeys]. unfold names_in_order. gl_unfold.
  rewrite lookup_insert_eq. cbn [default from_option]. unfold id.
  destruct (decide (0 = 0)%Z) as [_ | ?]; [| done].
  destruct (decide (GL.next_name g = 0)%Z) as [? | _]; [lia |].
  rewrite Hfresh, insert_insert_eq.
  split; [split |]; [lia | | split].
  - intros name x. rewrite lookup_insert.
    destruct (decide (GL.next_name g = name)) as [<- | _]; [lia |].
    intros H. apply Hkeys in H. lia.
  - by rewrite lookup_insert_eq.
  - intros name x H.
    assert (GL.next_name g <> name) by (intros <-; congruence).
    by rewrite lookup_insert_ne.
Qed.

(** The OpenGL side of a load rejected for its channel count: one new,
    empty texture object. *)
Lemma gl_after_rejecting g :
  names_in_order g ->
  let g' := GL.glBindTexture (GL.next_name g) (snd (GL.glGenTextures g)) in
  names_in_order g' /\
  (forall name x,
      GL.textures g !! name = Some x -> GL.textures g' !! name = Some x).
Proof.
  intros Hok. pose proof (fresh_name_unused g Hok) as Hfresh.
  destruct Hok as [Hpos Hkeys]. unfold names_in_order. gl_unfold.
  destruct (decide (GL.next_name g = 0)%Z) as [? | _]; [lia |].
  rewrite Hfresh. split; [split |]; [lia | |].
  - intros name x. rewrite lookup_insert.
    destruct (decide (GL.next_name g = name)) as [<- | _]; [lia |].
    intros H. apply Hkeys in H. lia.
  - intros name x H.
    assert (GL.next_name g <> name) by (intros <-; congruence).
    by rewrite lookup_insert_ne.
Qed.

(** Binding creates texture objects at most; it never drops one. *)
Lemma glBindTexture_keeps name g other x :
  GL.textures g !! other = Some x ->
  GL.textures (GL.glBindTexture name g) !! other = Some x.
Proof.
  intros H. gl_unfold.
  destruct (decide (name = 0)%Z); [done |].
  destruct (GL.textures g !! name) eqn:E; [done |].
  assert (name <> other) by (intros <-; congruence).
  by rewrite lookup_insert_ne.
Qed.

(** After the loop of [BindGLTextures], unit [N] holds the handle of entry
    [N], for every [N] the loop went through. *)
Lemma BindGLTextures_loop_spec arr n i g :
  let g' := BindGLTextures_loop arr n i g in
  (forall N, i <= N < i + n ->
             GL.units g' !! N = Some (ID (texture_at arr N))) /\
  (forall N, N < i -> GL.units g' !! N = GL.units g !! N) /\
  (forall name x,
      GL.textures g !! name = Some x -> GL.textures g' !! name = Some x).
Proof.
  revert i g. induction n as [| n IH]; intros i g; cbn.
  - split; [intros N HN; lia | done].
  - destruct (IH (S i)
                (GL.glBindTexture (ID (texture_at arr i))
                   (GL.glActiveTexture i g))) as (Hnew & Hold & Hkeep).
    split; [| split].
    + intros N HN. destruct (decide (N = i)) as [-> | Hne].
      * rewrite Hold by lia. gl_unfold. by rewrite lookup_insert_eq.
      * apply Hnew. lia.
    + intros N HN. rewrite Hold by lia. gl_unfold.
      by rewrite lookup_insert_ne by lia.
    + intros name x H. apply Hkeep. by apply glBindTexture_keeps.
Qed.

(** A run of loads that fits the array appends, in load order, one entry
    for each successfully loaded texture. *)
Lemma LoadTextures_spec loads :
  forall st,
    names_in_order (gl st) ->
    m_loadedTextures st + length (successes stbi_load loads)
      <= length (m_textureIDs st) ->
    exists st' ents,
      LoadTextures stbi_load loads st = Done st' /\
      registry st' = registry st ++ ents /\
      Forall2 (stands_for (gl st')) ents (successes stbi_load loads) /\
      names_in_order (gl st') /\
      (forall name x, GL.textures (gl st) !! name = Some x ->
                      GL.textures (gl st') !! name = Some x).
Proof.
  induction loads as [| [filename t] rest IH]; intros st Hok Hroom.
  - exists st, []. by rewrite app_nil_r.
  - cbn [LoadTextures successes] in *.
    destruct (stbi_load filename) as [image |] eqn:Hload;
      [destruct (upload_format image) as [fmt |] eqn:Hfmt |].
    + cbn [length] in Hroom.
      rewrite (CreateGLTexture_registers _ _ _ _ image fmt) by (done || lia).
      cbn [bind snd].
      destruct (gl_after_registering (gl st) fmt image Hok)
        as (Hok1 & Hnew & Hkeep1).
      match goal with |- context [LoadTextures _ _ ?s] => set (st1 := s) end.
      destruct (IH st1) as (st' & ents & Hrun & Hreg & Hall & Hok' & Hkeep);
        [exact Hok1 | subst st1; cbn; rewrite length_insert; lia |].
      exists st', (MkTextureInfo (GL.next_name (gl st)) t :: ents).
      split; [done |]. split; [| split; [| split; [done |]]].
      * rewrite Hreg. subst st1. destruct st as [p arr n mats g0].
        cbn [m_loadedTextures m_textureIDs m_pShaderManager
             m_objectMaterials gl] in *.
        rewrite (registry_register p arr n mats g0) by lia.
        by rewrite <- app_assoc.
      * apply Forall2_cons. split; [| done].
        split; [done |]. cbn. apply Hkeep. exact Hnew.
      * intros name x H. apply Hkeep, Hkeep1, H.
    + rewrite (CreateGLTexture_unsupported _ _ _ _ image) by done.
      cbn [bind snd].
      destruct (gl_after_rejecting (gl st) Hok) as (Hok1 & Hkeep1).
      match goal with |- context [LoadTextures _ _ ?s] => set (st1 := s) end.
      destruct (IH st1) as (st' & ents & Hrun & Hreg & Hall & Hok' & Hkeep);
        [exact Hok1 | exact Hroom |].
      exists st', ents. split; [done |]. split; [done |].
      split; [done |]. split; [done |].
      intros name x H. apply Hkeep, Hkeep1, H.
    + rewrite CreateGLTexture_no_image by done. cbn [bind snd].
      by apply IH.
Qed.

(** The slot of a tag is the index of the first registry entry carrying
    it. *)
Lemma FindTextureSlot_first_index t st N e :
  registry st !! N = Some e ->
  tag e = t ->
  (forall i e', i < N -> registry st !! i = Some e' -> tag e' <> t) ->
  FindTextureSlot t st = Z.of_nat N.
Proof.
  intros HN He Hfirst.
  assert (HNlt : N < length (registry st)) by (by eapply lookup_lt_Some).
  destruct (texture_lookups_first t st (take N (registry st)) e
              (drop (S N) (registry st))) as [_ Hslot].
  - symmetry. by apply take_drop_middle.
  - done.
  - intros x Hx. apply list_elem_of_lookup_1 in Hx as [i Hi].
    apply lookup_take_Some in Hi as [Hi Hlt]. by eapply Hfirst.
  - rewrite Hslot, length_take. f_equal. lia.
Qed.

Lemma fresh_context_in_order : names_in_order fresh_context.
Proof.
  split; [done |]. intros name x H. cbn in H.
  by rewrite lookup_empty in H.
Qed.

(** The tags of a run of loads that fits the array, whatever the OpenGL
    context holds: the registry grows by the tags of the successfully
    loaded textures, in load order. *)
Lemma LoadTextures_tags loads :
  forall st,
    m_loadedTextures st + length (successes stbi_load loads)
      <= length (m_textureIDs st) ->
    exists st',
      LoadTextures stbi_load loads st = Done st' /\
      m_loadedTextures st'
      = m_loadedTextures st + length (successes stbi_load loads) /\
      length (m_textureIDs st') = length (m_textureIDs st) /\
      m_pShaderManager st' = m_pShaderManager st /\
      m_objectMaterials st' = m_objectMaterials st /\
      tag <$> registry st'
      = (tag <$> registry st)
          ++ ((fun s => s.1.1) <$> successes stbi_load loads).
Proof.
  induction loads as [| [filename t] rest IH]; intros st Hroom.
  - exists st. cbn. by rewrite Nat.add_0_r, app_nil_r.
  - cbn [LoadTextures successes] in *.
    destruct (stbi_load filename) as [image |] eqn:Hload;
      [destruct (upload_format image) as [fmt |] eqn:Hfmt |].
    + cbn [length] in Hroom.
      rewrite (CreateGLTexture_registers _ _ _ _ image fmt) by (done || lia).
      cbn [bind snd].
      match goal with |- context [LoadTextures _ _ ?s] => set (st1 := s) end.
      destruct (IH st1) as (st' & Hrun & Hcount & Hlen & Hsh & Hmats & Htags).
      { subst st1; cbn. rewrite length_insert. lia. }
      exists st'. split; [done |].
      split; [rewrite Hcount; subst st1; cbn; lia |].
      split; [rewrite Hlen; subst st1; cbn; by rewrite length_insert |].
      split; [done |]. split; [done |].
      rewrite Htags. subst st1. destruct st as [p arr n mats g0].
      cbn [m_loadedTextures m_textureIDs m_pShaderManager
           m_objectMaterials gl] in *.
      rewrite (registry_register p arr n mats g0) by lia.
      rewrite fmap_app, <- app_assoc. done.
    + rewrite (CreateGLTexture_unsupported _ _ _ _ image) by done.
      cbn [bind snd]. by apply (IH (with_gl st _)).
    + rewrite CreateGLTexture_no_image by done. cbn [bind snd].
      by apply IH.
Qed.

(** The slot of a tag, from the tags of the registry alone. *)
Lemma FindTextureSlot_by_tags t st N :
  (tag <$> registry st) !! N = Some t ->
  (forall i t', i < N -> (tag <$> registry st) !! i = Some t' -> t' <> t) ->
  FindTextureSlot t st = Z.of_nat N.
Proof.
  intros HN Hfirst. rewrite list_lookup_fmap in HN.
  destruct (registry st !! N) as [e |] eqn:He; [| done].
  injection HN as Htag.
  apply (FindTextureSlot_first_index t st N e); [done | done |].
  intros i e' Hi He'. apply (Hfirst i (tag e') Hi).
  by rewrite list_lookup_fmap, He'.
Qed.

(** From any scene manager with room for the loads: after the loads and
    [BindGLTextures], the registry is the one from before followed by one
    entry for each successfully loaded texture; every entry is bound to the
    unit of its index, and the new ones name the texture objects that hold
    the images. *)
Lemma load_then_bind loads st :
  names_in_order (gl st) ->
  m_loadedTextures st + length (successes stbi_load loads)
    <= length (m_textureIDs st) ->
  exists st' ents,
    LoadTextures stbi_load loads st = Done st' /\
    registry st' = registry st ++ ents /\
    Forall2 (stands_for (gl (BindGLTextures st'))) ents
            (successes stbi_load loads) /\
    (forall N e, registry st' !! N = Some e ->
                 GL.units (gl (BindGLTextures st')) !! N = Some (ID e)).
Proof.
  intros Hok Hfit.
  destruct (LoadTextures_spec loads st Hok Hfit)
    as (st' & ents & Hrun & Hreg & Hall & _ & _).
  exists st', ents. split; [done |]. split; [done |].
  destruct (BindGLTextures_loop_spec (m_textureIDs st') (m_loadedTextures st')
              0 (gl st')) as (Hunits & _ & Hkeep).
  split.
  - eapply Forall2_impl; [exact Hall |].
    intros e s [Htag Himg]. split; [done |]. by apply Hkeep.
  - intros N e HN.
    assert (HNlt : N < m_loadedTextures st').
    { rewrite <- length_registry. by eapply lookup_lt_Some. }
    rewrite registry_lookup in HN by done. injection HN as <-.
    apply Hunits. lia.
Qed.

(** Entry, unit, image and slot of every successfully loaded texture, when
    the loads start with [m_loadedTextures st] textures registered. *)
Lemma load_then_bind_slots loads st :
  names_in_order (gl st) ->
  m_loadedTextures st + length (successes stbi_load loads)
    <= length (m_textureIDs st) ->
  exists st',
    LoadTextures stbi_load loads st = Done st' /\
    m_loadedTextures (BindGLTextures st')
    = m_loadedTextures st + length (successes stbi_load loads) /\
    forall N t fmt image,
      successes stbi_load loads !! N = Some (t, fmt, image) ->
      exists name,
        registry (BindGLTextures st') !! (m_loadedTextures st + N)
        = Some (MkTextureInfo name t) /\
        GL.units (gl (BindGLTextures st')) !! (m_loadedTextures st + N)
        = Some name /\
        GL.textures (gl (BindGLTextures st')) !! name
        = Some (Some (fmt, image)) /\
        ((forall e, e ∈ registry st -> tag e <> t) ->
         (forall i s, i < N ->
                      successes stbi_load loads !! i = Some s ->
                      s.1.1 <> t) ->
         FindTextureSlot t (BindGLTextures st')
         = Z.of_nat (m_loadedTextures st + N)).
Proof.
  intros Hok Hfit.
  destruct (load_then_bind loads st Hok Hfit)
    as (st' & ents & Hrun & Hreg & Hall & Hunits).
  exists st'. split; [done |]. split.
  { change (m_loadedTextures (BindGLTextures st')) with (m_loadedTextures st').
    rewrite <- !length_registry, Hreg, length_app.
    by rewrite (Forall2_length _ _ _ Hall). }
  intros N t fmt image HN.
  destruct (Forall2_lookup_r _ _ _ _ _ Hall HN) as (e & He & Htag & Himg).
  cbn in Htag, Himg. exists (ID e).
  assert (Hshape : MkTextureInfo (ID e) t = e)
    by (destruct e; cbn in *; congruence).
  change (registry (BindGLTextures st')) with (registry st').
  assert (Hentry : registry st' !! (m_loadedTextures st + N) = Some e).
  { rewrite Hreg, lookup_app_r by (rewrite length_registry; lia).
    rewrite length_registry.
    by replace (m_loadedTextures st + N - m_loadedTextures st) with N by lia. }
  split; [by rewrite Hshape |]. split; [by apply Hunits |].
  split; [done |]. intros Hold Hfirst.
  apply (FindTextureSlot_first_index t (BindGLTextures st')
           (m_loadedTextures st + N) e); [done | done |].
  intros i e' Hi He'.
  change (registry (BindGLTextures st')) with (registry st') in He'.
  rewrite Hreg in He'.
  destruct (decide (i < m_loadedTextures st)) as [Hlt | Hge].
  - rewrite lookup_app_l in He' by (by rewrite length_registry).
    apply Hold. by eapply list_elem_of_lookup_2.
  - rewrite lookup_app_r in He' by (rewrite length_registry; lia).
    rewrite length_registry in He'.
    destruct (Forall2_lookup_l _ _ _ _ _ Hall He') as (s & Hs & Htag' & _).
    rewrite Htag'. eapply Hfirst; [| exact Hs]. lia.
Qed.

(** C4, as the code has it. Take any scene manager with [m] textures
    registered ([m] is [m_loadedTextures]; no line of [SceneManager.cpp]
    sets it before the first load), in a context where the texture names
    still to be handed out are unused ([names_in_order], which OpenGL
    guarantees and every load keeps), and a run of loads that fits the
    array. After [BindGLTextures] the [N]th successfully loaded texture
    (counting from 0) is entry [m + N] of the registry and is bound to
    texture unit [m + N], and [FindTextureSlot] on its tag returns [m + N]
    when no entry registered before it carries the same tag: a tag
    resolves to the index of the first entry registered under it. In
    particular, when the registry starts empty, after loading "a", "b" and
    "c" in that order the slot of "b" is 1. *)
Theorem load_order_decides_unit_and_first_slot :
  (forall loads st,
      names_in_order (gl st) ->
      m_loadedTextures st + length (successes stbi_load loads)
        <= length (m_textureIDs st) ->
      exists st',
        LoadTextures stbi_load loads st = Done st' /\
        m_loadedTextures (BindGLTextures st')
        = m_loadedTextures st + length (successes stbi_load loads) /\
        forall N t fmt image,
          successes stbi_load loads !! N = Some (t, fmt, image) ->
          exists name,
            registry (BindGLTextures st') !! (m_loadedTextures st + N)
            = Some (MkTextureInfo name t) /\
            GL.units (gl (BindGLTextures st')) !! (m_loadedTextures st + N)
            = Some name /\
            GL.textures (gl (BindGLTextures st')) !! name
            = Some (Some (fmt, image)) /\
            ((forall e, e ∈ registry st -> tag e <> t) ->
             (forall i s, i < N ->
                          successes stbi_load loads !! i = Some s ->
                          s.1.1 <> t) ->
             FindTextureSlot t (BindGLTextures st')
             = Z.of_nat (m_loadedTextures st + N))) /\
  (forall fa fb fc st,
      m_loadedTextures st = 0 ->
      3 <= length (m_textureIDs st) ->
      supported stbi_load fa -> supported stbi_load fb ->
      supported stbi_load fc ->
      exists st',
        LoadTextures stbi_load [(fa, "a"); (fb, "b"); (fc, "c")] st
        = Done st' /\
        FindTextureSlot "b" (BindGLTextures st') = 1%Z).
Proof.
  split; [exact load_then_bind_slots |].
  intros fa fb fc st Hzero Hlen (ia & fmta & Ha & Hfa) (ib & fmtb & Hb & Hfb)
         (ic & fmtc & Hc & Hfc).
  assert (Hsucc : successes stbi_load [(fa, "a"); (fb, "b"); (fc, "c")]
                  = [("a", fmta, ia); ("b", fmtb, ib); ("c", fmtc, ic)]%string).
  { cbn. by rewrite Ha, Hfa, Hb, Hfb, Hc, Hfc. }
  destruct (LoadTextures_tags [(fa, "a"); (fb, "b"); (fc, "c")]%string st)
    as (st' & Hrun & _ & _ & _ & _ & Htags).
  { rewrite Hsucc, Hzero. cbn. lia. }
  exists st'. split; [done |].
  assert (Hempty : registry st = []) by (unfold registry; by rewrite Hzero).
  rewrite Hsucc, Hempty in Htags. cbn in Htags.
  apply (FindTextureSlot_by_tags "b" (BindGLTextures st') 1).
  - change (registry (BindGLTextures st')) with (registry st').
    by rewrite Htags.
  - intros i t' Hi.
    change (registry (BindGLTextures st')) with (registry st').
    rewrite Htags. destruct i as [| i]; [| lia]. by intros [= <-].
Qed.

(** The scene itself: when its seven files are all supported and the
    registry starts empty, [LoadSceneTextures] gives the tags the slots 0
    to 6, in the order of the calls. *)
Lemma LoadSceneTextures_slots st :
  m_loadedTextures st = 0 ->
  7 <= length (m_textureIDs st) ->
  Forall (fun load => supported stbi_load load.1) scene_textures ->
  exists st',
    LoadSceneTextures stbi_load st = Done st' /\
    FindTextureSlot "floor" st' = 0%Z /\
    FindTextureSlot "tbottle" st' = 1%Z /\
    FindTextureSlot "bottle" st' = 2%Z /\
    FindTextureSlot "tlabel" st' = 3%Z /\
    FindTextureSlot "hdrive" st' = 4%Z /\
    FindTextureSlot "smile" st' = 5%Z /\
    FindTextureSlot "coffee" st' = 6%Z.
Proof.
  intros Hzero Hlen Hall. unfold scene_textures in Hall.
  repeat (apply Forall_cons in Hall as [(? & ? & ? & ?) Hall]). clear Hall.
  cbn [fst] in *.
  match goal with
  | H0 : _ = Some ?i0, F0 : _ = Some ?f0, H1 : _ = Some ?i1, F1 : _ = Some ?f1,
    H2 : _ = Some ?i2, F2 : _ = Some ?f2, H3 : _ = Some ?i3, F3 : _ = Some ?f3,
    H4 : _ = Some ?i4, F4 : _ = Some ?f4, H5 : _ = Some ?i5, F5 : _ = Some ?f5,
    H6 : _ = Some ?i6, F6 : _ = Some ?f6 |- _ =>
      assert (Hsucc : successes stbi_load scene_textures
                      = [("floor", f0, i0); ("tbottle", f1, i1);
                         ("bottle", f2, i2); ("tlabel", f3, i3);
                         ("hdrive", f4, i4); ("smile", f5, i5);
                         ("coffee", f6, i6)]%string)
        by (cbn; by rewrite H0, F0, H1, F1, H2, F2, H3, F3, H4, F4, H5, F5, H6, F6)
  end.
  destruct (LoadTextures_tags scene_textures st)
    as (st' & Hrun & _ & _ & _ & _ & Htags).
  { rewrite Hsucc, Hzero. cbn. lia. }
  exists (BindGLTextures st'). unfold LoadSceneTextures. rewrite Hrun.
  split; [done |].
  assert (Hempty : registry st = []) by (unfold registry; by rewrite Hzero).
  rewrite Hsucc, Hempty in Htags. cbn in Htags.
  change (registry st') with (registry (BindGLTextures st')) in Htags.
  repeat split;
    match goal with
    | |- FindTextureSlot _ _ = ?z =>
        change z with (Z.of_nat (Z.to_nat z))
    end;
    match goal with
    | |- FindTextureSlot ?t _ = Z.of_nat ?n =>
        let n' := eval cbv in n in
        apply (FindTextureSlot_by_tags t (BindGLTextures st') n');
          [by rewrite Htags |];
        intros i t' Hi; rewrite Htags;
        repeat (destruct i as [| i]; [by intros [= <-] |]);
        lia
    end.
Qed.

End LoadOrder.

(** ** Concrete runs *)

Section Runs.

Local Open Scope nat_scope.

(** C4 as stated fails in two ways. With a tag loaded twice: two files
    are loaded under the tag "a" into an empty registry; the second one is
    successfully loaded texture number 1 and is bound to unit 1, but the
    slot of its tag is 0. With a registry that is not empty when the loads
    start: five textures are registered, then "a", "b" and "c" are loaded
    in that order; the texture of "b", number 1 of the run, is bound to
    unit 6 and the slot of "b" is 6, while unit 1 holds an older
    texture. *)
Lemma slot_is_not_always_load_index :
  (exists st',
      LoadTextures demo_decoder [("rgb.jpg", "a"); ("rgba.png", "a")]%string
                   (empty_scene None fresh_context) = Done st' /\
      successes demo_decoder [("rgb.jpg", "a"); ("rgba.png", "a")]%string !! 1
      = Some ("a"%string, GL.GL_RGBA8, demo_image 4) /\
      registry (BindGLTextures st') !! 1
      = Some (MkTextureInfo 2 "a") /\
      GL.units (gl (BindGLTextures st')) !! 1 = Some 2%Z /\
      FindTextureSlot "a" (BindGLTextures st') = 0%Z /\
      FindTextureSlot "a" (BindGLTextures st') <> 1%Z) /\
  (exists st',
      LoadTextures demo_decoder
        [("rgb.jpg", "a"); ("rgba.png", "b"); ("rgb.jpg", "c")]%string
        five_loaded = Done st' /\
      successes demo_decoder
        [("rgb.jpg", "a"); ("rgba.png", "b"); ("rgb.jpg", "c")]%string !! 1
      = Some ("b"%string, GL.GL_RGBA8, demo_image 4) /\
      registry (BindGLTextures st') !! 6 = Some (MkTextureInfo 7 "b") /\
      GL.units (gl (BindGLTextures st')) !! 6 = Some 7%Z /\
      GL.units (gl (BindGLTextures st')) !! 1 = Some 2%Z /\
      GL.textures (gl (BindGLTextures st')) !! 2%Z
      = Some (Some (GL.GL_RGB8, demo_image 3)) /\
      FindTextureSlot "b" (BindGLTextures st') = 6%Z /\
      FindTextureSlot "b" (BindGLTextures st') <> 1%Z).
Proof.
  split.
  - eexists. split; [reflexivity |].
    split; [reflexivity |]. split; [reflexivity |].
    split; [by vm_compute |]. split; [reflexivity |]. by vm_compute.
  - eexists. split; [reflexivity |].
    split; [reflexivity |]. split; [reflexivity |].
    split; [by vm_compute |]. split; [by vm_compute |].
    split; [by vm_compute |]. split; [reflexivity |]. by vm_compute.
Qed.

(** C6 as stated fails when the array is full: a file that decodes with
    three channels does not make [CreateGLTexture] return [true], the call
    is undefined. The same after sixteen loads into an empty registry. *)
Lemma CreateGLTexture_full_array_no_success :
  demo_decoder "rgb.jpg" = Some (demo_image 3) /\
  GL.colorChannels (demo_image 3) = 3%Z /\
  m_loadedTextures full_registry = length (m_textureIDs full_registry) /\
  CreateGLTexture demo_decoder "rgb.jpg" "extra" full_registry = Undefined /\
  (exists st16,
      LoadTextures demo_decoder (replicate 16 ("rgb.jpg", "t")%string)
                   (empty_scene None fresh_context) = Done st16 /\
      m_loadedTextures st16 = 16 /\
      CreateGLTexture demo_decoder "rgb.jpg" "extra" st16 = Undefined).
Proof.
  split; [reflexivity |]. split; [reflexivity |]. split; [reflexivity |].
  split; [reflexivity |].
  destruct (LoadTextures_tags demo_decoder
              (replicate 16 ("rgb.jpg", "t")%string)
              (empty_scene None fresh_context))
    as (st16 & Hrun & Hcount & Hlen & _).
  { vm_compute. lia. }
  exists st16. split; [exact Hrun |]. split; [exact Hcount |].
  apply (CreateGLTexture_overflows demo_decoder _ _ _ (demo_image 3)
           GL.GL_RGB8); [reflexivity | reflexivity |].
  rewrite Hcount, Hlen. vm_compute. lia.
Qed.

(** "plastic" is not among the three materials of the scene. *)
Lemma FindMaterial_no_match_witness :
  m_objectMaterials null_shader_scene <> [] /\
  (forall e, e ∈ m_objectMaterials null_shader_scene ->
             mtag e <> "plastic"%string) /\
  FindMaterial "plastic" blank_material null_shader_scene
  = (true, blank_material).
Proof.
  assert (H1 : m_objectMaterials null_shader_scene <> []) by discriminate.
  assert (H2 : forall e, e ∈ m_objectMaterials null_shader_scene ->
                         mtag e <> "plastic"%string).
  { intros e He. cbn in He.
    repeat (apply elem_of_cons in He as [-> | He]; [discriminate |]).
    by apply elem_of_nil in He. }
  split; [exact H1 |]. split; [exact H2 |].
  exact (FindMaterial_no_match_reports_found "plastic" blank_material
           null_shader_scene H1 H2).
Defined.

Lemma texture_lookup_unregistered_witness :
  ("floor"%string ∉ tag <$> registry duplicate_textures) /\
  FindTextureID "floor" duplicate_textures = (-1)%Z /\
  FindTextureSlot "floor" duplicate_textures = (-1)%Z.
Proof.
  assert (H : "floor"%string ∉ tag <$> registry duplicate_textures).
  { cbn. intros He.
    repeat (apply elem_of_cons in He as [He | He]; [discriminate |]).
    by apply elem_of_nil in He. }
  split; [exact H |].
  exact (texture_lookup_unregistered_is_minus_one "floor" duplicate_textures H).
Defined.

Lemma lookups_first_match_witness :
  (FindTextureID "a" duplicate_textures = int_of_GLuint 1 /\
   ((0 <= 1 < 2 ^ 31)%Z -> FindTextureID "a" duplicate_textures = 1%Z) /\
   FindTextureSlot "a" duplicate_textures = 1%Z) /\
  FindMaterial "metal" blank_material duplicate_materials
  = (true, MkMaterial (GLM.Vec3 2 2 2) (GLM.Vec3 1 1 1) 2 "")%R.
Proof.
  destruct lookups_first_match_wins as [Htextures Hmaterials]. split.
  - apply (Htextures "a"%string duplicate_textures
             [MkTextureInfo 7 "z"] (MkTextureInfo 1 "a")
             [MkTextureInfo 2 "b"] (MkTextureInfo 3 "a") []);
      [reflexivity | reflexivity | reflexivity |].
    intros x Hx. apply elem_of_cons in Hx as [-> | Hx]; [discriminate |].
    by apply elem_of_nil in Hx.
  - apply (Hmaterials "metal"%string blank_material duplicate_materials
             [MkMaterial (GLM.Vec3 1 1 1) (GLM.Vec3 0 0 0) 1 "glass"]%R
             (MkMaterial (GLM.Vec3 2 2 2) (GLM.Vec3 1 1 1) 2 "metal")%R
             []
             (MkMaterial (GLM.Vec3 3 3 3) (GLM.Vec3 2 2 2) 3 "metal")%R []);
      [reflexivity | reflexivity | reflexivity |].
    intros x Hx. apply elem_of_cons in Hx as [-> | Hx]; [discriminate |].
    by apply elem_of_nil in Hx.
Defined.

(** A two-channel image is turned down and a three-channel image is
    registered, in a registry with room; with the array full the
    three-channel image makes the call undefined. *)
Lemma CreateGLTexture_two_channels_witness :
  (m_loadedTextures (empty_scene None fresh_context)
     < length (m_textureIDs (empty_scene None fresh_context)) /\
   exists st',
     CreateGLTexture demo_decoder "gray_alpha.png" "label"
                     (empty_scene None fresh_context) = Done (false, st') /\
     registry st' = registry (empty_scene None fresh_context)) /\
  (exists st',
     CreateGLTexture demo_decoder "rgb.jpg" "label"
                     (empty_scene None fresh_context) = Done (true, st') /\
     registry st' = [MkTextureInfo 1 "label"] /\
     GL.textures (gl st') !! 1%Z = Some (Some (GL.GL_RGB8, demo_image 3))) /\
  (length (m_textureIDs full_registry) <= m_loadedTextures full_registry /\
   CreateGLTexture demo_decoder "rgb.jpg" "label" full_registry = Undefined).
Proof.
  assert (H : m_loadedTextures (empty_scene None fresh_context)
              < length (m_textureIDs (empty_scene None fresh_context))).
  { cbn. lia. }
  assert (Hfull : length (m_textureIDs full_registry)
                  <= m_loadedTextures full_registry).
  { vm_compute. lia. }
  split; [split; [exact H |] | split; [| split; [exact Hfull |]]].
  - destruct (proj1 (CreateGLTexture_succeeds_iff_three_or_four_channels
                       demo_decoder "gray_alpha.png" "label"
                       (empty_scene None fresh_context)) H)
      as (b & st' & Hcall & _ & _ & Hfalse).
    assert (b = false) as -> by (vm_compute in Hcall; congruence).
    exists st'. split; [exact Hcall |]. by apply Hfalse.
  - destruct (proj1 (CreateGLTexture_succeeds_iff_three_or_four_channels
                       demo_decoder "rgb.jpg" "label"
                       (empty_scene None fresh_context)) H)
      as (b & st' & Hcall & Hiff & Htrue & _).
    assert (Hb : b = true).
    { apply Hiff. exists (demo_image 3). split; [reflexivity | by left]. }
    subst b. exists st'. split; [exact Hcall |].
    destruct (Htrue eq_refl)
      as (image & fmt & Himg & Hfmt & _ & Hreg & Htex & _).
    injection Himg as <-.
    destruct Hfmt as [[_ ->] | [Hch _]]; [| discriminate Hch].
    split; [exact Hreg | exact Htex].
  - apply (proj2 (CreateGLTexture_succeeds_iff_three_or_four_channels
                    demo_decoder "rgb.jpg" "label" full_registry) Hfull).
    exists (demo_image 3). split; [reflexivity | by left].
Defined.

(** A two-channel image after four registered textures: the call returns
    [false] with a texture left bound, and the registry as it was. *)
Lemma CreateGLTexture_failure_witness :
  CreateGLTexture demo_decoder "gray_alpha.png" "label" duplicate_textures
  = Done (false, after_rejected_load) /\
  m_loadedTextures after_rejected_load = m_loadedTextures duplicate_textures /\
  m_textureIDs after_rejected_load = m_textureIDs duplicate_textures /\
  registry after_rejected_load = registry duplicate_textures /\
  (forall t',
      FindTextureID t' after_rejected_load
      = FindTextureID t' duplicate_textures /\
      FindTextureSlot t' after_rejected_load
      = FindTextureSlot t' duplicate_textures).
Proof.
  assert (H : CreateGLTexture demo_decoder "gray_alpha.png" "label"
                duplicate_textures = Done (false, after_rejected_load))
    by reflexivity.
  split; [exact H |].
  exact (CreateGLTexture_failure_leaves_registry demo_decoder
           "gray_alpha.png" "label" duplicate_textures after_rejected_load H).
Defined.

Lemma five_loaded_in_order : names_in_order (gl five_loaded).
Proof.
  split; [done |]. intros name x H.
  unfold five_loaded in *. cbn [gl GL.textures GL.next_name] in *.
  repeat (apply lookup_insert_Some in H as [[<- _] | [_ H]]; [lia |]).
  apply lookup_singleton_Some in H as [<- _]. lia.
Defined.

(** Three loads after five registered textures, the middle one turned down
    for its channel count; and "a", "b", "c" into an empty registry. *)
Lemma load_order_witness :
  (names_in_order (gl five_loaded) /\
   m_loadedTextures five_loaded
     + length (successes demo_decoder
                 [("rgb.jpg", "a"); ("gray_alpha.png", "x");
                  ("rgba.png", "b")]%string)
     <= length (m_textureIDs five_loaded) /\
   exists st',
     LoadTextures demo_decoder
       [("rgb.jpg", "a"); ("gray_alpha.png", "x"); ("rgba.png", "b")]%string
       five_loaded = Done st' /\
     FindTextureSlot "b" (BindGLTextures st') = 6%Z) /\
  (m_loadedTextures (empty_scene None fresh_context) = 0 /\
   3 <= length (m_textureIDs (empty_scene None fresh_context)) /\
   exists st',
     LoadTextures demo_decoder
       [("rgb.jpg", "a"); ("rgba.png", "b"); ("rgb.jpg", "c")]%string
       (empty_scene None fresh_context) = Done st' /\
     FindTextureSlot "b" (BindGLTextures st') = 1%Z).
Proof.
  assert (H : m_loadedTextures five_loaded
              + length (successes demo_decoder
                          [("rgb.jpg", "a"); ("gray_alpha.png", "x");
                           ("rgba.png", "b")]%string)
              <= length (m_textureIDs five_loaded)).
  { vm_compute. lia. }
  assert (H3 : 3 <= length (m_textureIDs (empty_scene None fresh_context))).
  { vm_compute. lia. }
  assert (Hrgb : supported demo_decoder "rgb.jpg").
  { exists (demo_image 3), GL.GL_RGB8. by split. }
  assert (Hrgba : supported demo_decoder "rgba.png").
  { exists (demo_image 4), GL.GL_RGBA8. by split. }
  split.
  - split; [exact five_loaded_in_order |]. split; [exact H |].
    destruct (proj1 (load_order_decides_unit_and_first_slot demo_decoder)
                [("rgb.jpg", "a"); ("gray_alpha.png", "x"); ("rgba.png", "b")]%string
                five_loaded five_loaded_in_order H)
      as (st' & Hrun & _ & Hslots).
    exists st'. split; [exact Hrun |].
    destruct (Hslots 1 "b"%string GL.GL_RGBA8 (demo_image 4) eq_refl)
      as (name & _ & _ & _ & Hslot).
    apply Hslot.
    + intros e He. cbn in He.
      repeat (apply elem_of_cons in He as [-> | He]; [discriminate |]).
      by apply elem_of_nil in He.
    + intros i s Hi Hs.
      destruct i as [| i]; [| lia]. injection Hs as <-. discriminate.
  - split; [reflexivity |]. split; [exact H3 |].
    exact (proj2 (load_order_decides_unit_and_first_slot demo_decoder)
             "rgb.jpg"%string "rgba.png"%string "rgb.jpg"%string
             (empty_scene None fresh_context) eq_refl H3 Hrgb Hrgba Hrgb).
Defined.

End Runs.

(** * Further properties of the code *)

(** ** What the lookups return *)

Section LookupResults.

Local Open Scope nat_scope.

(** An entry with the tag, not preceded by another one, decides both
    texture lookups. *)
Lemma texture_lookups_at t st k e :
  registry st !! k = Some e ->
  tag e = t ->
  (forall i e', i < k -> registry st !! i = Some e' -> tag e' <> t) ->
  FindTextureID t st = int_of_GLuint (ID e) /\
  FindTextureSlot t st = Z.of_nat k.
Proof.
  intros Hk He Hfirst.
  assert (Hlt : k < length (registry st)) by (by eapply lookup_lt_Some).
  destruct (texture_lookups_first t st (take k (registry st)) e
              (drop (S k) (registry st))) as [Hid Hslot].
  - symmetry. by apply take_drop_middle.
  - done.
  - intros x Hx. apply list_elem_of_lookup_1 in Hx as [i Hi].
    apply lookup_take_Some in Hi as [Hi Hik]. by eapply Hfirst.
  - split; [done |]. rewrite Hslot, length_take. f_equal. lia.
Qed.

Lemma texture_lookups_cases t st :
  ((t ∉ tag <$> registry st) /\
   FindTextureID t st = (-1)%Z /\ FindTextureSlot t st = (-1)%Z) \/
  (exists k e,
      registry st !! k = Some e /\ tag e = t /\
      (forall i e', i < k -> registry st !! i = Some e' -> tag e' <> t) /\
      FindTextureID t st = int_of_GLuint (ID e) /\
      FindTextureSlot t st = Z.of_nat k).
Proof.
  destruct (list_find (fun e => tag e = t) (registry st)) as [[k e] |] eqn:E.
  - right. apply list_find_Some in E as (Hk & He & Hfirst).
    exists k, e. split; [done |]. split; [done |].
    assert (Hfirst' : forall i e', i < k -> registry st !! i = Some e' ->
                                   tag e' <> t)
      by (intros i e' Hi He'; by eapply Hfirst).
    split; [done |]. by apply texture_lookups_at.
  - left. apply list_find_None in E.
    assert (Hnot : (t ∉ tag <$> registry st)).
    { intros Hin. apply list_elem_of_fmap in Hin as (e & -> & He).
      by apply (proj1 (Forall_forall _ _) E e He). }
    split; [done |]. by apply texture_lookups_miss.
Qed.

(** X1. The two texture lookups always agree: either no registered entry
    carries the tag and both return -1, or both answer for the same entry,
    the first one carrying the tag: [FindTextureSlot] returns its index
    and [FindTextureID] its handle. *)
Theorem texture_lookups_agree :
  forall (t : string) (st : SceneManager),
    ((t ∉ tag <$> registry st) /\
     FindTextureID t st = (-1)%Z /\ FindTextureSlot t st = (-1)%Z) \/
    (exists k e,
        registry st !! k = Some e /\ tag e = t /\
        (forall i e', i < k -> registry st !! i = Some e' -> tag e' <> t) /\
        FindTextureID t st = int_of_GLuint (ID e) /\
        FindTextureSlot t st = Z.of_nat k).
Proof. exact texture_lookups_cases. Qed.

(** X2. [FindTextureSlot] returns -1 exactly for the tags no registered
    entry carries, and otherwise an index below the count of loaded
    textures. *)
Theorem FindTextureSlot_sentinel_or_in_range :
  forall (t : string) (st : SceneManager),
    (FindTextureSlot t st = (-1)%Z <-> (t ∉ tag <$> registry st)) /\
    (-1 <= FindTextureSlot t st < Z.of_nat (m_loadedTextures st))%Z /\
    (t ∈ tag <$> registry st -> (0 <= FindTextureSlot t st)%Z).
Proof.
  intros t st.
  destruct (texture_lookups_cases t st)
    as [(Hnot & _ & Hslot) | (k & e & Hk & He & _ & _ & Hslot)].
  - rewrite Hslot. split; [done |]. split; [lia | done].
  - assert (Hlt : k < m_loadedTextures st).
    { rewrite <- length_registry. by eapply lookup_lt_Some. }
    assert (Hin : t ∈ tag <$> registry st).
    { apply list_elem_of_fmap. exists e. split; [done |].
      by eapply list_elem_of_lookup_2. }
    rewrite Hslot. split; [| split; lia].
    split; [lia | done].
Qed.

Lemma FindMaterial_loop_cases t l material :
  ((t ∉ mtag <$> l) /\ FindMaterial_loop t l material = material) \/
  (exists before e after,
      l = before ++ e :: after /\ mtag e = t /\ (t ∉ mtag <$> before) /\
      FindMaterial_loop t l material = copied_from e material).
Proof.
  induction l as [| a l IH]; cbn.
  - left. split; [apply not_elem_of_nil | done].
  - destruct (String.eqb_spec (mtag a) t) as [Heq | Hne].
    + right. exists [], a, l. split; [done |]. split; [done |].
      split; [apply not_elem_of_nil | done].
    + destruct IH as [(Hnot & Hres) | (before & e & after & -> & He & Hnot & Hres)].
      * left. split; [| done]. apply not_elem_of_cons. by split.
      * right. exists (a :: before), e, after. split; [done |].
        split; [done |]. split; [| done].
        cbn. apply not_elem_of_cons. by split.
Qed.

(** X3. What [FindMaterial] hands back: the result is [true] exactly when
    the registry is not empty; the caller's material keeps its own tag;
    and it is either left as it was, no entry carrying the tag, or filled
    from the first entry carrying the tag, never from another one. *)
Theorem FindMaterial_result_shape :
  forall (t : string) (material : OBJECT_MATERIAL) (st : SceneManager),
    ((FindMaterial t material st).1 = true <-> m_objectMaterials st <> []) /\
    mtag (FindMaterial t material st).2 = mtag material /\
    (((t ∉ mtag <$> m_objectMaterials st) /\
      (FindMaterial t material st).2 = material) \/
     (exists before e after,
         m_objectMaterials st = before ++ e :: after /\
         mtag e = t /\ (t ∉ mtag <$> before) /\
         (FindMaterial t material st).2 = copied_from e material)).
Proof.
  intros t material st. unfold FindMaterial.
  destruct (m_objectMaterials st) as [| a l] eqn:E.
  - cbn. split; [split; [done | congruence] |]. split; [done |].
    left. split; [apply not_elem_of_nil | done].
  - cbn [length Nat.eqb fst snd].
    split; [split; [done | done] |].
    destruct (FindMaterial_loop_cases t (a :: l) material)
      as [(Hnot & Hres) | (before & e & after & Hl & He & Hnot & Hres)].
    + rewrite Hres. split; [done |]. by left.
    + rewrite Hres. split; [done |]. right. by exists before, e, after.
Qed.

End LookupResults.

(** ** What the setters send to the shader *)

Section SetterResults.

Local Open Scope nat_scope.

Lemma FindMaterial_nonempty t material st :
  m_objectMaterials st <> [] ->
  FindMaterial t material st
  = (true, FindMaterial_loop t (m_objectMaterials st) material).
Proof.
  intros Hne. unfold FindMaterial.
  by destruct (m_objectMaterials st).
Qed.

(** With a shader and at least one material, [SetShaderMaterial] sends
    whatever [FindMaterial] left in the local material. *)
Lemma SetShaderMaterial_pushes t garbage st sh :
  m_objectMaterials st <> [] ->
  SetShaderMaterial t garbage (with_shader st sh)
  = Done (with_shader st
            (material_pushed
               (FindMaterial_loop t (m_objectMaterials st) garbage) sh)).
Proof.
  intros Hne. unfold SetShaderMaterial.
  rewrite (FindMaterial_nonempty t garbage (with_shader st sh)) by done.
  cbn [m_objectMaterials m_pShaderManager with_shader].
  destruct (m_objectMaterials st) as [| a l]; [done |]. reflexivity.
Qed.

(** X4. [SetShaderMaterial] leaves defined behaviour exactly when the
    shader pointer is null and at least one material is defined, whatever
    the tag; with an empty material list it returns without doing
    anything, null pointer or not. *)
Theorem SetShaderMaterial_undefined_iff :
  forall (t : string) (garbage : OBJECT_MATERIAL) (st : SceneManager),
    (SetShaderMaterial t garbage st = Undefined <->
     m_pShaderManager st = None /\ m_objectMaterials st <> []) /\
    (m_objectMaterials st = [] -> SetShaderMaterial t garbage st = Done st).
Proof.
  intros t garbage st. unfold SetShaderMaterial, FindMaterial.
  destruct (m_objectMaterials st) as [| a l] eqn:E.
  - cbn. split; [| done]. split; [done | by intros [_ ?]].
  - cbn [length Nat.ltb Nat.leb Nat.eqb].
    destruct (m_pShaderManager st) as [sh |].
    + split; [| done]. split; [done | by intros [? _]].
    + split; [| done]. split; [done | done].
Qed.

(** X5. With a shader, [SetShaderMaterial] sends the diffuse colour, the
    specular colour and the shininess of the first material carrying the
    tag to the uniforms [material.diffuseColor], [material.specularColor]
    and [material.shininess], and changes nothing else. *)
Theorem SetShaderMaterial_sends_first_match :
  forall (t : string) (garbage : OBJECT_MATERIAL) (st : SceneManager)
         (sh : gmap string Shader.uniform) before e after,
    m_objectMaterials st = before ++ e :: after ->
    mtag e = t ->
    (forall x, x ∈ before -> mtag x <> t) ->
    SetShaderMaterial t garbage (with_shader st sh)
    = Done (with_shader st (material_pushed e sh)).
Proof.
  intros t garbage st sh before e after Hm He Hbefore.
  rewrite SetShaderMaterial_pushes by (rewrite Hm; by destruct before).
  by rewrite Hm, FindMaterial_loop_hit.
Qed.

(** X6. With a shader and a non-empty material list, [SetShaderMaterial]
    for a tag that no material carries sends the local material as it was
    before the lookup, that is, values nobody set. *)
Theorem SetShaderMaterial_unknown_tag_sends_garbage :
  forall (t : string) (garbage : OBJECT_MATERIAL) (st : SceneManager)
         (sh : gmap string Shader.uniform),
    m_objectMaterials st <> [] ->
    (forall e, e ∈ m_objectMaterials st -> mtag e <> t) ->
    SetShaderMaterial t garbage (with_shader st sh)
    = Done (with_shader st (material_pushed garbage sh)).
Proof.
  intros t garbage st sh Hne Hmiss.
  rewrite SetShaderMaterial_pushes by done.
  by rewrite FindMaterial_loop_miss.
Qed.

(** X7. With a shader, [SetShaderTexture] switches texturing on and sets
    the sampler to the slot of the first texture carrying the tag; for a
    tag that no registered texture carries it still switches texturing
    on, with the sampler set to -1. *)
Theorem SetShaderTexture_sends_slot_or_minus_one :
  forall (t : string) (st : SceneManager) (sh : gmap string Shader.uniform),
    (forall k e,
        registry st !! k = Some e -> tag e = t ->
        (forall i e', i < k -> registry st !! i = Some e' -> tag e' <> t) ->
        SetShaderTexture t (with_shader st sh)
        = Done (with_shader st
                  (<[g_TextureValueName := Shader.USampler2D (Z.of_nat k)]>
                     (<[g_UseTextureName := Shader.UInt 1]> sh)))) /\
    ((t ∉ tag <$> registry st) ->
     SetShaderTexture t (with_shader st sh)
     = Done (with_shader st
               (<[g_TextureValueName := Shader.USampler2D (-1)]>
                  (<[g_UseTextureName := Shader.UInt 1]> sh)))).
Proof.
  intros t st sh.
  assert (Hslot : FindTextureSlot t (with_shader st sh) = FindTextureSlot t st)
    by reflexivity.
  unfold SetShaderTexture, Shader.setSampler2DValue, Shader.setIntValue.
  cbn [m_pShaderManager with_shader]. rewrite Hslot. split.
  - intros k e Hk He Hfirst.
    destruct (texture_lookups_at t st k e Hk He Hfirst) as [_ ->]. done.
  - intros Hnot. destruct (texture_lookups_miss t st Hnot) as [_ ->]. done.
Qed.

End SetterResults.

(** ** What the setters leave alone, and how they combine *)

Section SetterFrames.

Lemma same_scene_refl st : same_scene st st.
Proof. by repeat split. Qed.

Lemma same_scene_with_shader st sh sh' :
  m_pShaderManager st = Some sh -> same_scene st (with_shader st sh').
Proof. intros H. repeat split; cbn; congruence. Qed.

Ltac setter_frame :=
  match goal with
  | H : context [m_pShaderManager ?st] |- _ =>
      let sh := fresh "sh" in
      let Hsh := fresh "Hsh" in
      destruct (m_pShaderManager st) as [sh |] eqn:Hsh;
      [ injection H as <-;
        split; [by eapply same_scene_with_shader |];
        intros name; unfold uniform_of; cbn [m_pShaderManager with_shader];
        rewrite Hsh
      | injection H as <-; split; [apply same_scene_refl | done] ]
  end.

(** X8. No setter touches the texture registry, the material list or the
    OpenGL context, and each writes only its own uniforms:
    [SetTransformations] the model matrix; [SetShaderColor] the texturing
    switch and the colour; [SetShaderTexture] the texturing switch and the
    sampler; [SetTextureUVScale] the UV scale; [SetShaderMaterial] the three
    material uniforms. *)
Theorem setters_write_only_their_uniforms :
  forall st st' : SceneManager,
    (forall s rx ry rz p,
        SetTransformations s rx ry rz p st = Done st' ->
        same_scene st st' /\
        forall name, name <> g_ModelName ->
                     uniform_of st' name = uniform_of st name) /\
    (forall r g b a,
        SetShaderColor r g b a st = Done st' ->
        same_scene st st' /\
        forall name, name <> g_UseTextureName -> name <> g_ColorValueName ->
                     uniform_of st' name = uniform_of st name) /\
    (forall t,
        SetShaderTexture t st = Done st' ->
        same_scene st st' /\
        forall name, name <> g_UseTextureName -> name <> g_TextureValueName ->
                     uniform_of st' name = uniform_of st name) /\
    (forall u v,
        SetTextureUVScale u v st = Done st' ->
        same_scene st st' /\
        forall name, name <> "UVscale"%string ->
                     uniform_of st' name = uniform_of st name) /\
    (forall t garbage,
        SetShaderMaterial t garbage st = Done st' ->
        same_scene st st' /\
        forall name, name <> "material.diffuseColor"%string ->
                     name <> "material.specularColor"%string ->
                     name <> "material.shininess"%string ->
                     uniform_of st' name = uniform_of st name).
Proof.
  intros st st'. split; [| split; [| split; [| split]]].
  - intros s rx ry rz p H. unfold SetTransformations in H. setter_frame.
    intros Hn. unfold Shader.setMat4Value. by rewrite lookup_insert_ne.
  - intros r g b a H. unfold SetShaderColor in H. setter_frame.
    intros Hn1 Hn2. unfold Shader.setVec4Value, Shader.setIntValue.
    by rewrite !lookup_insert_ne.
  - intros t H. unfold SetShaderTexture in H. setter_frame.
    intros Hn1 Hn2. unfold Shader.setSampler2DValue, Shader.setIntValue.
    by rewrite !lookup_insert_ne.
  - intros u v H. unfold SetTextureUVScale in H. setter_frame.
    intros Hn. unfold Shader.setVec2Value. by rewrite lookup_insert_ne.
  - intros t garbage H. unfold SetShaderMaterial in H.
    destruct (0 <? length (m_objectMaterials st))%nat;
      [| injection H as <-; split; [apply same_scene_refl | done]].
    destruct (FindMaterial t garbage st) as [[|] material];
      [| injection H as <-; split; [apply same_scene_refl | done]].
    destruct (m_pShaderManager st) as [sh |] eqn:Hsh; [| done].
    injection H as <-. split; [by eapply same_scene_with_shader |].
    intros name Hn1 Hn2 Hn3. unfold uniform_of.
    cbn [m_pShaderManager with_shader]. rewrite Hsh.
    unfold Shader.setFloatValue, Shader.setVec3Value.
    by rewrite !lookup_insert_ne.
Qed.

(** X9. Colour and texture share the texturing switch, and the last call
    wins: a colour followed by a texture is drawn textured, a texture
    followed by a colour is drawn in the colour; the uniform of the
    earlier call keeps its value. *)
Theorem colour_and_texture_last_call_wins :
  forall (t : string) (r g b a : float) (st : SceneManager)
         (sh : gmap string Shader.uniform),
    let colour_then_texture :=
      (st1 <- SetShaderColor r g b a (with_shader st sh) ;;
       SetShaderTexture t st1) in
    let texture_then_colour :=
      (st1 <- SetShaderTexture t (with_shader st sh) ;;
       SetShaderColor r g b a st1) in
    uniform_after colour_then_texture g_UseTextureName = Some (Shader.UInt 1) /\
    uniform_after colour_then_texture g_ColorValueName
    = Some (Shader.UVec4 (GLM.Vec4 r g b a)) /\
    uniform_after colour_then_texture g_TextureValueName
    = Some (Shader.USampler2D (FindTextureSlot t st)) /\
    uniform_after texture_then_colour g_UseTextureName = Some (Shader.UInt 0) /\
    uniform_after texture_then_colour g_ColorValueName
    = Some (Shader.UVec4 (GLM.Vec4 r g b a)) /\
    uniform_after texture_then_colour g_TextureValueName
    = Some (Shader.USampler2D (FindTextureSlot t st)).
Proof.
  intros t r g b a st sh. cbn.
  unfold uniform_of, Shader.setSampler2DValue, Shader.setIntValue,
    Shader.setVec4Value; cbn [m_pShaderManager with_shader].
  assert (Hslot : forall sh', FindTextureSlot t (with_shader st sh')
                              = FindTextureSlot t st) by reflexivity.
  rewrite ?Hslot.
  repeat split;
    repeat (rewrite lookup_insert_eq || rewrite lookup_insert_ne by done);
    done.
Qed.

End SetterFrames.

(** ** Loading: bounds, stability of slots, and the state of OpenGL *)

Section Loading.

Variable stbi_load : string -> option GL.Image.

Local Open Scope nat_scope.

(** Every way [CreateGLTexture] can return. *)
Lemma CreateGLTexture_Done_inv filename t st b st' :
  CreateGLTexture stbi_load filename t st = Done (b, st') ->
  (b = false /\ stbi_load filename = None /\ st' = st) \/
  (b = false /\
   (exists image, stbi_load filename = Some image /\
                  upload_format image = None) /\
   st' = with_gl st (GL.glBindTexture (GL.next_name (gl st))
                       (snd (GL.glGenTextures (gl st))))) \/
  (b = true /\ m_loadedTextures st < length (m_textureIDs st) /\
   exists image fmt,
     stbi_load filename = Some image /\ upload_format image = Some fmt /\
     st' = MkScene (m_pShaderManager st)
             (<[m_loadedTextures st := MkTextureInfo (GL.next_name (gl st)) t]>
                (m_textureIDs st))
             (S (m_loadedTextures st))
             (m_objectMaterials st)
             (GL.glBindTexture 0
                (GL.glTexImage2D fmt image
                   (GL.glBindTexture (GL.next_name (gl st))
                      (snd (GL.glGenTextures (gl st))))))).
Proof.
  intros Hcall.
  destruct (stbi_load filename) as [image |] eqn:Hload.
  - destruct (upload_format image) as [fmt |] eqn:Hfmt.
    + destruct (decide (m_loadedTextures st < length (m_textureIDs st)))
        as [Hroom | Hfull].
      * rewrite (CreateGLTexture_registers _ _ _ _ image fmt) in Hcall by done.
        injection Hcall as <- <-. right. right.
        split; [done |]. split; [done |]. by exists image, fmt.
      * exfalso. revert Hcall. unfold CreateGLTexture, upload_format in *.
        rewrite Hload. cbn -[Nat.ltb].
        apply Nat.ltb_nlt in Hfull.
        destruct (GL.colorChannels image =? 3)%Z; [by rewrite Hfull |].
        destruct (GL.colorChannels image =? 4)%Z; [by rewrite Hfull | done].
    + rewrite (CreateGLTexture_unsupported _ _ _ _ image) in Hcall by done.
      injection Hcall as <- <-. right. left.
      split; [done |]. split; [by exists image | done].
  - rewrite CreateGLTexture_no_image in Hcall by done.
    injection Hcall as <- <-. by left.
Qed.

(** A load that returns leaves the registry as it was or adds one entry at
    its end. *)
Lemma CreateGLTexture_extends filename t st b st' :
  CreateGLTexture stbi_load filename t st = Done (b, st') ->
  length (m_textureIDs st') = length (m_textureIDs st) /\
  exists ents, registry st' = registry st ++ ents /\
               m_loadedTextures st' = m_loadedTextures st + length ents.
Proof.
  intros Hcall.
  destruct (CreateGLTexture_Done_inv _ _ _ _ _ Hcall)
    as [(_ & _ & ->) | [(_ & _ & ->) | (_ & Hroom & image & fmt & _ & _ & ->)]].
  - split; [done |]. exists []. by rewrite app_nil_r, Nat.add_0_r.
  - split; [done |]. exists []. cbn. by rewrite app_nil_r, Nat.add_0_r.
  - cbn [m_textureIDs m_loadedTextures]. split; [by rewrite length_insert |].
    exists [MkTextureInfo (GL.next_name (gl st)) t]. split; [| cbn; lia].
    destruct st as [p arr n mats g0].
    cbn [m_loadedTextures m_textureIDs m_pShaderManager m_objectMaterials gl] in *.
    by apply registry_register.
Qed.

Lemma LoadTextures_extends loads :
  forall st st',
    LoadTextures stbi_load loads st = Done st' ->
    length (m_textureIDs st') = length (m_textureIDs st) /\
    exists ents, registry st' = registry st ++ ents /\
                 m_loadedTextures st' = m_loadedTextures st + length ents.
Proof.
  induction loads as [| [filename t] rest IH]; intros st st' Hrun.
  - injection Hrun as <-. split; [done |]. exists [].
    by rewrite app_nil_r, Nat.add_0_r.
  - cbn [LoadTextures] in Hrun.
    destruct (CreateGLTexture stbi_load filename t st) as [[b st1] |] eqn:Hcall;
      [| done].
    cbn [bind snd] in Hrun.
    destruct (CreateGLTexture_extends _ _ _ _ _ Hcall)
      as (Hlen1 & ents1 & Hreg1 & Hcount1).
    destruct (IH _ _ Hrun) as (Hlen & ents & Hreg & Hcount).
    split; [congruence |]. exists (ents1 ++ ents).
    rewrite Hreg, Hreg1, <- app_assoc. split; [done |].
    rewrite length_app. lia.
Qed.

Lemma LoadTextures_well_formed loads :
  forall st st',
    well_formed st ->
    LoadTextures stbi_load loads st = Done st' ->
    well_formed st'.
Proof.
  induction loads as [| [filename t] rest IH]; intros st st' Hwf Hrun.
  - by injection Hrun as <-.
  - cbn [LoadTextures] in Hrun.
    destruct (CreateGLTexture stbi_load filename t st) as [[b st1] |]
      eqn:Hcall; [| done].
    cbn [bind snd] in Hrun. apply (IH st1); [| done].
    destruct (CreateGLTexture_Done_inv _ _ _ _ _ Hcall)
      as [(_ & _ & ->) | [(_ & _ & ->) | (_ & Hroom & i & f & _ & _ & ->)]];
      [done | done |].
    unfold well_formed. cbn. rewrite length_insert. lia.
Qed.

(** X10. In every run of loads that returns, the array of entries keeps
    its length, the count of loaded textures only grows, and a count that
    was within the array stays within it; [BindGLTextures] and
    [DestroyGLTextures] change neither. *)
Theorem loaded_count_stays_within_array :
  forall (loads : list (string * string)) (st st' : SceneManager),
    well_formed st ->
    LoadTextures stbi_load loads st = Done st' ->
    length (m_textureIDs st') = length (m_textureIDs st) /\
    m_loadedTextures st <= m_loadedTextures st' /\
    well_formed st' /\
    well_formed (BindGLTextures st') /\
    well_formed (DestroyGLTextures st').
Proof.
  intros loads st st' Hwf Hrun.
  destruct (LoadTextures_extends loads st st' Hrun)
    as (Hlen & ents & Hreg & Hcount).
  pose proof (LoadTextures_well_formed loads st st' Hwf Hrun) as Hwf'.
  split; [done |]. split; [lia |]. split; [done |].
  split; [done |].
  unfold well_formed, DestroyGLTextures.
  pose proof (DestroyGLTextures_loop_spec (m_loadedTextures st') 0
                (m_textureIDs st') (gl st')) as Hd.
  destruct (DestroyGLTextures_loop _ _ _ _) as [arr g].
  cbn in Hd. destruct Hd as (Hl & _). cbn. rewrite Hl. exact Hwf'.
Qed.

Lemma LoadTextures_overflow :
  forall (loads : list (string * string)) (st : SceneManager),
    LoadTextures stbi_load loads st = Undefined <->
    successes stbi_load loads <> [] /\
    length (m_textureIDs st)
      < m_loadedTextures st + length (successes stbi_load loads).
Proof.
  induction loads as [| [filename t] rest IH]; intros st.
  - cbn. split; [done | by intros [? _]].
  - cbn [LoadTextures successes].
    destruct (stbi_load filename) as [image |] eqn:Hload;
      [destruct (upload_format image) as [fmt |] eqn:Hfmt |].
    + destruct (decide (m_loadedTextures st < length (m_textureIDs st)))
        as [Hroom | Hfull].
      * rewrite (CreateGLTexture_registers _ _ _ _ image fmt) by done.
        cbn [bind snd]. rewrite IH.
        cbn [m_textureIDs m_loadedTextures length].
        rewrite length_insert. split.
        -- intros [_ H]. split; [done | lia].
        -- intros [_ H]. split; [| lia].
           destruct (successes stbi_load rest); [cbn in H; lia | done].
      * assert (Hundef : CreateGLTexture stbi_load filename t st = Undefined).
        { unfold CreateGLTexture, upload_format in *.
          rewrite Hload. cbn -[Nat.ltb]. apply Nat.ltb_nlt in Hfull.
          destruct (GL.colorChannels image =? 3)%Z; [by rewrite Hfull |].
          destruct (GL.colorChannels image =? 4)%Z; [by rewrite Hfull | done]. }
        rewrite Hundef. cbn [bind length].
        split; [intros _ | done]. split; [done | lia].
    + rewrite (CreateGLTexture_unsupported _ _ _ _ image) by done.
      cbn [bind snd]. by rewrite IH.
    + rewrite CreateGLTexture_no_image by done. cbn [bind snd]. by rewrite IH.
Qed.

(** X11. A run of loads leaves defined behaviour exactly when the files
    that decode with three or four channels outnumber the free entries of
    the array; files that fail to load never count. *)
Theorem LoadTextures_undefined_iff_overflow :
  forall (loads : list (string * string)) (st : SceneManager),
    LoadTextures stbi_load loads st = Undefined <->
    successes stbi_load loads <> [] /\
    length (m_textureIDs st)
      < m_loadedTextures st + length (successes stbi_load loads).
Proof. exact LoadTextures_overflow. Qed.

(** X12. Later loads never move a texture: after a run of loads that
    returns, every tag that was registered before resolves to the same
    slot and the same handle as before. *)
Theorem loads_keep_existing_slots :
  forall (loads : list (string * string)) (st st' : SceneManager) (t : string),
    LoadTextures stbi_load loads st = Done st' ->
    t ∈ tag <$> registry st ->
    FindTextureSlot t st' = FindTextureSlot t st /\
    FindTextureID t st' = FindTextureID t st.
Proof.
  intros loads st st' t Hrun Hin.
  destruct (LoadTextures_extends loads st st' Hrun) as (_ & ents & Hreg & _).
  destruct (texture_lookups_cases t st)
    as [(Hnot & _) | (k & e & Hk & He & Hfirst & Hid & Hslot)]; [done |].
  assert (Hklt : k < length (registry st)) by (by eapply lookup_lt_Some).
  destruct (texture_lookups_at t st' k e) as [Hid' Hslot'].
  - rewrite Hreg, lookup_app_l by done. exact Hk.
  - done.
  - intros i e' Hi He'. rewrite Hreg, lookup_app_l in He' by lia.
    by eapply Hfirst.
  - by rewrite Hid, Hslot, Hid', Hslot'.
Qed.

End Loading.

(** ** Binding, releasing and the texture units *)

Section Units.

Variable stbi_load : string -> option GL.Image.

Local Open Scope nat_scope.

Ltac gl_unfold :=
  unfold GL.glBindTexture, GL.glTexImage2D, GL.glGenTextures,
    GL.glActiveTexture, GL.bound;
  cbn [GL.next_name GL.active_unit GL.units GL.textures fst snd].

(** The loop of [BindGLTextures] leaves the units it does not reach and
    the name counter alone, and ends on the last unit it reached. *)
Lemma BindGLTextures_loop_rest arr n i g :
  let g' := BindGLTextures_loop arr n i g in
  (forall N, i + n <= N -> GL.units g' !! N = GL.units g !! N) /\
  GL.next_name g' = GL.next_name g /\
  (0 < n -> GL.active_unit g' = i + n - 1).
Proof.
  revert i g. induction n as [| n IH]; intros i g; cbn.
  - split; [done |]. split; [done | lia].
  - destruct (IH (S i)
                (GL.glBindTexture (ID (texture_at arr i))
                   (GL.glActiveTexture i g))) as (Habove & Hnext & Hact).
    split; [| split].
    + intros N HN. rewrite Habove by lia. gl_unfold.
      by rewrite lookup_insert_ne by lia.
    + by rewrite Hnext.
    + intros _. destruct n as [| n]; [cbn; gl_unfold; lia |].
      rewrite Hact by lia. lia.
Qed.

(** A bound name other than 0 denotes a texture object, an empty one
    if there was none. *)
Lemma BindGLTextures_loop_objects arr n i g N :
  i <= N < i + n ->
  ID (texture_at arr N) <> 0%Z ->
  GL.textures g !! ID (texture_at arr N) = None ->
  GL.textures (BindGLTextures_loop arr n i g) !! ID (texture_at arr N)
  = Some None.
Proof.
  revert i g. induction n as [| n IH]; intros i g HN Hnz Hnone; [lia |].
  cbn [BindGLTextures_loop].
  set (g1 := GL.glBindTexture (ID (texture_at arr i)) (GL.glActiveTexture i g)).
  destruct (GL.textures g1 !! ID (texture_at arr N)) as [x |] eqn:E.
  - assert (x = None) as ->.
    { revert E. subst g1. gl_unfold.
      destruct (decide (ID (texture_at arr i) = 0%Z)); [congruence |].
      destruct (GL.textures g !! ID (texture_at arr i)); [congruence |].
      rewrite lookup_insert.
      destruct (decide (ID (texture_at arr i) = ID (texture_at arr N)));
        congruence. }
    destruct (BindGLTextures_loop_spec arr n (S i) g1) as (_ & _ & Hkeep).
    by apply Hkeep.
  - destruct (decide (N = i)) as [-> | Hne].
    + exfalso. revert E. subst g1. gl_unfold.
      destruct (decide (ID (texture_at arr i) = 0%Z)); [done |].
      rewrite Hnone. by rewrite lookup_insert_eq.
    + apply IH; [lia | done | done].
Qed.

(** X13. [BindGLTextures] on any state: unit [N] receives the handle of
    entry [N] for every [N] below the count of loaded textures; every
    other unit keeps its binding; no texture object is lost; the
    registry and the name counter are untouched; and the active unit is
    left on the last texture. *)
Theorem BindGLTextures_binds_exactly_the_loaded :
  forall st : SceneManager,
    m_textureIDs (BindGLTextures st) = m_textureIDs st /\
    m_loadedTextures (BindGLTextures st) = m_loadedTextures st /\
    GL.next_name (gl (BindGLTextures st)) = GL.next_name (gl st) /\
    (forall N,
        GL.units (gl (BindGLTextures st)) !! N
        = if decide (N < m_loadedTextures st)
          then Some (ID (texture_at (m_textureIDs st) N))
          else GL.units (gl st) !! N) /\
    (forall name x,
        GL.textures (gl st) !! name = Some x ->
        GL.textures (gl (BindGLTextures st)) !! name = Some x) /\
    GL.active_unit (gl (BindGLTextures st))
    = (if decide (0 < m_loadedTextures st) then m_loadedTextures st - 1
       else GL.active_unit (gl st)).
Proof.
  intros st. unfold BindGLTextures; cbn [m_textureIDs m_loadedTextures gl with_gl].
  destruct (BindGLTextures_loop_spec (m_textureIDs st) (m_loadedTextures st)
              0 (gl st)) as (Hin & _ & Hkeep).
  destruct (BindGLTextures_loop_rest (m_textureIDs st) (m_loadedTextures st)
              0 (gl st)) as (Habove & Hnext & Hact).
  split; [done |]. split; [done |]. split; [done |].
  split; [| split; [done |]].
  - intros N. destruct (decide (N < m_loadedTextures st)).
    + apply Hin. lia.
    + apply Habove. lia.
  - destruct (decide (0 < m_loadedTextures st)) as [Hpos | Hzero].
    + rewrite Hact by done. lia.
    + assert (m_loadedTextures st = 0) as -> by lia. done.
Qed.

(** X14. A load turned down for its channel count leaks a texture: the
    call returns [false] with a new, empty texture object bound on the
    active unit, under a name that no registry entry holds. *)
Theorem CreateGLTexture_rejected_leaves_texture_bound :
  forall (filename t : string) (st : SceneManager) (image : GL.Image),
    stbi_load filename = Some image ->
    upload_format image = None ->
    names_in_order (gl st) ->
    handles_below st ->
    exists st',
      CreateGLTexture stbi_load filename t st = Done (false, st') /\
      GL.bound (gl st') = GL.next_name (gl st) /\
      GL.textures (gl st') !! GL.next_name (gl st) = Some None /\
      GL.next_name (gl st') = (GL.next_name (gl st) + 1)%Z /\
      registry st' = registry st /\
      GL.next_name (gl st) ∉ ID <$> registry st'.
Proof.
  intros filename t st image Hload Hfmt Hok Hbelow.
  eexists. split; [by eapply CreateGLTexture_unsupported |].
  pose proof (fresh_name_unused _ Hok) as Hfresh. destruct Hok as [Hpos _].
  cbn [gl with_gl]. gl_unfold. rewrite lookup_insert_eq.
  destruct (decide (GL.next_name (gl st) = 0%Z)); [lia |].
  rewrite Hfresh, lookup_insert_eq.
  split; [done |]. split; [done |]. split; [done |]. split; [done |].
  intros Hin. apply list_elem_of_fmap in Hin as (e & He & Hin).
  change (registry (with_gl st _)) with (registry st) in Hin.
  apply Hbelow in Hin. lia.
Qed.

(** X15. The order of loading and binding matters: a texture loaded after
    [BindGLTextures] is created on the unit of the last bound texture and
    leaves that unit with no texture, until [BindGLTextures] is called
    again. *)
Theorem load_after_bind_unbinds_last_unit :
  forall (filename t : string) (st : SceneManager) (image : GL.Image)
         (fmt : GL.format) (n : nat),
    m_loadedTextures st = S n ->
    S n < length (m_textureIDs st) ->
    stbi_load filename = Some image ->
    upload_format image = Some fmt ->
    exists st',
      CreateGLTexture stbi_load filename t (BindGLTextures st)
      = Done (true, st') /\
      GL.units (gl (BindGLTextures st)) !! n
      = Some (ID (texture_at (m_textureIDs st) n)) /\
      GL.units (gl st') !! n = Some 0%Z /\
      GL.units (gl (BindGLTextures st')) !! n
      = Some (ID (texture_at (m_textureIDs st) n)) /\
      GL.units (gl (BindGLTextures st')) !! S n
      = Some (GL.next_name (gl st)).
Proof.
  intros filename t st image fmt n Hcount Hroom Hload Hfmt.
  destruct (BindGLTextures_loop_spec (m_textureIDs st) (m_loadedTextures st)
              0 (gl st)) as (Hin & _ & _).
  destruct (BindGLTextures_loop_rest (m_textureIDs st) (m_loadedTextures st)
              0 (gl st)) as (_ & Hnext & Hact).
  eexists. split.
  { apply (CreateGLTexture_registers _ _ _ _ image fmt); [done | done |].
    cbn. lia. }
  split; [apply Hin; lia |].
  split.
  { cbn [gl with_gl BindGLTextures m_loadedTextures m_textureIDs]. gl_unfold.
    rewrite Hact by lia. rewrite Hcount.
    replace (0 + S n - 1) with n by lia.
    by rewrite lookup_insert_eq. }
  match goal with
  | |- context [BindGLTextures ?s] => set (st' := s)
  end.
  destruct (BindGLTextures_loop_spec (m_textureIDs st') (m_loadedTextures st')
              0 (gl st')) as (Hin' & _ & _).
  subst st'. cbn [m_textureIDs m_loadedTextures BindGLTextures with_gl gl] in *.
  rewrite Hcount in *. split.
  - rewrite Hin' by lia. by rewrite texture_at_insert_ne by lia.
  - rewrite Hin' by lia. rewrite texture_at_insert_eq by lia.
    cbn [ID]. f_equal. exact Hnext.
Qed.

End Units.

(** ** Handles: distinct while loading, void after the release routine *)

Section Handles.

Variable stbi_load : string -> option GL.Image.

Local Open Scope nat_scope.

Lemma CreateGLTexture_handles filename t st b st' :
  NoDup (ID <$> registry st) ->
  handles_below st ->
  CreateGLTexture stbi_load filename t st = Done (b, st') ->
  NoDup (ID <$> registry st') /\ handles_below st'.
Proof.
  intros Hnd Hbelow Hcall.
  destruct (CreateGLTexture_Done_inv _ _ _ _ _ _ Hcall)
    as [(_ & _ & ->) | [(_ & _ & ->) | (_ & Hroom & image & fmt & _ & _ & ->)]].
  - done.
  - split; [done |]. intros e He.
    change (registry (with_gl st _)) with (registry st) in He.
    apply Hbelow in He. cbn. lia.
  - destruct st as [p arr n mats g0].
    cbn [m_loadedTextures m_textureIDs m_pShaderManager m_objectMaterials gl] in *.
    rewrite (registry_register p arr n mats g0) by done.
    split.
    + rewrite fmap_app. apply NoDup_app. split; [done |]. split.
      * intros x Hx Hx'. cbn in Hx'. apply list_elem_of_singleton in Hx'.
        subst x. apply list_elem_of_fmap in Hx as (e & He & Hin).
        apply Hbelow in Hin. cbn in Hin. lia.
      * cbn. apply NoDup_singleton.
    + intros e He. rewrite (registry_register p arr n mats g0) in He by done.
      cbn. apply elem_of_app in He as [He | He].
      * apply Hbelow in He. cbn in He. lia.
      * apply list_elem_of_singleton in He. subst e. cbn. lia.
Qed.

Lemma LoadTextures_handles :
  forall (loads : list (string * string)) (st st' : SceneManager),
    NoDup (ID <$> registry st) ->
    handles_below st ->
    LoadTextures stbi_load loads st = Done st' ->
    NoDup (ID <$> registry st') /\ handles_below st'.
Proof.
  induction loads as [| [filename t] rest IH]; intros st st' Hnd Hbelow Hrun.
  - by injection Hrun as <-.
  - cbn [LoadTextures] in Hrun.
    destruct (CreateGLTexture stbi_load filename t st) as [[b st1] |]
      eqn:Hcall; [| done].
    cbn [bind snd] in Hrun.
    destruct (CreateGLTexture_handles _ _ _ _ _ Hnd Hbelow Hcall).
    by apply (IH st1).
Qed.

(** X16. Registered textures never share a handle: in a run of loads that
    returns, starting from distinct handles that [glGenTextures] handed
    out, the handles of the registry are again distinct, whichever files
    fail in between. *)
Theorem loads_keep_handles_distinct :
  forall (loads : list (string * string)) (st st' : SceneManager),
    NoDup (ID <$> registry st) ->
    handles_below st ->
    LoadTextures stbi_load loads st = Done st' ->
    NoDup (ID <$> registry st') /\ handles_below st'.
Proof. exact LoadTextures_handles. Qed.

(** The loop of [DestroyGLTextures] numbers the entries it goes through
    with the names it is given, in order. *)
Lemma DestroyGLTextures_loop_handles n :
  forall i arr g,
    i + n <= length arr ->
    forall j,
      (i <= j < i + n ->
       texture_at (fst (DestroyGLTextures_loop n i arr g)) j
       = MkTextureInfo (GL.next_name g + Z.of_nat (j - i))
                       (tag (texture_at arr j))) /\
      (j < i ->
       texture_at (fst (DestroyGLTextures_loop n i arr g)) j
       = texture_at arr j).
Proof.
  induction n as [| n IH]; intros i arr g Hfit j; cbn.
  - split; [lia | done].
  - set (arr1 := <[i := MkTextureInfo (GL.next_name g)
                          (tag (texture_at arr i))]> arr).
    set (g1 := GL.MkContext (GL.next_name g + 1) (GL.active_unit g)
                            (GL.units g) (GL.textures g)).
    assert (Hfit1 : S i + n <= length arr1)
      by (subst arr1; rewrite length_insert; lia).
    destruct (IH (S i) arr1 g1 Hfit1 j) as [Hin Hbelow]. split.
    + intros Hj. destruct (decide (j = i)) as [-> | Hne].
      * rewrite Hbelow by lia. subst arr1.
        rewrite texture_at_insert_eq by lia.
        by rewrite Nat.sub_diag, Z.add_0_r.
      * rewrite Hin by lia. subst arr1 g1. cbn [GL.next_name].
        rewrite texture_at_insert_ne by lia. f_equal. lia.
    + intros Hj. rewrite Hbelow by lia. subst arr1.
      by rewrite texture_at_insert_ne by lia.
Qed.

(** X17. After [DestroyGLTextures] no handle of the registry denotes a
    texture: entry [k] holds the [k]th newly generated name, for which no
    texture object exists, under its old tag; a following
    [BindGLTextures] therefore puts an empty texture object on every unit
    it binds. *)
Theorem DestroyGLTextures_voids_every_handle :
  forall (st : SceneManager) (k : nat),
    well_formed st ->
    names_in_order (gl st) ->
    k < m_loadedTextures st ->
    registry (DestroyGLTextures st) !! k
    = Some (MkTextureInfo (GL.next_name (gl st) + Z.of_nat k)
                          (tag (texture_at (m_textureIDs st) k))) /\
    GL.textures (gl (DestroyGLTextures st))
      !! (GL.next_name (gl st) + Z.of_nat k)%Z = None /\
    GL.units (gl (BindGLTextures (DestroyGLTextures st))) !! k
    = Some (GL.next_name (gl st) + Z.of_nat k)%Z /\
    GL.textures (gl (BindGLTextures (DestroyGLTextures st)))
      !! (GL.next_name (gl st) + Z.of_nat k)%Z = Some None.
Proof.
  intros st k Hwf [Hpos Hkeys] Hk.
  assert (Hentry : texture_at (m_textureIDs (DestroyGLTextures st)) k
                   = MkTextureInfo (GL.next_name (gl st) + Z.of_nat k)
                                   (tag (texture_at (m_textureIDs st) k))).
  { unfold DestroyGLTextures.
    pose proof (DestroyGLTextures_loop_handles (m_loadedTextures st) 0
                  (m_textureIDs st) (gl st) Hwf k) as [Hin _].
    destruct (DestroyGLTextures_loop _ _ _ _) as [arr g].
    cbn in *. rewrite Hin by lia. by rewrite Nat.sub_0_r. }
  assert (Hsame : GL.textures (gl (DestroyGLTextures st)) = GL.textures (gl st)
                  /\ m_loadedTextures (DestroyGLTextures st)
                     = m_loadedTextures st).
  { unfold DestroyGLTextures.
    pose proof (DestroyGLTextures_loop_spec (m_loadedTextures st) 0
                  (m_textureIDs st) (gl st)) as Hd.
    destruct (DestroyGLTextures_loop _ _ _ _) as [arr g].
    cbn in Hd. by destruct Hd as (_ & _ & Htex & _). }
  destruct Hsame as [Htex Hcount].
  assert (Hnone : GL.textures (gl (DestroyGLTextures st))
                    !! (GL.next_name (gl st) + Z.of_nat k)%Z = None).
  { rewrite Htex.
    destruct (GL.textures (gl st) !! (GL.next_name (gl st) + Z.of_nat k)%Z)
      eqn:E; [| done].
    apply Hkeys in E. lia. }
  split.
  { rewrite registry_lookup by (by rewrite Hcount). by rewrite Hentry. }
  split; [done |].
  unfold BindGLTextures at 1 2. cbn [gl with_gl].
  destruct (BindGLTextures_loop_spec
              (m_textureIDs (DestroyGLTextures st))
              (m_loadedTextures (DestroyGLTextures st)) 0
              (gl (DestroyGLTextures st))) as (Hin & _ & _).
  split.
  - rewrite Hin by (rewrite Hcount; lia). by rewrite Hentry.
  - replace (GL.next_name (gl st) + Z.of_nat k)%Z
      with (ID (texture_at (m_textureIDs (DestroyGLTextures st)) k))
      by (by rewrite Hentry).
    apply BindGLTextures_loop_objects.
    + rewrite Hcount. lia.
    + rewrite Hentry. cbn. lia.
    + by rewrite Hentry.
Qed.

End Handles.

(** ** Defining the materials *)

Section Materials.

Lemma FindMaterial_loop_app t a b material :
  FindMaterial_loop t (a ++ b) material
  = if decide (t ∈ mtag <$> a) then FindMaterial_loop t a material
    else FindMaterial_loop t b material.
Proof.
  induction a as [| x a IH].
  - cbn. case_decide as Hin; [by apply elem_of_nil in Hin | done].
  - cbn [app FindMaterial_loop]. rewrite IH. clear IH.
    destruct (String.eqb_spec (mtag x) t) as [Heq | Hne].
    + case_decide as Hin; [done |].
      exfalso. apply Hin. rewrite fmap_cons, Heq. by left.
    + destruct (decide (t ∈ mtag <$> a)) as [Hin | Hnot].
      * case_decide as Hin'; [done |].
        exfalso. apply Hin'. rewrite fmap_cons. by right.
      * case_decide as Hin'; [| done].
        rewrite fmap_cons in Hin'.
        apply elem_of_cons in Hin' as [? | ?]; congruence.
Qed.

(** X18. [DefineObjectMaterials] appends its three materials without
    looking at what is there: a material defined earlier under one of the
    tags keeps answering for it, and a second call changes no answer of
    [FindMaterial]; after any call the list is not empty, so
    [FindMaterial] returns [true] for every tag. *)
Theorem DefineObjectMaterials_appends :
  forall (t : string) (material : OBJECT_MATERIAL) (st : SceneManager),
    (t ∈ mtag <$> m_objectMaterials st ->
     FindMaterial t material (DefineObjectMaterials st)
     = FindMaterial t material st) /\
    FindMaterial t material (DefineObjectMaterials (DefineObjectMaterials st))
    = FindMaterial t material (DefineObjectMaterials st) /\
    (FindMaterial t material (DefineObjectMaterials st)).1 = true.
Proof.
  intros t material st.
  assert (Hne : forall s, m_objectMaterials (DefineObjectMaterials s) <> []).
  { intros s. cbn. by destruct (m_objectMaterials s). }
  split; [| split].
  - intros Hin.
    assert (m_objectMaterials st <> [])
      by (intros E; rewrite E in Hin; by apply elem_of_nil in Hin).
    rewrite !FindMaterial_nonempty by done.
    cbn [m_objectMaterials DefineObjectMaterials].
    rewrite FindMaterial_loop_app. by destruct (decide _).
  - rewrite !FindMaterial_nonempty by done.
    cbn [m_objectMaterials DefineObjectMaterials].
    rewrite <- app_assoc, !FindMaterial_loop_app.
    destruct (decide (t ∈ mtag <$> m_objectMaterials st)); [done |].
    by destruct (decide _).
  - by rewrite FindMaterial_nonempty.
Qed.

End Materials.

(** ** Lights and the preparation of the scene *)

Section Preparation.

Variable stbi_load : string -> option GL.Image.

Local Open Scope nat_scope.

Lemma light_calls_table : light_calls = write_uniform <$> light_settings.
Proof. reflexivity. Qed.

Lemma light_uniforms_table : light_uniforms = light_settings.*1.
Proof. reflexivity. Qed.

(** After a table of writes, a uniform holds the value written last
    under its name, or its old value when the table does not name it. *)
Lemma lookup_after_writes l :
  forall (sh : gmap string Shader.uniform) (name : string),
    fold_left (fun s call => call s) (write_uniform <$> l) sh !! name
    = match last_write l name with
      | Some v => Some v
      | None => sh !! name
      end.
Proof.
  induction l as [| [n v] l IH]; intros sh name; [done |].
  cbn [fmap list_fmap fold_left last_write]. rewrite IH.
  destruct (last_write l name); [done |].
  unfold write_uniform. cbn [fst snd]. rewrite lookup_insert.
  destruct (String.eqb_spec n name); by case_decide.
Qed.

Lemma last_write_unnamed l name :
  name ∉ l.*1 -> last_write l name = None.
Proof.
  induction l as [| [n v] l IH]; intros Hnot; [done |].
  cbn in *. apply not_elem_of_cons in Hnot as [Hne Hnot].
  rewrite IH by done.
  destruct (String.eqb_spec n name); [congruence | done].
Qed.

Lemma SetupSceneLights_lookup st sh name :
  m_pShaderManager st = Some sh ->
  exists st',
    SetupSceneLights st = Done st' /\
    same_scene st st' /\
    uniform_of st' name
    = match last_write light_settings name with
      | Some v => Some v
      | None => sh !! name
      end.
Proof.
  intros Hsh. unfold SetupSceneLights. rewrite Hsh.
  eexists. split; [reflexivity |].
  split; [by eapply same_scene_with_shader |].
  unfold uniform_of. cbn [m_pShaderManager with_shader].
  rewrite light_calls_table. apply lookup_after_writes.
Qed.

(** X19. [SetupSceneLights] goes through the shader pointer untested: it
    is undefined exactly when the pointer is null. With a shader it
    switches lighting and the spotlight on, writes only the uniforms of
    its list, among which there is no position and no direction for the
    spotlight, and leaves the rest of the scene manager alone. *)
Theorem SetupSceneLights_undefined_iff_null_shader :
  forall st : SceneManager,
    (SetupSceneLights st = Undefined <-> m_pShaderManager st = None) /\
    (forall st',
        SetupSceneLights st = Done st' ->
        same_scene st st' /\
        uniform_of st' g_UseLightingName = Some (Shader.UBool true) /\
        uniform_of st' "spotLight.bActive" = Some (Shader.UBool true) /\
        forall name, name ∉ light_uniforms ->
                     uniform_of st' name = uniform_of st name) /\
    ("spotLight.position"%string ∉ light_uniforms) /\
    ("spotLight.direction"%string ∉ light_uniforms).
Proof.
  intros st.
  assert (Hpos : forall name,
             name = "spotLight.position"%string \/
             name = "spotLight.direction"%string ->
             name ∉ light_uniforms).
  { intros name [-> | ->]; unfold light_uniforms;
      repeat (apply not_elem_of_cons; split; [discriminate |]);
      apply not_elem_of_nil. }
  split; [| split; [| split; apply Hpos; auto]].
  - unfold SetupSceneLights. by destruct (m_pShaderManager st).
  - intros st' Hrun.
    destruct (m_pShaderManager st) as [sh |] eqn:Hsh;
      [| unfold SetupSceneLights in Hrun; by rewrite Hsh in Hrun].
    split; [| split; [| split]].
    + destruct (SetupSceneLights_lookup st sh "" Hsh) as (st1 & H1 & Hs & _).
      congruence.
    + destruct (SetupSceneLights_lookup st sh g_UseLightingName Hsh)
        as (st1 & H1 & _ & Hu).
      assert (st1 = st') as -> by congruence. rewrite Hu. reflexivity.
    + destruct (SetupSceneLights_lookup st sh "spotLight.bActive" Hsh)
        as (st1 & H1 & _ & Hu).
      assert (st1 = st') as -> by congruence. rewrite Hu. reflexivity.
    + intros name Hname.
      destruct (SetupSceneLights_lookup st sh name Hsh) as (st1 & H1 & _ & Hu).
      assert (st1 = st') as -> by congruence. rewrite Hu.
      rewrite last_write_unnamed by (by rewrite <- light_uniforms_table).
      unfold uniform_of. by rewrite Hsh.
Qed.

Lemma LoadTextures_keeps_shader loads :
  forall st st',
    LoadTextures stbi_load loads st = Done st' ->
    m_pShaderManager st' = m_pShaderManager st /\
    m_objectMaterials st' = m_objectMaterials st.
Proof.
  induction loads as [| [filename t] rest IH]; intros st st' Hrun.
  - by injection Hrun as <-.
  - cbn [LoadTextures] in Hrun.
    destruct (CreateGLTexture stbi_load filename t st) as [[b st1] |]
      eqn:Hcall; [| done].
    cbn [bind snd] in Hrun. destruct (IH _ _ Hrun) as [-> ->].
    destruct (CreateGLTexture_Done_inv _ _ _ _ _ _ Hcall)
      as [(_ & _ & ->) | [(_ & _ & ->) | (_ & _ & i & f & _ & _ & ->)]]; done.
Qed.

Lemma successes_length loads :
  length (successes stbi_load loads) <= length loads.
Proof.
  induction loads as [| [filename t] rest IH]; cbn; [lia |].
  destruct (stbi_load filename) as [image |]; [| lia].
  destruct (upload_format image); cbn; lia.
Qed.

(** X20. [PrepareScene] is undefined exactly when the shader pointer is
    null or the scene's supported texture files outnumber the free entries
    of the array; a file that is missing or unsupported is never fatal. *)
Theorem PrepareScene_undefined_iff :
  forall f : Renderer,
    PrepareScene stbi_load f = Undefined <->
    m_pShaderManager (manager f) = None \/
    (successes stbi_load scene_textures <> [] /\
     length (m_textureIDs (manager f))
       < m_loadedTextures (manager f)
         + length (successes stbi_load scene_textures)).
Proof.
  intros f. unfold PrepareScene, LoadSceneTextures.
  destruct (LoadTextures stbi_load scene_textures (manager f)) as [st1 |]
    eqn:Hrun.
  - destruct (LoadTextures_keeps_shader _ _ _ Hrun) as [Hsh _].
    cbn [bind]. unfold SetupSceneLights.
    cbn [m_pShaderManager DefineObjectMaterials BindGLTextures with_gl].
    rewrite Hsh.
    assert (Hnot : ~ (successes stbi_load scene_textures <> [] /\
                     length (m_textureIDs (manager f))
                       < m_loadedTextures (manager f)
                         + length (successes stbi_load scene_textures))).
    { intros H. apply LoadTextures_overflow in H. congruence. }
    destruct (m_pShaderManager (manager f)) as [sh |].
    + cbn [bind]. split; [done |]. intros [? | ?]; [done | by apply Hnot in H].
    + cbn [bind]. split; [by left | done].
  - cbn [bind]. split; [intros _ | done].
    right. by apply LoadTextures_overflow.
Qed.

(** X21. With a shader and room in the array for the files of the scene
    that load, [PrepareScene] returns, whichever files are missing or
    unsupported: after the entries the registry had, it registers the
    files that load, in the order of the calls; after the materials there
    were, it defines glass, metal and wood; it switches lighting on and
    loads the six meshes. *)
Theorem PrepareScene_with_shader_returns :
  forall (f : Renderer) (sh : gmap string Shader.uniform),
    m_pShaderManager (manager f) = Some sh ->
    m_loadedTextures (manager f)
      + length (successes stbi_load scene_textures)
      <= length (m_textureIDs (manager f)) ->
    exists f',
      PrepareScene stbi_load f = Done f' /\
      tag <$> registry (manager f')
      = (tag <$> registry (manager f))
          ++ ((fun s => s.1.1) <$> successes stbi_load scene_textures) /\
      mtag <$> m_objectMaterials (manager f')
      = (mtag <$> m_objectMaterials (manager f))
          ++ ["glass"; "metal"; "wood"]%string /\
      uniform_of (manager f') g_UseLightingName = Some (Shader.UBool true) /\
      m_basicMeshes f'
      = m_basicMeshes f ++ [Plane; Cone; Box; Prism; Cylinder; Torus].
Proof.
  intros f sh Hshf Hroom. unfold PrepareScene, LoadSceneTextures.
  destruct (LoadTextures_tags stbi_load scene_textures (manager f) Hroom)
    as (st1 & Hrun & _ & _ & Hsh & Hmats & Htags).
  rewrite Hrun. cbn [bind].
  unfold SetupSceneLights.
  cbn [m_pShaderManager DefineObjectMaterials BindGLTextures with_gl].
  rewrite Hsh, Hshf. cbn [bind].
  eexists. split; [reflexivity |].
  cbn [manager m_basicMeshes].
  split; [| split; [| split; [| done]]].
  - change (registry (with_shader _ _)) with (registry st1). exact Htags.
  - cbn [m_objectMaterials with_shader DefineObjectMaterials BindGLTextures
         with_gl].
    rewrite Hmats, fmap_app. reflexivity.
  - unfold uniform_of. cbn [m_pShaderManager with_shader].
    rewrite light_calls_table, lookup_after_writes. reflexivity.
Qed.

End Preparation.

(** ** Rendering *)

Section Rendering.

Local Open Scope nat_scope.

Lemma same_scene_trans a b c :
  same_scene a b -> same_scene b c -> same_scene a c.
Proof.
  intros (H1 & H2 & H3 & H4 & H5) (G1 & G2 & G3 & G4 & G5).
  repeat split; try congruence; tauto.
Qed.

(** Each setter, when it returns, hands back the same scene. *)
Lemma setter_same_scene st st' :
  (exists s rx ry rz p, SetTransformations s rx ry rz p st = Done st') \/
  (exists t, SetShaderTexture t st = Done st') \/
  (exists t garbage, SetShaderMaterial t garbage st = Done st') \/
  (exists r g b a, SetShaderColor r g b a st = Done st') \/
  (exists u v, SetTextureUVScale u v st = Done st') ->
  same_scene st st'.
Proof.
  intros [(s & rx & ry & rz & p & H) | [(t & H) | [(t & garbage & H) |
          [(r & g & b & a & H) | (u & v & H)]]]].
  - unfold SetTransformations in H.
    destruct (m_pShaderManager st) eqn:E; injection H as <-;
      [by eapply same_scene_with_shader | apply same_scene_refl].
  - unfold SetShaderTexture in H.
    destruct (m_pShaderManager st) eqn:E; injection H as <-;
      [by eapply same_scene_with_shader | apply same_scene_refl].
  - unfold SetShaderMaterial in H.
    destruct (0 <? length (m_objectMaterials st));
      [| injection H as <-; apply same_scene_refl].
    destruct (FindMaterial t garbage st) as [[|] material];
      [| injection H as <-; apply same_scene_refl].
    destruct (m_pShaderManager st) eqn:E; [| done].
    injection H as <-. by eapply same_scene_with_shader.
  - unfold SetShaderColor in H.
    destruct (m_pShaderManager st) eqn:E; injection H as <-;
      [by eapply same_scene_with_shader | apply same_scene_refl].
  - unfold SetTextureUVScale in H.
    destruct (m_pShaderManager st) eqn:E; injection H as <-;
      [by eapply same_scene_with_shader | apply same_scene_refl].
Qed.

(** What one statement does to the renderer. *)
Lemma exec_Done c f f' :
  exec c f = Done f' ->
  same_scene (manager f) (manager f') /\
  m_basicMeshes f' = m_basicMeshes f /\
  wrap f'
  = (if is_clamp c
     then <[GL.bound (gl (manager f)) := (GL_CLAMP_TO_EDGE, GL_CLAMP_TO_EDGE)]>
            (wrap f)
     else wrap f) /\
  drawn f'
  = drawn f ++ match c with
               | Draw s => [(s, m_pShaderManager (manager f))]
               | _ => []
               end.
Proof.
  destruct c; cbn [exec is_clamp]; intros H.
  1-5: match type of H with
       | bind ?call _ = _ => destruct call as [st |] eqn:E; [| done]
       end;
       cbn [bind] in H; injection H as <-; cbn;
       rewrite app_nil_r; (split; [| done]);
       apply setter_same_scene; eauto 10.
  - injection H as <-. cbn. rewrite app_nil_r.
    split; [apply same_scene_refl | done].
  - injection H as <-. cbn. split; [apply same_scene_refl | done].
Qed.

Lemma exec_Undefined c f :
  exec c f = Undefined <->
  is_material c = true /\ m_pShaderManager (manager f) = None /\
  m_objectMaterials (manager f) <> [].
Proof.
  destruct c; cbn [exec is_material].
  1,2,4,5:
    unfold SetTransformations, SetShaderTexture, SetShaderColor,
      SetTextureUVScale;
    destruct (m_pShaderManager (manager f)); cbn; split;
      (done || by intros [? _]).
  - destruct (SetShaderMaterial t garbage (manager f)) as [st |] eqn:E.
    + cbn. split; [done |]. intros (_ & Hnull & Hne). exfalso.
      revert E. unfold SetShaderMaterial, FindMaterial. rewrite Hnull.
      by destruct (m_objectMaterials (manager f)).
    + cbn. split; [intros _ | done]. split; [done |].
      revert E. unfold SetShaderMaterial, FindMaterial.
      destruct (m_objectMaterials (manager f)); [done |].
      cbn [length Nat.ltb Nat.leb Nat.eqb].
      by destruct (m_pShaderManager (manager f)).
  - split; [done | by intros [? _]].
  - split; [done | by intros [? _]].
Qed.

Lemma run_Done cs :
  forall f f',
    run cs f = Done f' ->
    same_scene (manager f) (manager f') /\
    m_basicMeshes f' = m_basicMeshes f /\
    wrap f'
    = (if existsb is_clamp cs
       then <[GL.bound (gl (manager f)) := (GL_CLAMP_TO_EDGE, GL_CLAMP_TO_EDGE)]>
              (wrap f)
       else wrap f) /\
    (drawn f').*1 = (drawn f).*1 ++ shapes_drawn cs.
Proof.
  induction cs as [| c cs IH]; intros f f' Hrun.
  - injection Hrun as <-. cbn. rewrite app_nil_r.
    split; [apply same_scene_refl | done].
  - cbn [run] in Hrun. destruct (exec c f) as [f1 |] eqn:E; [| done].
    cbn [bind] in Hrun.
    destruct (exec_Done _ _ _ E) as (Hs1 & Hm1 & Hw1 & Hd1).
    destruct (IH _ _ Hrun) as (Hs & Hm & Hw & Hd).
    split; [by eapply same_scene_trans |]. split; [congruence |].
    assert (Hgl : gl (manager f1) = gl (manager f)) by apply Hs1.
    split.
    + rewrite Hw, Hw1, Hgl. cbn [existsb].
      destruct (is_clamp c), (existsb is_clamp cs); cbn; try done.
      by rewrite insert_insert_eq.
    + rewrite Hd, Hd1, fmap_app, <- app_assoc. f_equal.
      unfold shapes_drawn. cbn [flat_map]. by destruct c.
Qed.

Lemma run_Undefined cs :
  forall f,
    run cs f = Undefined <->
    existsb is_material cs = true /\
    m_pShaderManager (manager f) = None /\
    m_objectMaterials (manager f) <> [].
Proof.
  induction cs as [| c cs IH]; intros f.
  - cbn. split; [done | by intros [? _]].
  - cbn [run existsb]. destruct (exec c f) as [f1 |] eqn:E.
    + cbn [bind]. rewrite IH.
      destruct (exec_Done _ _ _ E) as ((_ & _ & Hmats & _ & Hnull) & _).
      rewrite Hmats, Hnull.
      assert (Hc : ~ (is_material c = true /\
                      m_pShaderManager (manager f) = None /\
                      m_objectMaterials (manager f) <> [])).
      { intros H. apply exec_Undefined in H. congruence. }
      split.
      * intros (-> & ? & ?). by rewrite orb_true_r.
      * intros (Hor & ? & ?). split; [| done].
        apply orb_true_iff in Hor as [Hm | ?]; [| done]. by destruct Hc.
    + cbn [bind]. apply exec_Undefined in E as (-> & ? & ?). done.
Qed.

(** X22. [RenderScene] is undefined exactly when the shader pointer is
    null while a material is defined (its calls of [SetShaderMaterial]);
    in every other state it returns. *)
Theorem RenderScene_undefined_iff :
  forall (garbage : nat -> OBJECT_MATERIAL) (f : Renderer),
    RenderScene garbage f = Undefined <->
    m_pShaderManager (manager f) = None /\
    m_objectMaterials (manager f) <> [].
Proof.
  intros garbage f. unfold RenderScene. rewrite run_Undefined.
  split; [by intros (_ & ? & ?) | by intros [? ?]].
Qed.

(** X23. A frame changes nothing but the shader and one wrap mode: when
    [RenderScene] returns, the texture registry, the materials, the
    OpenGL context and the loaded meshes are as before; fourteen shapes
    have been drawn, in the order of the source; and the clamp-to-edge
    wrap mode has been given to the texture bound on the active unit, not
    to the texture of the tag drawn next. *)
Theorem RenderScene_frame :
  forall (garbage : nat -> OBJECT_MATERIAL) (f f' : Renderer),
    RenderScene garbage f = Done f' ->
    same_scene (manager f) (manager f') /\
    m_basicMeshes f' = m_basicMeshes f /\
    wrap f'
    = <[GL.bound (gl (manager f)) := (GL_CLAMP_TO_EDGE, GL_CLAMP_TO_EDGE)]>
        (wrap f) /\
    (drawn f').*1
    = (drawn f).*1 ++
      [Plane; Cylinder; Cylinder; Prism; Box; Cylinder; Cylinder; Cylinder;
       Cylinder; Box; Cylinder; Cylinder; Torus; Cylinder].
Proof.
  intros garbage f f' Hrun. unfold RenderScene in Hrun.
  by apply run_Done in Hrun.
Qed.

(** After [BindGLTextures] the texture bound on the active unit is the
    last loaded one. *)
Lemma bound_after_bind st n :
  m_loadedTextures st = S n ->
  GL.bound (gl (BindGLTextures st)) = ID (texture_at (m_textureIDs st) n).
Proof.
  intros Hcount. unfold GL.bound, BindGLTextures. cbn [gl with_gl].
  destruct (BindGLTextures_loop_spec (m_textureIDs st) (m_loadedTextures st)
              0 (gl st)) as (Hin & _ & _).
  destruct (BindGLTextures_loop_rest (m_textureIDs st) (m_loadedTextures st)
              0 (gl st)) as (_ & _ & Hact).
  rewrite Hact by lia. rewrite Hcount.
  replace (0 + S n - 1) with n by lia.
  rewrite Hcount in Hin. by rewrite Hin by lia.
Qed.

(** X24. When the textures were bound by [BindGLTextures] just before, the
    clamp-to-edge wrap mode that [RenderScene] sets before drawing the
    "hdrive" box goes to the last loaded texture, whatever its tag, and
    to no other texture. *)
Theorem RenderScene_clamps_last_loaded_texture :
  forall (garbage : nat -> OBJECT_MATERIAL) (f f' : Renderer)
         (st : SceneManager) (n : nat),
    gl (manager f) = gl (BindGLTextures st) ->
    m_loadedTextures st = S n ->
    RenderScene garbage f = Done f' ->
    wrap f' !! ID (texture_at (m_textureIDs st) n)
    = Some (GL_CLAMP_TO_EDGE, GL_CLAMP_TO_EDGE) /\
    forall handle,
      handle <> ID (texture_at (m_textureIDs st) n) ->
      wrap f' !! handle = wrap f !! handle.
Proof.
  intros garbage f f' st n Hgl Hcount Hrun. unfold RenderScene in Hrun.
  apply run_Done in Hrun as (_ & _ & Hwrap & _).
  rewrite Hgl, (bound_after_bind st n Hcount) in Hwrap.
  cbn [existsb is_clamp RenderScene_statements orb] in Hwrap.
  rewrite Hwrap. split; [by rewrite lookup_insert_eq |].
  intros handle Hne. by rewrite lookup_insert_ne.
Qed.

Lemma registry_same_scene st st' :
  same_scene st st' -> registry st' = registry st.
Proof. intros (Harr & Hcount & _). unfold registry. by rewrite Harr, Hcount. Qed.

Lemma same_scene_eq st st' :
  same_scene st st' -> m_pShaderManager st' = m_pShaderManager st -> st' = st.
Proof.
  destruct st, st'. intros (H1 & H2 & H3 & H4 & _) H5. cbn in *. congruence.
Qed.

Lemma writes_same_scene st st' c :
  same_scene st st' -> writes st' c = writes st c.
Proof.
  intros (Harr & Hcount & Hmats & _). destruct c; cbn; try done.
  - unfold FindTextureSlot. by rewrite Harr, Hcount.
  - by rewrite Hmats.
Qed.

(** With a shader, a statement returns, and its effect on the shader is
    the table of its writes. *)
Lemma exec_with_shader c f sh :
  m_pShaderManager (manager f) = Some sh ->
  exists f',
    exec c f = Done f' /\
    m_pShaderManager (manager f')
    = Some (fold_left (fun s call => call s)
              (write_uniform <$> writes (manager f) c) sh).
Proof.
  intros Hsh. destruct c; cbn [exec writes].
  - unfold SetTransformations. rewrite Hsh. cbn. by eexists.
  - unfold SetShaderTexture. rewrite Hsh. cbn. by eexists.
  - unfold SetShaderMaterial, FindMaterial.
    destruct (m_objectMaterials (manager f)) as [| a l].
    + cbn. by eexists.
    + cbn [length Nat.ltb Nat.leb Nat.eqb]. rewrite Hsh. cbn. by eexists.
  - unfold SetShaderColor. rewrite Hsh. cbn. by eexists.
  - unfold SetTextureUVScale. rewrite Hsh. cbn. by eexists.
  - cbn. by eexists.
  - cbn. by eexists.
Qed.

Lemma run_with_shader cs :
  forall f sh,
    m_pShaderManager (manager f) = Some sh ->
    exists f',
      run cs f = Done f' /\
      m_pShaderManager (manager f')
      = Some (fold_left (fun s call => call s)
                (write_uniform <$> flat_map (writes (manager f)) cs) sh).
Proof.
  induction cs as [| c cs IH]; intros f sh Hsh.
  - exists f. by split.
  - destruct (exec_with_shader c f sh Hsh) as (f1 & Hexec & Hsh1).
    destruct (IH f1 _ Hsh1) as (f' & Hrun & Hsh').
    exists f'. cbn [run]. rewrite Hexec. cbn [bind]. split; [done |].
    rewrite Hsh'. cbn [flat_map]. rewrite fmap_app, fold_left_app.
    do 3 f_equal. apply flat_map_ext. intros c'.
    apply writes_same_scene. by apply exec_Done in Hexec as [? _].
Qed.

(** Writing a table twice is writing it once. *)
Lemma writes_twice l (sh : gmap string Shader.uniform) :
  fold_left (fun s call => call s) (write_uniform <$> l)
    (fold_left (fun s call => call s) (write_uniform <$> l) sh)
  = fold_left (fun s call => call s) (write_uniform <$> l) sh.
Proof.
  apply map_eq. intros name. rewrite !lookup_after_writes.
  by destruct (last_write l name).
Qed.

(** The draws of a run depend on the scene manager only. *)
Lemma run_draws cs :
  forall f g f',
    manager g = manager f ->
    run cs f = Done f' ->
    exists g',
      run cs g = Done g' /\ manager g' = manager f' /\
      exists new, drawn f' = drawn f ++ new /\ drawn g' = drawn g ++ new.
Proof.
  induction cs as [| c cs IH]; intros f g f' Hm Hrun.
  - injection Hrun as <-. exists g. split; [done |]. split; [done |].
    exists []. by rewrite !app_nil_r.
  - cbn [run] in *. destruct (exec c f) as [f1 |] eqn:E; [| done].
    cbn [bind] in Hrun.
    assert (Hg : exists g1 new1,
               exec c g = Done g1 /\ manager g1 = manager f1 /\
               drawn f1 = drawn f ++ new1 /\ drawn g1 = drawn g ++ new1).
    { destruct c; cbn [exec] in *; rewrite ?Hm;
        try (match type of E with
             | bind ?call _ = _ => destruct call as [st |]; [| done]
             end;
             cbn [bind] in *; injection E as <-;
             eexists _, []; cbn; rewrite !app_nil_r;
             (split; [reflexivity |]); done).
      - injection E as <-. eexists _, []. cbn. rewrite !app_nil_r.
        split; [reflexivity |]. done.
      - injection E as <-. eexists _, [_]. cbn.
        split; [reflexivity |]. done. }
    destruct Hg as (g1 & new1 & Hg1 & Hm1 & Hd1 & Hd1').
    destruct (IH f1 g1 f' Hm1 Hrun) as (g' & Hrun' & Hm' & new & Hd & Hd').
    exists g'. rewrite Hg1. cbn [bind]. split; [done |]. split; [done |].
    exists (new1 ++ new). by rewrite Hd, Hd', Hd1, Hd1', <- !app_assoc.
Qed.

(** X25. After the first frame the frames repeat: a second call of
    [RenderScene] leaves the scene manager, shader included, as the first
    call left it, and from then on every call issues the same draws, in
    the same shader states. The first frame is the exception: it starts
    from whatever the shader held. *)
Theorem RenderScene_frames_repeat :
  forall (garbage : nat -> OBJECT_MATERIAL) (f f1 f2 : Renderer),
    RenderScene garbage f = Done f1 ->
    RenderScene garbage f1 = Done f2 ->
    manager f2 = manager f1 /\
    exists f3 frame,
      RenderScene garbage f2 = Done f3 /\
      manager f3 = manager f2 /\
      drawn f2 = drawn f1 ++ frame /\
      drawn f3 = drawn f2 ++ frame.
Proof.
  intros garbage f f1 f2 Hrun1 Hrun2. unfold RenderScene in *.
  assert (Hsame : manager f2 = manager f1).
  { pose proof (run_Done _ _ _ Hrun1) as (Hs1 & _).
    pose proof (run_Done _ _ _ Hrun2) as (Hs2 & _).
    apply same_scene_eq; [done |].
    destruct (m_pShaderManager (manager f)) as [sh |] eqn:Hsh.
    - destruct (run_with_shader (RenderScene_statements garbage) f sh Hsh)
        as (f1' & Hrun1' & Hsh1).
      assert (f1' = f1) as -> by congruence.
      destruct (run_with_shader (RenderScene_statements garbage) f1 _ Hsh1)
        as (f2' & Hrun2' & Hsh2).
      assert (f2' = f2) as -> by congruence.
      rewrite Hsh2, Hsh1. f_equal.
      rewrite (flat_map_ext (writes (manager f1)) (writes (manager f)))
        by (intros c; by apply writes_same_scene).
      apply writes_twice.
    - destruct Hs1 as (_ & _ & _ & _ & Hn1). destruct Hs2 as (_ & _ & _ & _ & Hn2).
      rewrite (proj2 Hn1 Hsh). apply Hn2. by apply Hn1. }
  split; [done |].
  destruct (run_draws _ f1 f2 f2 Hsame Hrun2)
    as (f3 & Hrun3 & Hm3 & frame & Hd2 & Hd3).
  exists f3, frame. by rewrite Hm3.
Qed.

Lemma run_app cs1 cs2 f :
  run (cs1 ++ cs2) f = (f1 <- run cs1 f ;; run cs2 f1).
Proof.
  revert f. induction cs1 as [| c cs1 IH]; intros f; [done |].
  cbn [app run]. destruct (exec c f); cbn [bind]; [apply IH | done].
Qed.

Lemma RenderScene_statements_split garbage :
  RenderScene_statements garbage
  = [Transform (GLM.Vec3 20.0 1.0 10.0) 0.0 0.0 0.0 (GLM.Vec3 0.0 0.0 0.0);
     Texture "floor"]%R
    ++ Draw Plane :: skipn 3 (RenderScene_statements garbage).
Proof. reflexivity. Qed.

(** A draw that follows statements which draw nothing is issued in the
    shader state those statements leave. *)
Lemma run_draw_after cs s rest f f' sh :
  m_pShaderManager (manager f) = Some sh ->
  shapes_drawn cs = [] ->
  run (cs ++ Draw s :: rest) f = Done f' ->
  drawn f' !! length (drawn f)
  = Some (s, Some (fold_left (fun m call => call m)
                     (write_uniform <$> flat_map (writes (manager f)) cs) sh)).
Proof.
  intros Hsh Hnone Hrun. rewrite run_app in Hrun.
  destruct (run_with_shader cs f sh Hsh) as (fa & Ha & Hsha).
  rewrite Ha in Hrun. cbn [bind run exec] in Hrun.
  match type of Hrun with
  | run rest ?fb = _ =>
      destruct (run_draws rest fb fb f' eq_refl Hrun)
        as (_ & _ & _ & more & Hd & _)
  end.
  cbn [drawn] in Hd.
  assert (Hsame : drawn fa = drawn f).
  { destruct (run_draws cs f f fa eq_refl Ha) as (_ & _ & _ & new & Hnew & _).
    destruct (run_Done cs f fa Ha) as (_ & _ & _ & Hshapes).
    rewrite Hnone, app_nil_r, Hnew, fmap_app in Hshapes.
    assert (Hlen : length ((drawn f).*1 ++ new.*1) = length (drawn f).*1)
      by (by rewrite Hshapes).
    rewrite length_app, !length_fmap in Hlen.
    destruct new; [by rewrite app_nil_r in Hnew | cbn in Hlen; lia]. }
  rewrite Hd, Hsame, Hsha, <- app_assoc. cbn [app].
  by apply list_lookup_middle.
Qed.

(** The first draw of a frame: the table, in the shader state the frame
    started with, after the statements for the table. *)
Lemma RenderScene_first_draw garbage f f' sh :
  m_pShaderManager (manager f) = Some sh ->
  RenderScene garbage f = Done f' ->
  exists sh1,
    drawn f' !! length (drawn f) = Some (Plane, Some sh1) /\
    forall name,
      name <> g_ModelName -> name <> g_UseTextureName ->
      name <> g_TextureValueName ->
      sh1 !! name = sh !! name.
Proof.
  intros Hsh Hrun. unfold RenderScene in Hrun.
  rewrite RenderScene_statements_split in Hrun.
  eapply (run_draw_after _ _ _ f f' sh Hsh) in Hrun; [| reflexivity].
  eexists. split.
  - exact Hrun.
  - intros name H1 H2 H3. rewrite lookup_after_writes.
    rewrite last_write_unnamed; [done |].
    cbn. intros Hin.
    repeat (apply elem_of_cons in Hin as [? | Hin]; [congruence |]).
    by apply elem_of_nil in Hin.
Qed.

(** X26. Material uniforms outlive the object they were set for: the
    table, drawn first and with no material call of its own, is drawn in
    the first frame with the material uniforms the shader happened to
    hold, and in every later frame with the material found for "metal",
    the last one set in the frame before. *)
Theorem RenderScene_table_inherits_last_material :
  forall (garbage : nat -> OBJECT_MATERIAL) (f f1 f2 : Renderer)
         (sh : gmap string Shader.uniform),
    m_pShaderManager (manager f) = Some sh ->
    m_objectMaterials (manager f) <> [] ->
    RenderScene garbage f = Done f1 ->
    RenderScene garbage f1 = Done f2 ->
    exists sh1 sh2,
      drawn f1 !! length (drawn f) = Some (Plane, Some sh1) /\
      drawn f2 !! length (drawn f1) = Some (Plane, Some sh2) /\
      sh1 !! "material.shininess" = sh !! "material.shininess" /\
      sh2 !! "material.shininess"
      = Some (Shader.UFloat
                (shininess
                   (FindMaterial_loop "metal" (m_objectMaterials (manager f))
                      (garbage 2)))).
Proof.
  intros garbage f f1 f2 sh Hsh Hne Hrun1 Hrun2.
  destruct (RenderScene_first_draw garbage f f1 sh Hsh Hrun1)
    as (sh1 & Hd1 & Hkeep1).
  destruct (run_with_shader (RenderScene_statements garbage) f sh Hsh)
    as (f1' & Hrun1' & Hsh1).
  assert (f1' = f1) as -> by (unfold RenderScene in Hrun1; congruence).
  destruct (RenderScene_first_draw garbage f1 f2 _ Hsh1 Hrun2)
    as (sh2 & Hd2 & Hkeep2).
  exists sh1, sh2. split; [done |]. split; [done |].
  split; [by apply Hkeep1 |].
  rewrite Hkeep2 by done. rewrite lookup_after_writes.
  destruct (m_objectMaterials (manager f)) as [| a l] eqn:Hmats; [done |].
  cbn [RenderScene_statements flat_map writes app]. rewrite Hmats.
  reflexivity.
Qed.

End Rendering.

(** ** The scene as a whole *)

Section WholeScene.

Variable stbi_load : string -> option GL.Image.

Local Open Scope nat_scope.

(** X27. In the scene itself, with all seven texture files loading into
    a registry of distinct handles that has room for them: after
    [PrepareScene] and one [RenderScene], the clamp-to-edge wrap mode set
    before the "hdrive" box is drawn is on the texture of "coffee", the
    last one loaded, and the texture of "hdrive", another texture, has
    the wrap mode it had. *)
Theorem scene_clamp_misses_hdrive :
  forall (f : Renderer) (sh : gmap string Shader.uniform)
         (garbage : nat -> OBJECT_MATERIAL),
    m_pShaderManager (manager f) = Some sh ->
    NoDup (ID <$> registry (manager f)) ->
    handles_below (manager f) ->
    m_loadedTextures (manager f) + 7 <= length (m_textureIDs (manager f)) ->
    Forall (fun load => supported stbi_load load.1) scene_textures ->
    exists f1 f2 hdrive coffee,
      PrepareScene stbi_load f = Done f1 /\
      RenderScene garbage f1 = Done f2 /\
      registry (manager f2) !! (m_loadedTextures (manager f) + 4)
      = Some (MkTextureInfo hdrive "hdrive") /\
      registry (manager f2) !! (m_loadedTextures (manager f) + 6)
      = Some (MkTextureInfo coffee "coffee") /\
      hdrive <> coffee /\
      wrap f2 !! coffee = Some (GL_CLAMP_TO_EDGE, GL_CLAMP_TO_EDGE) /\
      wrap f2 !! hdrive = wrap f !! hdrive.
Proof.
  intros f sh garbage Hshf Hnd0 Hbelow0 Hroom Hall.
  unfold scene_textures in Hall.
  repeat (apply Forall_cons in Hall as [(? & ? & ? & ?) Hall]). clear Hall.
  cbn [fst] in *.
  match goal with
  | H0 : _ = Some ?i0, F0 : _ = Some ?f0, H1 : _ = Some ?i1, F1 : _ = Some ?f1,
    H2 : _ = Some ?i2, F2 : _ = Some ?f2, H3 : _ = Some ?i3, F3 : _ = Some ?f3,
    H4 : _ = Some ?i4, F4 : _ = Some ?f4, H5 : _ = Some ?i5, F5 : _ = Some ?f5,
    H6 : _ = Some ?i6, F6 : _ = Some ?f6 |- _ =>
      assert (Hsucc : successes stbi_load scene_textures
                      = [("floor", f0, i0); ("tbottle", f1, i1);
                         ("bottle", f2, i2); ("tlabel", f3, i3);
                         ("hdrive", f4, i4); ("smile", f5, i5);
                         ("coffee", f6, i6)]%string)
        by (cbn; by rewrite H0, F0, H1, F1, H2, F2, H3, F3, H4, F4, H5, F5, H6, F6)
  end.
  destruct (LoadTextures_tags stbi_load scene_textures (manager f))
    as (st1 & Hrun & Hcount & _ & Hsh & Hmats & Htags).
  { rewrite Hsucc. cbn [length]. lia. }
  rewrite Hsucc in Hcount, Htags. cbn [length fmap list_fmap fst] in Hcount, Htags.
  set (m := m_loadedTextures (manager f)) in *.
  assert (Hget : forall k t,
             ["floor"; "tbottle"; "bottle"; "tlabel"; "hdrive"; "smile";
              "coffee"]%string !! k = Some t ->
             exists e, registry st1 !! (m + k) = Some e /\ tag e = t).
  { intros k t Hk.
    assert (Ht : (tag <$> registry st1) !! (m + k) = Some t).
    { rewrite Htags, lookup_app_r
        by (rewrite length_fmap, length_registry; lia).
      rewrite length_fmap, length_registry.
      by replace (m + k - m_loadedTextures (manager f)) with k by lia. }
    rewrite list_lookup_fmap in Ht.
    destruct (registry st1 !! (m + k)) as [e |]; [| done].
    injection Ht as Ht. by exists e. }
  destruct (Hget 4 "hdrive"%string eq_refl) as (e4 & He4 & Ht4).
  destruct (Hget 6 "coffee"%string eq_refl) as (e6 & He6 & Ht6).
  destruct (LoadTextures_handles stbi_load scene_textures (manager f) st1
              Hnd0 Hbelow0 Hrun) as [Hnd _].
  assert (Hdiff : ID e4 <> ID e6).
  { intros Heq.
    assert (H46 : m + 4 = m + 6); [| lia].
    apply (NoDup_lookup _ _ _ (ID e4) Hnd).
    - by rewrite list_lookup_fmap, He4.
    - by rewrite list_lookup_fmap, He6, Heq. }
  assert (Hprep : exists f1,
             PrepareScene stbi_load f = Done f1 /\
             gl (manager f1) = gl (BindGLTextures st1) /\
             registry (manager f1) = registry st1 /\
             is_Some (m_pShaderManager (manager f1)) /\ wrap f1 = wrap f).
  { unfold PrepareScene, LoadSceneTextures.
    rewrite Hrun. cbn [bind]. unfold SetupSceneLights.
    cbn [m_pShaderManager DefineObjectMaterials BindGLTextures with_gl].
    rewrite Hsh, Hshf. cbn [bind].
    eexists. split; [reflexivity |]. cbn [manager wrap].
    split; [done | split; [done | split; [by eexists | done]]]. }
  destruct Hprep as (f1 & Hprep & Hgl & Hreg1 & [sh1 Hsh1] & Hwrap1).
  destruct (run_with_shader (RenderScene_statements garbage) f1 sh1 Hsh1)
    as (f2 & Hrender & _).
  exists f1, f2, (ID e4), (ID e6).
  split; [done |]. split; [done |].
  destruct (run_Done _ _ _ Hrender) as (Hsame & _ & Hwrap & _).
  rewrite (registry_same_scene _ _ Hsame), Hreg1.
  split; [rewrite He4; by destruct e4; cbn in *; subst |].
  split; [rewrite He6; by destruct e6; cbn in *; subst |].
  split; [done |].
  assert (Hbound : GL.bound (gl (manager f1)) = ID e6).
  { rewrite Hgl, (bound_after_bind st1 (m + 6)) by lia.
    rewrite registry_lookup in He6 by lia. by injection He6 as <-. }
  cbn [existsb is_clamp RenderScene_statements orb] in Hwrap.
  rewrite Hwrap, Hbound, Hwrap1.
  split; [by rewrite lookup_insert_eq |].
  by rewrite lookup_insert_ne.
Qed.

End WholeScene.

(** ** Concrete runs of the further properties *)

Section MoreRuns.

Local Open Scope nat_scope.

Lemma two_textures_in_order : names_in_order (gl two_textures).
Proof.
  split; [done |]. intros name x H.
  unfold two_textures in *. cbn [gl GL.textures GL.next_name] in *.
  apply lookup_insert_Some in H as [[<- _] | [_ H]]; [lia |].
  apply lookup_singleton_Some in H as [<- _]. lia.
Defined.

Lemma two_textures_handles_below : handles_below two_textures.
Proof.
  intros e He. cbn in He.
  repeat (apply elem_of_cons in He as [-> | He]; [cbn; lia |]).
  by apply elem_of_nil in He.
Defined.

Lemma two_textures_distinct : NoDup (ID <$> registry two_textures).
Proof.
  cbn. apply NoDup_cons. split.
  - intros H. apply list_elem_of_singleton in H. discriminate.
  - apply NoDup_singleton.
Defined.

Lemma SetShaderMaterial_sends_first_match_witness :
  SetShaderMaterial "metal" blank_material (with_shader duplicate_materials ∅)
  = Done (with_shader duplicate_materials
            (material_pushed
               (MkMaterial (GLM.Vec3 2 2 2) (GLM.Vec3 1 1 1) 2 "metal")%R ∅)).
Proof.
  apply (SetShaderMaterial_sends_first_match "metal" blank_material
           duplicate_materials ∅
           [MkMaterial (GLM.Vec3 1 1 1) (GLM.Vec3 0 0 0) 1 "glass"]%R
           (MkMaterial (GLM.Vec3 2 2 2) (GLM.Vec3 1 1 1) 2 "metal")%R
           [MkMaterial (GLM.Vec3 3 3 3) (GLM.Vec3 2 2 2) 3 "metal"]%R);
    [reflexivity | reflexivity |].
  intros x Hx. apply elem_of_cons in Hx as [-> | Hx]; [discriminate |].
  by apply elem_of_nil in Hx.
Defined.

Lemma SetShaderMaterial_unknown_tag_witness :
  SetShaderMaterial "plastic" blank_material
    (with_shader duplicate_materials ∅)
  = Done (with_shader duplicate_materials (material_pushed blank_material ∅)).
Proof.
  apply (SetShaderMaterial_unknown_tag_sends_garbage "plastic" blank_material
           duplicate_materials ∅); [discriminate |].
  intros e He. cbn in He.
  repeat (apply elem_of_cons in He as [-> | He]; [discriminate |]).
  by apply elem_of_nil in He.
Defined.

Lemma loaded_count_witness :
  well_formed two_textures /\
  exists st',
    LoadTextures demo_decoder [("rgb.jpg", "c"); ("missing.png", "d")]%string
                 two_textures = Done st' /\
    length (m_textureIDs st') = length (m_textureIDs two_textures) /\
    m_loadedTextures two_textures <= m_loadedTextures st' /\
    well_formed st' /\
    well_formed (BindGLTextures st') /\
    well_formed (DestroyGLTextures st').
Proof.
  assert (Hwf : well_formed two_textures) by (unfold well_formed; cbn; lia).
  split; [exact Hwf |]. eexists. split; [reflexivity |].
  exact (loaded_count_stays_within_array demo_decoder
           [("rgb.jpg", "c"); ("missing.png", "d")]%string
           two_textures _ Hwf eq_refl).
Defined.

Lemma loads_keep_existing_slots_witness :
  exists st',
    LoadTextures demo_decoder [("rgb.jpg", "a"); ("rgba.png", "c")]%string
                 two_textures = Done st' /\
    FindTextureSlot "a" st' = FindTextureSlot "a" two_textures /\
    FindTextureID "a" st' = FindTextureID "a" two_textures.
Proof.
  eexists. split; [reflexivity |].
  apply (loads_keep_existing_slots demo_decoder
           [("rgb.jpg", "a"); ("rgba.png", "c")]%string two_textures _ "a"%string);
    [reflexivity |].
  cbn. by left.
Defined.

Lemma rejected_load_witness :
  exists st',
    CreateGLTexture demo_decoder "gray_alpha.png" "g" two_textures
    = Done (false, st') /\
    GL.bound (gl st') = GL.next_name (gl two_textures) /\
    GL.textures (gl st') !! GL.next_name (gl two_textures) = Some None /\
    GL.next_name (gl st') = (GL.next_name (gl two_textures) + 1)%Z /\
    registry st' = registry two_textures /\
    (GL.next_name (gl two_textures) ∉ ID <$> registry st').
Proof.
  exact (CreateGLTexture_rejected_leaves_texture_bound demo_decoder
           "gray_alpha.png" "g" two_textures (demo_image 2)
           eq_refl eq_refl two_textures_in_order two_textures_handles_below).
Defined.

Lemma load_after_bind_witness :
  exists st',
    CreateGLTexture demo_decoder "rgb.jpg" "c" (BindGLTextures two_textures)
    = Done (true, st') /\
    GL.units (gl (BindGLTextures two_textures)) !! 1 = Some 2%Z /\
    GL.units (gl st') !! 1 = Some 0%Z /\
    GL.units (gl (BindGLTextures st')) !! 1 = Some 2%Z /\
    GL.units (gl (BindGLTextures st')) !! 2 = Some 3%Z.
Proof.
  apply (load_after_bind_unbinds_last_unit demo_decoder "rgb.jpg" "c"
           two_textures (demo_image 3) GL.GL_RGB8 1);
    [reflexivity | cbn; lia | reflexivity | reflexivity].
Defined.

Lemma handles_distinct_witness :
  exists st',
    LoadTextures demo_decoder
      [("rgb.jpg", "c"); ("gray_alpha.png", "d"); ("rgba.png", "e")]%string
      two_textures = Done st' /\
    NoDup (ID <$> registry st') /\ handles_below st'.
Proof.
  eexists. split; [reflexivity |].
  exact (loads_keep_handles_distinct demo_decoder
           [("rgb.jpg", "c"); ("gray_alpha.png", "d"); ("rgba.png", "e")]%string
           two_textures _ two_textures_distinct two_textures_handles_below
           eq_refl).
Defined.

Lemma voided_handles_witness :
  registry (DestroyGLTextures two_textures) !! 1
  = Some (MkTextureInfo (3 + 1) "b") /\
  GL.textures (gl (DestroyGLTextures two_textures)) !! (3 + 1)%Z = None /\
  GL.units (gl (BindGLTextures (DestroyGLTextures two_textures))) !! 1
  = Some (3 + 1)%Z /\
  GL.textures (gl (BindGLTextures (DestroyGLTextures two_textures)))
    !! (3 + 1)%Z = Some None.
Proof.
  assert (Hwf : well_formed two_textures) by (unfold well_formed; cbn; lia).
  assert (Hk : 1 < m_loadedTextures two_textures) by (cbn; lia).
  exact (DestroyGLTextures_voids_every_handle two_textures 1 Hwf
           two_textures_in_order Hk).
Defined.

Lemma RenderScene_frame_witness :
  exists f',
    RenderScene no_garbage demo_renderer = Done f' /\
    same_scene (manager demo_renderer) (manager f') /\
    m_basicMeshes f' = m_basicMeshes demo_renderer /\
    wrap f'
    = <[GL.bound (gl (manager demo_renderer))
        := (GL_CLAMP_TO_EDGE, GL_CLAMP_TO_EDGE)]> (wrap demo_renderer) /\
    (drawn f').*1
    = (drawn demo_renderer).*1 ++
      [Plane; Cylinder; Cylinder; Prism; Box; Cylinder; Cylinder; Cylinder;
       Cylinder; Box; Cylinder; Cylinder; Torus; Cylinder].
Proof.
  destruct (run_with_shader (RenderScene_statements no_garbage)
              demo_renderer ∅ eq_refl) as (f' & Hrun & _).
  exists f'. split; [exact Hrun |].
  exact (RenderScene_frame no_garbage demo_renderer f' Hrun).
Defined.

Lemma RenderScene_clamp_witness :
  exists f',
    RenderScene no_garbage demo_renderer = Done f' /\
    wrap f' !! ID (texture_at (m_textureIDs two_textures) 1)
    = Some (GL_CLAMP_TO_EDGE, GL_CLAMP_TO_EDGE) /\
    forall handle,
      handle <> ID (texture_at (m_textureIDs two_textures) 1) ->
      wrap f' !! handle = wrap demo_renderer !! handle.
Proof.
  destruct (run_with_shader (RenderScene_statements no_garbage)
              demo_renderer ∅ eq_refl) as (f' & Hrun & _).
  exists f'. split; [exact Hrun |].
  exact (RenderScene_clamps_last_loaded_texture no_garbage demo_renderer f'
           two_textures 1 eq_refl eq_refl Hrun).
Defined.

Lemma RenderScene_frames_repeat_witness :
  exists f1 f2,
    RenderScene no_garbage demo_renderer = Done f1 /\
    RenderScene no_garbage f1 = Done f2 /\
    manager f2 = manager f1 /\
    exists f3 frame,
      RenderScene no_garbage f2 = Done f3 /\
      manager f3 = manager f2 /\
      drawn f2 = drawn f1 ++ frame /\
      drawn f3 = drawn f2 ++ frame.
Proof.
  destruct (run_with_shader (RenderScene_statements no_garbage)
              demo_renderer ∅ eq_refl) as (f1 & Hrun1 & Hsh1).
  destruct (run_with_shader (RenderScene_statements no_garbage)
              f1 _ Hsh1) as (f2 & Hrun2 & _).
  exists f1, f2. split; [exact Hrun1 |]. split; [exact Hrun2 |].
  exact (RenderScene_frames_repeat no_garbage demo_renderer f1 f2
           Hrun1 Hrun2).
Defined.

Lemma demo_materials_defined :
  m_objectMaterials (manager demo_renderer) <> [].
Proof. discriminate. Defined.

Lemma RenderScene_table_material_witness :
  exists f1 f2 sh1 sh2,
    RenderScene no_garbage demo_renderer = Done f1 /\
    RenderScene no_garbage f1 = Done f2 /\
    drawn f1 !! length (drawn demo_renderer) = Some (Plane, Some sh1) /\
    drawn f2 !! length (drawn f1) = Some (Plane, Some sh2) /\
    sh1 !! "material.shininess"
    = (∅ : gmap string Shader.uniform) !! "material.shininess" /\
    sh2 !! "material.shininess"
    = Some (Shader.UFloat
              (shininess
                 (FindMaterial_loop "metal"
                    (m_objectMaterials (manager demo_renderer))
                    (no_garbage 2)))).
Proof.
  destruct (run_with_shader (RenderScene_statements no_garbage)
              demo_renderer ∅ eq_refl) as (f1 & Hrun1 & Hsh1).
  destruct (run_with_shader (RenderScene_statements no_garbage)
              f1 _ Hsh1) as (f2 & Hrun2 & _).
  destruct (RenderScene_table_inherits_last_material no_garbage demo_renderer
              f1 f2 ∅ eq_refl demo_materials_defined Hrun1 Hrun2)
    as (sh1 & sh2 & H).
  exists f1, f2, sh1, sh2.
  split; [exact Hrun1 |]. split; [exact Hrun2 |]. exact H.
Defined.

Lemma all_rgb_supported :
  Forall (fun load => supported all_rgb load.1) scene_textures.
Proof.
  unfold scene_textures.
  repeat (apply Forall_cons; split;
          [exists (demo_image 3), GL.GL_RGB8; split; reflexivity |]).
  apply Forall_nil_2.
Defined.

Lemma demo_renderer_distinct : NoDup (ID <$> registry (manager demo_renderer)).
Proof. exact two_textures_distinct. Defined.

Lemma demo_renderer_handles_below : handles_below (manager demo_renderer).
Proof.
  intros e He. cbn in He.
  repeat (apply elem_of_cons in He as [-> | He]; [vm_compute; reflexivity |]).
  by apply elem_of_nil in He.
Defined.

(** Two textures are registered when the scene is prepared: "hdrive" is
    entry 6 and "coffee" entry 8. *)
Lemma scene_clamp_witness :
  m_pShaderManager (manager demo_renderer) = Some ∅ /\
  m_loadedTextures (manager demo_renderer) + 7
    <= length (m_textureIDs (manager demo_renderer)) /\
  exists f1 f2 hdrive coffee,
    PrepareScene all_rgb demo_renderer = Done f1 /\
    RenderScene no_garbage f1 = Done f2 /\
    registry (manager f2) !! (m_loadedTextures (manager demo_renderer) + 4)
    = Some (MkTextureInfo hdrive "hdrive") /\
    registry (manager f2) !! (m_loadedTextures (manager demo_renderer) + 6)
    = Some (MkTextureInfo coffee "coffee") /\
    hdrive <> coffee /\
    wrap f2 !! coffee = Some (GL_CLAMP_TO_EDGE, GL_CLAMP_TO_EDGE) /\
    wrap f2 !! hdrive = wrap demo_renderer !! hdrive.
Proof.
  assert (Hroom : m_loadedTextures (manager demo_renderer) + 7
                  <= length (m_textureIDs (manager demo_renderer))).
  { vm_compute. lia. }
  split; [reflexivity |]. split; [exact Hroom |].
  exact (scene_clamp_misses_hdrive all_rgb demo_renderer ∅ no_garbage eq_refl
           demo_renderer_distinct demo_renderer_handles_below Hroom
           all_rgb_supported).
Defined.

(** The scene prepared on a registry that holds two textures already. *)
Lemma PrepareScene_with_shader_witness :
  m_pShaderManager (manager demo_renderer) = Some ∅ /\
  m_loadedTextures (manager demo_renderer)
    + length (successes all_rgb scene_textures)
    <= length (m_textureIDs (manager demo_renderer)) /\
  exists f',
    PrepareScene all_rgb demo_renderer = Done f' /\
    tag <$> registry (manager f')
    = (tag <$> registry (manager demo_renderer))
        ++ ((fun s => s.1.1) <$> successes all_rgb scene_textures) /\
    mtag <$> m_objectMaterials (manager f')
    = (mtag <$> m_objectMaterials (manager demo_renderer))
        ++ ["glass"; "metal"; "wood"]%string /\
    uniform_of (manager f') g_UseLightingName = Some (Shader.UBool true) /\
    m_basicMeshes f'
    = m_basicMeshes demo_renderer
        ++ [Plane; Cone; Box; Prism; Cylinder; Torus].
Proof.
  assert (Hroom : m_loadedTextures (manager demo_renderer)
                    + length (successes all_rgb scene_textures)
                  <= length (m_textureIDs (manager demo_renderer))).
  { vm_compute. lia. }
  split; [reflexivity |]. split; [exact Hroom |].
  exact (PrepareScene_with_shader_returns all_rgb demo_renderer ∅ eq_refl
           Hroom).
Defined.

End MoreRuns.
